(** * Fee analyzer: a shallow embedding of the Ethereum, Arbitrum and
    Litecoin analysis scripts (src/networks/ethereum.py, arbitrum.py,
    litecoin.py) and the properties of their samplers, classifiers,
    aggregators and percentage deltas.

    Conventions of the embedding
    - Python [int] is [Z]; Python [float] is the rational [Q] it stands
      for.  The quotient of two ints is rounded to a double as CPython
      rounds it ([Py.int_truediv]); arithmetic on floats is exact, and the
      exponent range, overflow and NaN of IEEE doubles are outside the
      model.
    - A JSON object read with [d.get(k, default)] is a record whose field
      [k] is an [option]: [None] is "key absent".  For the recipient field
      [to], JSON [null] and "absent" behave alike under [tx.get("to")] and
      both are [None].
    - Exceptions are values of [exc]; a computation that may raise returns
      a [result].
    - Code that talks to the block explorer runs in the monad [M]: the state
      is the outside world (an abstract type with one oracle per remote
      call) together with the journal of the calls made so far.
    - [logging] calls and [time.sleep] have no effect on any value computed
      and are left out, except where building the log message can raise. *)

From Stdlib Require Import ZArith QArith Qabs Qpower Ascii String List Lia Bool
  Lqa.
From stdpp Require Import gmap strings list fin_maps sorting.

Import ListNotations.

(** ** Python primitives *)

Module Py.

Inductive exc : Type :=
| ValueError
| TypeError
| KeyError
| AttributeError
| ZeroDivisionError
| StatisticsError.

Inductive result (A : Type) : Type :=
| Ok (a : A)
| Raise (e : exc).

Arguments Ok {A} a.
Arguments Raise {A} e.

Definition rbind {A B : Type} (r : result A) (k : A -> result B) : result B :=
  match r with
  | Ok a => k a
  | Raise e => Raise e
  end.

(** A JSON scalar that the explorer may send either as a string (hex or
    decimal digits) or as a number. *)
Inductive scalar : Type :=
| SStr (s : string)
| SInt (z : Z).

(** [str.lower()] on ASCII text. *)
Definition lower_ascii (c : ascii) : ascii :=
  let n := nat_of_ascii c in
  if (65 <=? n)%nat && (n <=? 90)%nat then ascii_of_nat (n + 32) else c.

Fixpoint lower (s : string) : string :=
  match s with
  | EmptyString => EmptyString
  | String c r => String (lower_ascii c) (lower r)
  end.

(** Truth value of a string: empty is false. *)
Definition truthy_str (s : string) : bool :=
  match s with
  | EmptyString => false
  | String _ _ => true
  end.

(** Truth value of [d.get(k)] for a string-valued key: absent (or null) and
    the empty string are false. *)
Definition truthy_opt (o : option string) : bool :=
  match o with
  | None => false
  | Some s => truthy_str s
  end.

(** [s.startswith(p)] *)
Definition startswith (s p : string) : bool := String.prefix p s.

(** *** [int(text, base)]

    Follows CPython's [PyLong_FromString]: surrounding white space (tab,
    line feed, vertical tab, form feed, carriage return and space: on
    ASCII text [int] skips no other character), an optional sign, an
    optional base prefix (required to pick the base when [base = 0]),
    digits separated by single underscores.  Characters above 127 and the
    4300-digit limit on decimal strings are outside the model. *)

Definition is_space (c : ascii) : bool :=
  let n := nat_of_ascii c in
  ((9 <=? n)%nat && (n <=? 13)%nat) || (n =? 32)%nat.

Fixpoint skip_spaces (l : list ascii) : list ascii :=
  match l with
  | c :: r => if is_space c then skip_spaces r else l
  | [] => []
  end.

Definition digit_value (c : ascii) : option Z :=
  let n := nat_of_ascii c in
  if (48 <=? n)%nat && (n <=? 57)%nat then Some (Z.of_nat n - 48)%Z
  else if (97 <=? n)%nat && (n <=? 122)%nat then Some (Z.of_nat n - 87)%Z
  else if (65 <=? n)%nat && (n <=? 90)%nat then Some (Z.of_nat n - 55)%Z
  else None.

Definition is_char (c : ascii) (l : list ascii) : bool :=
  existsb (Ascii.eqb c) l.

(** The digit loop: returns the value read, the number of digits, whether the
    last character read was an underscore, and the unread rest; [None] when
    two underscores follow each other. *)
Fixpoint scan_digits (base : Z) (l : list ascii) (acc : Z) (prev_us : bool)
    (n : nat) : option (Z * nat * bool * list ascii) :=
  match l with
  | [] => Some (acc, n, prev_us, [])
  | c :: r =>
      if Ascii.eqb c "_"%char then
        if prev_us then None else scan_digits base r acc true n
      else
        match digit_value c with
        | Some d =>
            if (d <? base)%Z
            then scan_digits base r (acc * base + d)%Z false (S n)
            else Some (acc, n, prev_us, l)
        | None => Some (acc, n, prev_us, l)
        end
  end.

(** The base chosen from the text when [base = 0], with the flag "a leading
    zero without prefix: only zero itself is allowed". *)
Definition pick_base (base : Z) (l : list ascii) : Z * bool :=
  if (base =? 0)%Z then
    match l with
    | c0 :: c1 :: _ =>
        if negb (Ascii.eqb c0 "0"%char) then (10%Z, false)
        else if is_char c1 ["x"; "X"]%char then (16%Z, false)
        else if is_char c1 ["o"; "O"]%char then (8%Z, false)
        else if is_char c1 ["b"; "B"]%char then (2%Z, false)
        else (10%Z, true)
    | [c0] => if Ascii.eqb c0 "0"%char then (10%Z, true) else (10%Z, false)
    | [] => (10%Z, false)
    end
  else (base, false).

Definition skip_prefix (base : Z) (l : list ascii) : list ascii :=
  match l with
  | c0 :: c1 :: r =>
      if Ascii.eqb c0 "0"%char &&
         (((base =? 16)%Z && is_char c1 ["x"; "X"]%char) ||
          ((base =? 8)%Z && is_char c1 ["o"; "O"]%char) ||
          ((base =? 2)%Z && is_char c1 ["b"; "B"]%char))
      then match r with
           | c2 :: r' => if Ascii.eqb c2 "_"%char then r' else r
           | [] => r
           end
      else l
  | _ => l
  end.

Definition int_of_string (s : string) (base : Z) : result Z :=
  if negb ((base =? 0)%Z || ((2 <=? base)%Z && (base <=? 36)%Z))
  then Raise ValueError
  else
    let l0 := skip_spaces (list_ascii_of_string s) in
    let '(neg, l1) :=
      match l0 with
      | c :: r =>
          if Ascii.eqb c "+"%char then (false, r)
          else if Ascii.eqb c "-"%char then (true, r)
          else (false, l0)
      | [] => (false, l0)
      end in
    let '(b, zero_only) := pick_base base l1 in
    let l2 := skip_prefix b l1 in
    match l2 with
    | c :: _ =>
        if Ascii.eqb c "_"%char then Raise ValueError
        else
          match scan_digits b l2 0%Z false 0%nat with
          | None => Raise ValueError
          | Some (v, n, last_us, rest) =>
              if last_us then Raise ValueError
              else if zero_only && negb (v =? 0)%Z then Raise ValueError
              else if (n =? 0)%nat then Raise ValueError
              else
                match skip_spaces rest with
                | [] => Ok (if neg then (- v)%Z else v)
                | _ :: _ => Raise ValueError
                end
          end
    | [] => Raise ValueError
    end.

(** [int(x, base)] with an explicit base: only text is accepted. *)
Definition int_base (x : scalar) (base : Z) : result Z :=
  match x with
  | SStr s => int_of_string s base
  | SInt _ => Raise TypeError
  end.

(** [int(x)]: text is read in base ten, a number is returned as it is. *)
Definition int (x : scalar) : result Z :=
  match x with
  | SStr s => int_of_string s 10
  | SInt z => Ok z
  end.

(** True division [a / b] of two floats. *)
Definition truediv (a b : Q) : result Q :=
  if Qeq_bool b 0 then Raise ZeroDivisionError else Ok (a / b)%Q.

(** *** [a / b] on two ints

    CPython divides two ints exactly and returns the double nearest to the
    quotient, a tie going to the even significand; the double is kept as the
    rational it stands for.  The exponent range is not modelled: the
    quotient of two ints is too large for a double (OverflowError) only
    above 1.8e308. *)

(** The quotient [m / d] divided by [2 ^ e], as a fraction of integers. *)
Definition scale_num (m e : Z) : Z :=
  if (0 <=? e)%Z then m else (m * 2 ^ (- e))%Z.

Definition scale_den (d e : Z) : Z :=
  if (0 <=? e)%Z then (d * 2 ^ e)%Z else d.

(** The exponent [e] of the last of the 53 bits of the significand:
    [2 ^ 52 <= m / d / 2 ^ e < 2 ^ 53]. *)
Definition last_bit_exponent (m d : Z) : Z :=
  let e := (Z.log2 m - Z.log2 d - 52)%Z in
  if (scale_num m e / scale_den d e <? 2 ^ 52)%Z then (e - 1)%Z else e.

(** [num / den] rounded to the nearest integer, a tie to the even one. *)
Definition round_half_even (num den : Z) : Z :=
  let q := (num / den)%Z in
  let r := (num mod den)%Z in
  if (den <? 2 * r)%Z || ((2 * r =? den)%Z && Z.odd q) then (q + 1)%Z else q.

Definition pow2 (e : Z) : Q :=
  if (0 <=? e)%Z then inject_Z (2 ^ e) else 1 # Z.to_pos (2 ^ (- e)).

Definition nearest_double (a b : Z) : Q :=
  if (a =? 0)%Z then 0%Q
  else
    let e := last_bit_exponent (Z.abs a) (Z.abs b) in
    let q := round_half_even (scale_num (Z.abs a) e) (scale_den (Z.abs b) e) in
    (inject_Z (Z.sgn a * Z.sgn b * q) * pow2 e)%Q.

Definition int_truediv (a b : Z) : result Q :=
  if (b =? 0)%Z then Raise ZeroDivisionError else Ok (nearest_double a b).

End Py.

(** ** Computations that call the block explorer *)

Module Monad.
Import Py.

(** State and exceptions: the state survives a raise, so that a handler
    ([try ... except]) continues from it. *)
Definition M (S A : Type) : Type := S -> result A * S.

Definition ret {S A : Type} (a : A) : M S A := fun s => (Ok a, s).

Definition raise {S A : Type} (e : exc) : M S A := fun s => (Raise e, s).

Definition bind {S A B : Type} (m : M S A) (k : A -> M S B) : M S B :=
  fun s =>
    match m s with
    | (Ok a, s') => k a s'
    | (Raise e, s') => (Raise e, s')
    end.

(** A pure computation that may raise. *)
Definition lift {S A : Type} (r : result A) : M S A := fun s => (r, s).

(** [for x in l: acc = body(x, acc)] *)
Fixpoint for_each {S A Acc : Type} (l : list A) (body : A -> Acc -> M S Acc)
    (acc : Acc) : M S Acc :=
  match l with
  | [] => ret acc
  | x :: r => bind (body x acc) (for_each r body)
  end.

End Monad.

Declare Scope monad_scope.
Delimit Scope monad_scope with monad.
Declare Scope result_scope.
Delimit Scope result_scope with result.
Notation "'do' x <- m ; k" := (Monad.bind m (fun x => k))
  (at level 10, x name, m at level 100, k at level 200) : monad_scope.
Notation "'do' ' p <- m ; k" := (Monad.bind m (fun p => k))
  (at level 10, p pattern, m at level 100, k at level 200) : monad_scope.
Notation "'do' x <- m ; k" := (Py.rbind m (fun x => k))
  (at level 10, x name, m at level 100, k at level 200) : result_scope.
Notation "'do' ' p <- m ; k" := (Py.rbind m (fun p => k))
  (at level 10, p pattern, m at level 100, k at level 200) : result_scope.

(** ** The percentage delta of the reports

    The three scripts write it inline, once per compared metric:
    [((mine - network) / network * 100) if network > 0 else 0]. *)

Module Report.
Import Py.

Definition Qlt_bool (a b : Q) : bool := negb (Qle_bool b a).

Definition percent_diff (mine network : Q) : result Q :=
  if Qlt_bool 0 network
  then rbind (truediv (mine - network) network) (fun d => Ok (d * 100)%Q)
  else Ok 0%Q.

End Report.

(** ** Records shared by the two account-model scripts *)

Module Account.
Import Py.

(** A transaction as the explorer returns it, from the transaction list
    ([blockNumber], [gasUsed], ... as decimal text) or from a block
    ([from], [to], [input], [value], ... as hexadecimal text). *)
Record RawTx : Type := {
  tx_hash : option string;
  tx_from : option string;
  tx_to : option string;
  tx_input : option string;
  tx_value : option scalar;
  tx_blockNumber : option scalar;
  tx_gasUsed : option scalar;
  tx_gasPrice : option scalar;
  tx_gas : option scalar
}.

(** A receipt object. *)
Record Receipt : Type := {
  rc_gasUsed : option scalar
}.

(** What the explorer sends as the "result" of a receipt request, when it
    is a true value: a receipt object or, as in its error answers,
    something that is no object (the text of a message, say).  An absent,
    null, empty or false one is [None] where an answer is expected. *)
Inductive answer : Type :=
| Object (rc : Receipt)
| NotAnObject.

(** [receipt.get("gasUsed", ...)]: only an object has [get]. *)
Definition get_gasUsed (receipt : answer) : result (option scalar) :=
  match receipt with
  | Object rc => Ok (rc_gasUsed rc)
  | NotAnObject => Raise AttributeError
  end.

(** The dictionary built for each of the user's transactions and for each
    sampled network transfer. *)
Record Transfer : Type := {
  token : string;
  hash : string;
  block : Z;
  gas_used : Z;
  gas_price : Z;
  gas_limit : Z;
  fee : Z
}.

(** The values read from config.py. *)
Record Config : Type := {
  API_KEY : string;
  MY_ADDRESS : string;
  NETWORK_TOKENS : list (string * string);
  MAX_MY_TRANSACTIONS : Z;
  MAX_NETWORK_EXAMPLES : Z
}.

(** The remote calls, as made so far. *)
Inductive call : Type :=
| CallTransactions (address : string) (contract_address : option string)
    (limit : Z)
| CallBlock (block_number : Z)
| CallReceipt (tx_hash : string).

(** The block explorer: [get_transactions], [get_block_transactions] and
    [get_transaction_receipt] each make one request and turn every failure
    of the request into an empty list or an absent receipt;
    [get_transaction_receipt] returns the "result" of the answer as it
    is. *)
Record Api (W : Type) : Type := {
  api_transactions : string -> option string -> Z -> W -> list RawTx * W;
  api_block : Z -> W -> list RawTx * W;
  api_receipt : string -> W -> option answer * W
}.

Arguments api_transactions {W}.
Arguments api_block {W}.
Arguments api_receipt {W}.

Record State (W : Type) : Type := {
  world : W;
  journal : list call
}.

Arguments world {W}.
Arguments journal {W}.
Arguments Build_State {W}.

Definition zero_address : string :=
  "0x0000000000000000000000000000000000000000".

Definition transfer_selector : string := "0xa9059cbb".

Section Calls.
Context {W : Type} (api : Api W).

Definition get_transactions (address : string)
    (contract_address : option string) (limit : Z)
    : Monad.M (State W) (list RawTx) :=
  fun s =>
    let '(r, w) := api_transactions api address contract_address limit (world s) in
    (Ok r, Build_State w
             (journal s ++ [CallTransactions address contract_address limit])).

Definition get_block_transactions (block_number : Z)
    : Monad.M (State W) (list RawTx) :=
  fun s =>
    let '(r, w) := api_block api block_number (world s) in
    (Ok r, Build_State w (journal s ++ [CallBlock block_number])).

Definition get_transaction_receipt (tx_hash : string)
    : Monad.M (State W) (option answer) :=
  fun s =>
    let '(r, w) := api_receipt api tx_hash (world s) in
    (Ok r, Build_State w (journal s ++ [CallReceipt tx_hash])).

End Calls.

(** *** Per-asset statistics ([analyze_data]) *)

Record Stats : Type := {
  count : Z;
  total_gas_used : Z;
  total_gas_price : Z;
  total_gas_limit : Z;
  total_fee : Z;
  avg_gas_used : option Q;
  avg_gas_price : option Q;
  avg_gas_limit : option Q;
  avg_fee : option Q
}.

(** The value a [defaultdict] creates for a token seen for the first time. *)
Definition new_stats : Stats :=
  {| count := 0; total_gas_used := 0; total_gas_price := 0;
     total_gas_limit := 0; total_fee := 0;
     avg_gas_used := None; avg_gas_price := None;
     avg_gas_limit := None; avg_fee := None |}.

(** One turn of [for tx in data[...]]: the five [+=] on [stats[token]]. *)
Definition accumulate (stats : gmap string Stats) (tx : Transfer)
    : gmap string Stats :=
  let s := default new_stats (stats !! token tx) in
  <[ token tx :=
       {| count := count s + 1;
          total_gas_used := total_gas_used s + gas_used tx;
          total_gas_price := total_gas_price s + gas_price tx;
          total_gas_limit := total_gas_limit s + gas_limit tx;
          total_fee := total_fee s + fee tx;
          avg_gas_used := avg_gas_used s;
          avg_gas_price := avg_gas_price s;
          avg_gas_limit := avg_gas_limit s;
          avg_fee := avg_fee s |} ]> stats.

(** [if stats[token]["count"] > 0:] the four averages, each the quotient
    of two ints. *)
Definition set_averages (s : Stats) : result Stats :=
  if (0 <? count s)%Z then
    (do a_used <- int_truediv (total_gas_used s) (count s);
     do a_price <- int_truediv (total_gas_price s) (count s);
     do a_limit <- int_truediv (total_gas_limit s) (count s);
     do a_fee <- int_truediv (total_fee s) (count s);
     Ok {| count := count s;
           total_gas_used := total_gas_used s;
           total_gas_price := total_gas_price s;
           total_gas_limit := total_gas_limit s;
           total_fee := total_fee s;
           avg_gas_used := Some a_used;
           avg_gas_price := Some a_price;
           avg_gas_limit := Some a_limit;
           avg_fee := Some a_fee |})%result
  else Ok s.

(** [for token in stats: ...] *)
Definition averages (stats : gmap string Stats) : result (gmap string Stats) :=
  map_fold
    (fun tok s acc =>
       (do m <- acc; do s' <- set_averages s; Ok (<[ tok := s' ]> m))%result)
    (Ok ∅) stats.

Definition analyze_data (my_transactions network_transfers : list Transfer)
    : result (gmap string Stats * gmap string Stats) :=
  let my_stats := fold_left accumulate my_transactions ∅ in
  let network_stats := fold_left accumulate network_transfers ∅ in
  (do my_stats' <- averages my_stats;
   do network_stats' <- averages network_stats;
   Ok (my_stats', network_stats'))%result.

End Account.

(** ** src/networks/ethereum.py *)

Module Ethereum.
Import Py Account.

Definition TOKEN_DISPLAY_NAMES (token_name : string) : option string :=
  if String.eqb token_name "eth" then Some "ETH"
  else if String.eqb token_name "usdt" then Some "USDT"
  else if String.eqb token_name "usdc" then Some "USDC"
  else None.

Definition wei_to_eth (wei_value : Q) : Q := wei_value / inject_Z (10 ^ 18).

(** The truth value of what [is_token_transfer] returns. *)
Definition is_token_transfer (tx : RawTx) (token_address : string)
    : result bool :=
  if String.eqb token_address zero_address then
    if truthy_opt (tx_to tx) then
      (do v <- int_base (default (SStr "0") (tx_value tx)) 16;
       Ok (0 <? v)%Z)%result
    else Ok false
  else
    match tx_to tx with
    | Some to =>
        Ok (truthy_str to
            && String.eqb (lower to) (lower token_address)
            && startswith (default EmptyString (tx_input tx)) transfer_selector)
    | None => Ok false
    end.

Section Run.
Context {W : Type} (api : Api W) (cfg : Config).

(** The body of [for tx in txs] in [collect_my_transactions]. *)
Definition collect_tx (token_name : string) (tx : RawTx)
    (acc : list Transfer * gset Z) : result (list Transfer * gset Z) :=
  let '(my_transactions, blocks_to_analyze) := acc in
  (do block_number <- int (default (SStr "0") (tx_blockNumber tx));
   if (0 <? block_number)%Z then
     do used <- int (default (SStr "0") (tx_gasUsed tx));
     do price <- int (default (SStr "0") (tx_gasPrice tx));
     do limit <- int (default (SStr "0") (tx_gas tx));
     do used' <- int (default (SStr "0") (tx_gasUsed tx));
     do price' <- int (default (SStr "0") (tx_gasPrice tx));
     Ok (my_transactions ++
           [ {| token := token_name;
                hash := default EmptyString (tx_hash tx);
                block := block_number;
                gas_used := used;
                gas_price := price;
                gas_limit := limit;
                fee := used' * price' |} ],
         {[ block_number ]} ∪ blocks_to_analyze)
   else Ok acc)%result.

Definition collect_my_transactions
    : Monad.M (State W) (list Transfer * list Z) :=
  (do ' (my_transactions, blocks_to_analyze) <-
     Monad.for_each (NETWORK_TOKENS cfg)
       (fun '(token_name, token_address) acc =>
          do txs <- get_transactions api (MY_ADDRESS cfg)
                      (if String.eqb token_name "eth" then None
                       else Some token_address)
                      (MAX_MY_TRANSACTIONS cfg);
          Monad.for_each txs
            (fun tx acc' => Monad.lift (collect_tx token_name tx acc')) acc)
       ([], ∅);
   (* [list(blocks_to_analyze)]: the blocks of the set, each once, in the
      order of [elements]; CPython lists them in the order of its hash
      table, and no property below depends on the order. *)
   Monad.ret (my_transactions, elements blocks_to_analyze))%monad.

(** The body of [for token_name, token_address in NETWORK_TOKENS.items()]
    for one transaction of one block. *)
Definition match_token (tokens_to_find : gset string) (block : Z) (tx : RawTx)
    (tok : string * string) (acc : list Transfer * gmap string Z)
    : Monad.M (State W) (list Transfer * gmap string Z) :=
  let '(token_name, token_address) := tok in
  let '(network_data, token_counters) := acc in
  if negb (bool_decide (token_name ∈ tokens_to_find)) then Monad.ret acc
  else
    match token_counters !! token_name with
    | None => Monad.raise KeyError
    | Some found =>
        if (MAX_NETWORK_EXAMPLES cfg <=? found)%Z then Monad.ret acc
        else
          (do matched <- Monad.lift (is_token_transfer tx token_address);
           if matched : bool then
             do receipt <- get_transaction_receipt api
                             (default EmptyString (tx_hash tx));
             match receipt with
             | Some rc =>
                 do used <- Monad.lift
                      (do gasUsed <- get_gasUsed rc;
                       int_base (default (SStr "0") gasUsed) 16)%result;
                 do price <- Monad.lift
                      (int_base (default (SStr "0") (tx_gasPrice tx)) 16);
                 do limit <- Monad.lift
                      (int_base (default (SStr "0") (tx_gas tx)) 16);
                 Monad.ret
                   (network_data ++
                      [ {| token := token_name;
                           hash := default EmptyString (tx_hash tx);
                           block := block;
                           gas_used := used;
                           gas_price := price;
                           gas_limit := limit;
                           fee := used * price |} ],
                    <[ token_name := (found + 1)%Z ]> token_counters)
             | None => Monad.ret acc
             end
           else Monad.ret acc)%monad
    end.

(** The body of [for i, block in enumerate(blocks)]: the counters are
    created anew for each block. *)
Definition scan_block (tokens_to_find : gset string) (block : Z)
    (network_data : list Transfer) : Monad.M (State W) (list Transfer) :=
  (do txs_in_block <- get_block_transactions api block;
   let token_counters : gmap string Z := gset_to_gmap 0%Z tokens_to_find in
   do ' (network_data', _) <-
     Monad.for_each txs_in_block
       (fun tx acc =>
          Monad.for_each (NETWORK_TOKENS cfg)
            (match_token tokens_to_find block tx) acc)
       (network_data, token_counters);
   Monad.ret network_data')%monad.

Definition collect_network_transfers (blocks : list Z)
    (tokens_to_find : gset string) : Monad.M (State W) (list Transfer) :=
  Monad.for_each blocks (scan_block tokens_to_find) [].

(** One row of the report, before the numbers are formatted as text. *)
Record Row : Type := {
  row_token : string;
  row_my_count : Z;
  row_my_gas_used : Q;
  row_my_gas_limit : Q;
  row_my_gas_price_gwei : Q;
  row_my_fee_eth : Q;
  row_network_count : Z;
  row_network_gas_used : Q;
  row_network_gas_limit : Q;
  row_network_gas_price_gwei : Q;
  row_network_fee_eth : Q;
  row_fee_diff_percent : Q;
  row_gas_limit_diff_percent : Q
}.

Definition report_row (token_name : string) (my_data network_data : Stats)
    : result Row :=
  let network_fee := default 0%Q (avg_fee network_data) in
  let my_fee := default 0%Q (avg_fee my_data) in
  (do fee_diff_percent <- Report.percent_diff my_fee network_fee;
   let network_gas_limit := default 0%Q (avg_gas_limit network_data) in
   let my_gas_limit := default 0%Q (avg_gas_limit my_data) in
   do gas_limit_diff_percent <-
     Report.percent_diff my_gas_limit network_gas_limit;
   Ok {| row_token := default token_name (TOKEN_DISPLAY_NAMES token_name);
         row_my_count := count my_data;
         row_my_gas_used := default 0%Q (avg_gas_used my_data);
         row_my_gas_limit := default 0%Q (avg_gas_limit my_data);
         row_my_gas_price_gwei :=
           default 0%Q (avg_gas_price my_data) / inject_Z (10 ^ 9);
         row_my_fee_eth := wei_to_eth (default 0%Q (avg_fee my_data));
         row_network_count := count network_data;
         row_network_gas_used := default 0%Q (avg_gas_used network_data);
         row_network_gas_limit := default 0%Q (avg_gas_limit network_data);
         row_network_gas_price_gwei :=
           default 0%Q (avg_gas_price network_data) / inject_Z (10 ^ 9);
         row_network_fee_eth :=
           wei_to_eth (default 0%Q (avg_fee network_data));
         row_fee_diff_percent := fee_diff_percent;
         row_gas_limit_diff_percent := gas_limit_diff_percent |})%result.

Fixpoint generate_report (my_stats network_stats : gmap string Stats)
    (tokens_analyzed : list string) : result (list Row) :=
  match tokens_analyzed with
  | [] => Ok []
  | token_name :: rest =>
      match my_stats !! token_name, network_stats !! token_name with
      | Some my_data, Some network_data =>
          (do row <- report_row token_name my_data network_data;
           do rows <- generate_report my_stats network_stats rest;
           Ok (row :: rows))%result
      | _, _ => generate_report my_stats network_stats rest
      end
  end.

(** What [main] saves as JSON. *)
Record Output : Type := {
  blocks_analyzed : list Z;
  tokens_analyzed : list string;
  my_transactions : list Transfer;
  network_transfers : list Transfer
}.

Definition placeholder_key : string := "YOUR_ETHERSCAN_API_KEY_HERE".

(** [main], without the files it writes and the text it prints: [None] is
    an early [return]. *)
Definition main : Monad.M (State W) (option (Output * list Row)) :=
  if negb (truthy_str (MY_ADDRESS cfg)) then Monad.ret None
  else if negb (truthy_str (API_KEY cfg))
          || String.eqb (API_KEY cfg) placeholder_key then Monad.ret None
  else
    (do ' (my_txs, blocks) <- collect_my_transactions;
     match my_txs with
     | [] => Monad.ret None
     | _ :: _ =>
         let tokens_in_my_txs : gset string :=
           list_to_set (map token my_txs) in
         do network_data <- collect_network_transfers blocks tokens_in_my_txs;
         let output_data :=
           {| blocks_analyzed := blocks;
              tokens_analyzed := elements tokens_in_my_txs;
              my_transactions := my_txs;
              network_transfers := network_data |} in
         do ' (my_stats, network_stats) <-
           Monad.lift (analyze_data my_txs network_data);
         do table_data <-
           Monad.lift (generate_report my_stats network_stats
                         (tokens_analyzed output_data));
         Monad.ret (Some (output_data, table_data))
     end)%monad.

End Run.
End Ethereum.

(** ** src/networks/arbitrum.py *)

Module Arbitrum.
Import Py Account.

Definition TOKEN_DISPLAY_NAMES (token_name : string) : option string :=
  if String.eqb token_name "eth" then Some "ETH"
  else if String.eqb token_name "usdt" then Some "USDT"
  else if String.eqb token_name "usdc" then Some "USDC"
  else None.

Definition wei_to_eth (wei_value : Q) : Q := wei_value / inject_Z (10 ^ 18).

(** [tx.get("input") == "0x" or tx.get("input") == ""] *)
Definition input_is_empty (input : option string) : bool :=
  match input with
  | Some s => String.eqb s "0x" || String.eqb s EmptyString
  | None => false
  end.

(** The truth value of what [is_token_transfer] returns. *)
Definition is_token_transfer (tx : RawTx) (token_address : string)
    : result bool :=
  if String.eqb token_address zero_address then
    if truthy_opt (tx_to tx) then
      (do v <- int_base (default (SStr "0") (tx_value tx)) 0;
       Ok ((0 <? v)%Z && input_is_empty (tx_input tx)))%result
    else Ok false
  else
    match tx_to tx with
    | Some to =>
        Ok (truthy_str to
            && String.eqb (lower to) (lower token_address)
            && startswith (default EmptyString (tx_input tx)) transfer_selector)
    | None => Ok false
    end.

(** [int(x, 16) if isinstance(x, str) else x], where an absent key reads as
    the text ["0"]. *)
Definition hex_or_number (x : option scalar) : result Z :=
  match default (SStr "0") x with
  | SStr s => int_of_string s 16
  | SInt z => Ok z
  end.

Section Run.
Context {W : Type} (api : Api W) (cfg : Config).

(** The body of [for tx in txs] in [collect_my_transactions]. *)
Definition collect_tx (token_name : string) (tx : RawTx)
    (acc : list Transfer * gset Z) : result (list Transfer * gset Z) :=
  let '(my_transactions, blocks_to_analyze) := acc in
  (do block_number <- int (default (SStr "0") (tx_blockNumber tx));
   if (0 <? block_number)%Z then
     do used <- int (default (SStr "0") (tx_gasUsed tx));
     do price <- int (default (SStr "0") (tx_gasPrice tx));
     do limit <- int (default (SStr "0") (tx_gas tx));
     do used' <- int (default (SStr "0") (tx_gasUsed tx));
     do price' <- int (default (SStr "0") (tx_gasPrice tx));
     Ok (my_transactions ++
           [ {| token := token_name;
                hash := default EmptyString (tx_hash tx);
                block := block_number;
                gas_used := used;
                gas_price := price;
                gas_limit := limit;
                fee := used' * price' |} ],
         {[ block_number ]} ∪ blocks_to_analyze)
   else Ok acc)%result.

Definition collect_my_transactions
    : Monad.M (State W) (list Transfer * list Z) :=
  (do ' (my_transactions, blocks_to_analyze) <-
     Monad.for_each (NETWORK_TOKENS cfg)
       (fun '(token_name, token_address) acc =>
          do txs <- get_transactions api (MY_ADDRESS cfg)
                      (if String.eqb token_name "eth" then None
                       else Some token_address)
                      (MAX_MY_TRANSACTIONS cfg);
          Monad.for_each txs
            (fun tx acc' => Monad.lift (collect_tx token_name tx acc')) acc)
       ([], ∅);
   (* [list(blocks_to_analyze)]: the blocks of the set, each once, in the
      order of [elements]; CPython lists them in the order of its hash
      table, and no property below depends on the order. *)
   Monad.ret (my_transactions, elements blocks_to_analyze))%monad.

(** [tx.get("from", "").lower() == MY_ADDRESS.lower()] *)
Definition sent_by_me (tx : RawTx) : bool :=
  String.eqb (lower (default EmptyString (tx_from tx)))
             (lower (MY_ADDRESS cfg)).

(** The body of [for token_name, token_address in NETWORK_TOKENS.items()]
    for one transaction of one block. *)
Definition match_token (tokens_to_find : gset string) (block : Z) (tx : RawTx)
    (tok : string * string) (acc : list Transfer * gmap string Z)
    : Monad.M (State W) (list Transfer * gmap string Z) :=
  let '(token_name, token_address) := tok in
  let '(network_data, token_counters) := acc in
  let tx_hash_text := default "N/A" (tx_hash tx) in
  if negb (bool_decide (token_name ∈ tokens_to_find)) then Monad.ret acc
  else
    match token_counters !! token_name with
    | None => Monad.raise KeyError
    | Some found =>
        if (MAX_NETWORK_EXAMPLES cfg <=? found)%Z then Monad.ret acc
        else
          (do matched <- Monad.lift (is_token_transfer tx token_address);
           if matched : bool then
             do receipt <- get_transaction_receipt api tx_hash_text;
             match receipt with
             | Some rc =>
                 do used <- Monad.lift
                      (do gasUsed <- get_gasUsed rc;
                       hex_or_number gasUsed)%result;
                 do price <- Monad.lift (hex_or_number (tx_gasPrice tx));
                 do limit <- Monad.lift (hex_or_number (tx_gas tx));
                 Monad.ret
                   (network_data ++
                      [ {| token := token_name;
                           hash := tx_hash_text;
                           block := block;
                           gas_used := used;
                           gas_price := price;
                           gas_limit := limit;
                           fee := used * price |} ],
                    <[ token_name := (found + 1)%Z ]> token_counters)
             | None => Monad.ret acc
             end
           else Monad.ret acc)%monad
    end.

(** The body of [for tx_index, tx in enumerate(txs_in_block)]: a
    transaction sent from the user's address is passed over. *)
Definition scan_tx (tokens_to_find : gset string) (block : Z) (tx : RawTx)
    (acc : list Transfer * gmap string Z)
    : Monad.M (State W) (list Transfer * gmap string Z) :=
  if sent_by_me tx then Monad.ret acc
  else Monad.for_each (NETWORK_TOKENS cfg)
         (match_token tokens_to_find block tx) acc.

(** The body of [for i, block in enumerate(blocks)]: the counters are
    created anew for each block. *)
Definition scan_block (tokens_to_find : gset string) (block : Z)
    (network_data : list Transfer) : Monad.M (State W) (list Transfer) :=
  (do txs_in_block <- get_block_transactions api block;
   let token_counters : gmap string Z := gset_to_gmap 0%Z tokens_to_find in
   do ' (network_data', _) <-
     Monad.for_each txs_in_block (scan_tx tokens_to_find block)
       (network_data, token_counters);
   Monad.ret network_data')%monad.

Definition collect_network_transfers (blocks : list Z)
    (tokens_to_find : gset string) : Monad.M (State W) (list Transfer) :=
  Monad.for_each blocks (scan_block tokens_to_find) [].

(** One row of the report, before the numbers are formatted as text. *)
Record Row : Type := {
  row_token : string;
  row_my_count : Z;
  row_my_gas_used : Q;
  row_my_gas_limit : Q;
  row_my_gas_price_gwei : Q;
  row_my_fee_eth : Q;
  row_network_count : Z;
  row_network_gas_used : Q;
  row_network_gas_limit : Q;
  row_network_gas_price_gwei : Q;
  row_network_fee_eth : Q;
  row_fee_diff_percent : Q;
  row_gas_limit_diff_percent : Q;
  row_gas_used_diff_percent : Q;
  row_gas_price_diff_percent : Q
}.

Definition report_row (token_name : string) (my_data network_data : Stats)
    : result Row :=
  (do fee_diff_percent <-
     Report.percent_diff (default 0%Q (avg_fee my_data))
                         (default 0%Q (avg_fee network_data));
   do gas_limit_diff_percent <-
     Report.percent_diff (default 0%Q (avg_gas_limit my_data))
                         (default 0%Q (avg_gas_limit network_data));
   do gas_used_diff_percent <-
     Report.percent_diff (default 0%Q (avg_gas_used my_data))
                         (default 0%Q (avg_gas_used network_data));
   do gas_price_diff_percent <-
     Report.percent_diff (default 0%Q (avg_gas_price my_data))
                         (default 0%Q (avg_gas_price network_data));
   Ok {| row_token := default token_name (TOKEN_DISPLAY_NAMES token_name);
         row_my_count := count my_data;
         row_my_gas_used := default 0%Q (avg_gas_used my_data);
         row_my_gas_limit := default 0%Q (avg_gas_limit my_data);
         row_my_gas_price_gwei :=
           default 0%Q (avg_gas_price my_data) / inject_Z (10 ^ 9);
         row_my_fee_eth := wei_to_eth (default 0%Q (avg_fee my_data));
         row_network_count := count network_data;
         row_network_gas_used := default 0%Q (avg_gas_used network_data);
         row_network_gas_limit := default 0%Q (avg_gas_limit network_data);
         row_network_gas_price_gwei :=
           default 0%Q (avg_gas_price network_data) / inject_Z (10 ^ 9);
         row_network_fee_eth :=
           wei_to_eth (default 0%Q (avg_fee network_data));
         row_fee_diff_percent := fee_diff_percent;
         row_gas_limit_diff_percent := gas_limit_diff_percent;
         row_gas_used_diff_percent := gas_used_diff_percent;
         row_gas_price_diff_percent := gas_price_diff_percent |})%result.

Fixpoint generate_report (my_stats network_stats : gmap string Stats)
    (tokens_analyzed : list string) : result (list Row) :=
  match tokens_analyzed with
  | [] => Ok []
  | token_name :: rest =>
      match my_stats !! token_name, network_stats !! token_name with
      | Some my_data, Some network_data =>
          (do row <- report_row token_name my_data network_data;
           do rows <- generate_report my_stats network_stats rest;
           Ok (row :: rows))%result
      | _, _ => generate_report my_stats network_stats rest
      end
  end.

(** What [main] saves as JSON. *)
Record Output : Type := {
  blocks_analyzed : list Z;
  tokens_analyzed : list string;
  my_transactions : list Transfer;
  network_transfers : list Transfer
}.

Definition placeholder_key : string := "YOUR_ETHERSCAN_API_KEY_HERE".

(** [main], without the files it writes and the text it prints: [None] is
    an early [return]. *)
Definition main : Monad.M (State W) (option (Output * list Row)) :=
  if negb (truthy_str (MY_ADDRESS cfg)) then Monad.ret None
  else if negb (truthy_str (API_KEY cfg))
          || String.eqb (API_KEY cfg) placeholder_key then Monad.ret None
  else
    (do ' (my_txs, blocks) <- collect_my_transactions;
     match my_txs with
     | [] => Monad.ret None
     | _ :: _ =>
         let tokens_in_my_txs : gset string :=
           list_to_set (map token my_txs) in
         do network_data <- collect_network_transfers blocks tokens_in_my_txs;
         let output_data :=
           {| blocks_analyzed := blocks;
              tokens_analyzed := elements tokens_in_my_txs;
              my_transactions := my_txs;
              network_transfers := network_data |} in
         do ' (my_stats, network_stats) <-
           Monad.lift (analyze_data my_txs network_data);
         do table_data <-
           Monad.lift (generate_report my_stats network_stats
                         (tokens_analyzed output_data));
         Monad.ret (Some (output_data, table_data))
     end)%monad.

End Run.
End Arbitrum.

(** ** src/networks/litecoin.py *)

Module Litecoin.
Import Py.

(** [statistics.median] *)
Fixpoint insert_sorted (x : Q) (l : list Q) : list Q :=
  match l with
  | [] => [x]
  | y :: r => if Qle_bool x y then x :: y :: r else y :: insert_sorted x r
  end.

Definition sorted (l : list Q) : list Q := fold_right insert_sorted [] l.

Definition median (data : list Q) : result Q :=
  let data := sorted data in
  let n := length data in
  if (n =? 0)%nat then Raise StatisticsError
  else if Nat.odd n then Ok (nth (n / 2) data 0%Q)
  else
    let i := (n / 2)%nat in
    truediv (nth (i - 1) data 0%Q + nth i data 0%Q) 2.

(** [l[:n]] *)
Definition slice_to {A : Type} (l : list A) (n : Z) : list A :=
  if (0 <=? n)%Z then take (Z.to_nat n) l
  else take (length l - Z.to_nat (- n)) l.

(** A transaction as litecoinspace returns it.  [block_height] is part of
    the payload; the script never reads it. *)
Record Vin : Type := { is_coinbase : option bool }.

Record Vout : Type := { value : option Z }.

Record Status : Type := {
  confirmed : option bool;
  block_height : option Z
}.

Record Tx : Type := {
  fee : option Q;
  weight : option Q;
  size : option Q;
  vin : option (list Vin);
  vout : option (list Vout);
  status : option Status
}.

Definition MAX_FEE : Q := 8.
Definition OUR_TRANSACTIONS_LIMIT : Z := 20.
Definition NETWORK_BLOCKS_LIMIT : Z := 20.

Definition calculate_fee_per_byte (tx : Tx) : result (Q * Q) :=
  let fee_litoshi := default 0%Q (fee tx) in
  let weight := default 0%Q (weight tx) in
  (do vsize <- (if Report.Qlt_bool 0 weight then truediv weight 4
                else Ok (default 1%Q (size tx)));
   do fee_per_byte <- (if Report.Qlt_bool 0 vsize
                       then truediv fee_litoshi vsize else Ok 0%Q);
   Ok (fee_per_byte, vsize))%result.

Definition vin_count (tx : Tx) : Z := Z.of_nat (length (default [] (vin tx))).

Definition vout_count (tx : Tx) : Z :=
  Z.of_nat (length (default [] (vout tx))).

Definition is_cpfp_transaction (tx : Tx) : result bool :=
  if (5 <? vin_count tx)%Z then
    let fee_litoshi := default 0%Q (fee tx) in
    (do vsize <- (if Report.Qlt_bool 0 (default 0%Q (weight tx))
                  then truediv (default 0%Q (weight tx)) 4
                  else Ok (default 1%Q (size tx)));
     do fee_per_byte <- (if Report.Qlt_bool 0 vsize
                         then truediv fee_litoshi vsize else Ok 0%Q);
     if Report.Qlt_bool fee_per_byte 2 then Ok true else Ok false)%result
  else Ok false.

(** [any(vin.get('is_coinbase', False) for vin in tx.get('vin', []))] *)
Definition has_coinbase_input (tx : Tx) : bool :=
  existsb (fun v => default false (is_coinbase v)) (default [] (vin tx)).

(** [tx.get('status', {}).get('confirmed', False)] *)
Definition is_confirmed (tx : Tx) : bool :=
  match status tx with
  | Some st => default false (confirmed st)
  | None => false
  end.

Record BlockchainInfo : Type := { blocks : option Z }.

Record BlockInfo : Type := { height : option Z }.

Inductive call : Type :=
| CallAddressTxs (address : string)
| CallBlockchainInfo
| CallBlocks
| CallBlock (block_height : Z).

(** The remote calls.  [api_blockchain_info] is [get_blockchain_info]
    ([None]: no answer, or an empty object); [api_blocks] and
    [api_address_txs] are the two requests written inline ([None]: a status
    other than 200, or an exception); [api_block] is
    [get_block_transactions], which answers [[]] on every failure. *)
Record Api (W : Type) : Type := {
  api_blockchain_info : W -> option BlockchainInfo * W;
  api_blocks : W -> option (list BlockInfo) * W;
  api_block : Z -> W -> list Tx * W;
  api_address_txs : string -> W -> option (list Tx) * W
}.

Arguments api_blockchain_info {W}.
Arguments api_blocks {W}.
Arguments api_block {W}.
Arguments api_address_txs {W}.

Record State (W : Type) : Type := {
  world : W;
  journal : list call
}.

Arguments world {W}.
Arguments journal {W}.
Arguments Build_State {W}.

(** An entry of the network sample. *)
Record NetTx : Type := {
  nt_fee_per_byte : Q;
  nt_size : Q;
  nt_weight : Q;
  nt_inputs : Z;
  nt_outputs : Z;
  nt_vsize : Q
}.

Record OurStats : Type := {
  avg_fee_per_byte : Q;
  avg_size : Q;
  avg_weight : Q;
  avg_inputs : Q;
  avg_outputs : Q;
  total_txs : Z
}.

(** The lists filled by [for tx in our_txs]. *)
Record OurLists : Type := {
  fees : list Q;
  sizes : list Q;
  weights : list Q;
  inputs : list Q;
  outputs : list Q
}.

Definition no_lists : OurLists :=
  {| fees := []; sizes := []; weights := []; inputs := []; outputs := [] |}.

(** The body of [for tx in our_txs]. *)
Definition record_our_tx (acc : result OurLists) (tx : Tx) : result OurLists :=
  (do ls <- acc;
   if negb (is_confirmed tx) then Ok ls
   else
     do ' (fee_per_byte, _) <- calculate_fee_per_byte tx;
     Ok {| fees := fees ls ++ [fee_per_byte];
           sizes := sizes ls ++ [default 0%Q (size tx)];
           weights := weights ls ++ [default 0%Q (weight tx)];
           inputs := inputs ls ++ [inject_Z (vin_count tx)];
           outputs := outputs ls ++ [inject_Z (vout_count tx)] |})%result.

(** What follows the loop: the early [return None] and the medians. *)
Definition our_stats_of (ls : OurLists) : result (option OurStats) :=
  match fees ls with
  | [] => Ok None
  | _ :: _ =>
      (do m_fee <- median (fees ls);
       do m_size <- median (sizes ls);
       do m_weight <- median (weights ls);
       do m_inputs <- median (inputs ls);
       do m_outputs <- median (outputs ls);
       Ok (Some {| avg_fee_per_byte := m_fee;
                   avg_size := m_size;
                   avg_weight := m_weight;
                   avg_inputs := m_inputs;
                   avg_outputs := m_outputs;
                   total_txs := Z.of_nat (length (fees ls)) |}))%result
  end.

(** The body of [for tx in transactions] in [analyze_network_transactions]. *)
Definition sample_tx (acc : result (list NetTx)) (tx : Tx)
    : result (list NetTx) :=
  (do network_transactions <- acc;
   if has_coinbase_input tx then Ok network_transactions
   else
     do cpfp <- is_cpfp_transaction tx;
     if cpfp : bool then Ok network_transactions
     else
       do ' (fee_per_byte, vsize) <- calculate_fee_per_byte tx;
       if Report.Qlt_bool 0 fee_per_byte && Qle_bool fee_per_byte MAX_FEE
       then Ok (network_transactions ++
                  [ {| nt_fee_per_byte := fee_per_byte;
                       nt_size := default 0%Q (size tx);
                       nt_weight := default 0%Q (weight tx);
                       nt_inputs := vin_count tx;
                       nt_outputs := vout_count tx;
                       nt_vsize := vsize |} ])
       else Ok network_transactions)%result.

(** One line of the comparison table, before formatting. *)
Record Row : Type := {
  row_name : string;
  row_user : Q;
  row_network : Q;
  row_diff : Q;
  row_diff_percent : Q
}.

Definition compare (name : string) (ours network : Q) : result Row :=
  (do diff_percent <- Report.percent_diff ours network;
   Ok {| row_name := name;
         row_user := ours;
         row_network := network;
         row_diff := ours - network;
         row_diff_percent := diff_percent |})%result.

Definition comparison_table (our_stats : OurStats) (network_txs : list NetTx)
    : result (list Row) :=
  (do n_fee <- median (map nt_fee_per_byte network_txs);
   do n_size <- median (map nt_size network_txs);
   do n_weight <- median (map nt_weight network_txs);
   do n_inputs <- median (map (fun t => inject_Z (nt_inputs t)) network_txs);
   do n_outputs <- median (map (fun t => inject_Z (nt_outputs t)) network_txs);
   do n_vsize <- median (map nt_vsize network_txs);
   do r_fee <- compare "Fee (lit/vB)" (avg_fee_per_byte our_stats) n_fee;
   do r_size <- compare "Size (bytes)" (avg_size our_stats) n_size;
   do our_vsize <- truediv (avg_weight our_stats) 4;
   do r_vsize <- compare "Virtual Size (vB)" our_vsize n_vsize;
   do r_inputs <- compare "Inputs" (avg_inputs our_stats) n_inputs;
   do r_outputs <- compare "Outputs" (avg_outputs our_stats) n_outputs;
   Ok [r_fee; r_size; r_vsize; r_inputs; r_outputs])%result.

Section Run.
Context {W : Type} (api : Api W) (MY_ADDRESS : string).

Definition get_blockchain_info : Monad.M (State W) (option BlockchainInfo) :=
  fun s =>
    let '(r, w) := api_blockchain_info api (world s) in
    (Ok r, Build_State w (journal s ++ [CallBlockchainInfo])).

Definition get_block_transactions (block_height : Z)
    : Monad.M (State W) (list Tx) :=
  fun s =>
    let '(r, w) := api_block api block_height (world s) in
    (Ok r, Build_State w (journal s ++ [CallBlock block_height])).

Definition request_blocks : Monad.M (State W) (option (list BlockInfo)) :=
  fun s =>
    let '(r, w) := api_blocks api (world s) in
    (Ok r, Build_State w (journal s ++ [CallBlocks])).

Definition request_address_txs : Monad.M (State W) (option (list Tx)) :=
  fun s =>
    let '(r, w) := api_address_txs api MY_ADDRESS (world s) in
    (Ok r, Build_State w (journal s ++ [CallAddressTxs MY_ADDRESS])).

Definition get_recent_blocks (limit : Z) : Monad.M (State W) (list Z) :=
  (do blockchain_info <- get_blockchain_info;
   match blockchain_info with
   | None =>
       do response <- request_blocks;
       match response with
       | Some blocks =>
           (* a missing 'height' raises inside the try: the except
              branch logs and falls through to [return []] *)
           match mapM height (slice_to blocks limit) with
           | Some heights => Monad.ret heights
           | None => Monad.ret []
           end
       | None => Monad.ret []
       end
   | Some info =>
       match blocks info with
       | None => Monad.raise KeyError
       | Some current_height =>
           let start_height := Z.max 1 (current_height - limit + 1) in
           Monad.ret (seqZ start_height (current_height + 1 - start_height))
       end
   end)%monad.

Definition get_our_transactions_stats : Monad.M (State W) (option OurStats) :=
  if negb (truthy_str MY_ADDRESS) then Monad.ret None
  else
    (do response <- request_address_txs;
     match response with
     | Some txs =>
         let our_txs := slice_to txs OUR_TRANSACTIONS_LIMIT in
         match rbind (fold_left record_our_tx our_txs (Ok no_lists))
                     our_stats_of with
         | Ok r => Monad.ret r
         | Raise _ => Monad.ret None
         end
     | None => Monad.ret None
     end)%monad.

(** The body of [for i, block_height in enumerate(recent_blocks)]. *)
Definition scan_block (block_height : Z) (network_transactions : list NetTx)
    : Monad.M (State W) (list NetTx) :=
  (do transactions <- get_block_transactions block_height;
   match transactions with
   | [] => Monad.ret network_transactions
   | _ :: _ =>
       Monad.lift (fold_left sample_tx transactions (Ok network_transactions))
   end)%monad.

Definition analyze_network_transactions : Monad.M (State W) (list NetTx) :=
  (do recent_blocks <- get_recent_blocks NETWORK_BLOCKS_LIMIT;
   match recent_blocks with
   | [] =>
       (* the log line takes [min(recent_blocks)] of an empty list *)
       Monad.raise ValueError
   | _ :: _ => Monad.for_each recent_blocks scan_block []
   end)%monad.

(** [main], without the file it writes and the text it prints: [None] is
    an early [return]. *)
Definition main : Monad.M (State W) (option (list Row)) :=
  if negb (truthy_str MY_ADDRESS) then Monad.ret None
  else
    (do our_stats <- get_our_transactions_stats;
     match our_stats with
     | None => Monad.ret None
     | Some our =>
         do network_txs <- analyze_network_transactions;
         match network_txs with
         | [] => Monad.ret None
         | _ :: _ =>
             do table <- Monad.lift (comparison_table our network_txs);
             Monad.ret (Some table)
         end
     end)%monad.

End Run.
End Litecoin.

(** ** What the properties below speak about *)

Module Observe.
Import Py.

(** The number of records of a sample that carry a given token. *)
Definition count_token (t : string) (r : list Account.Transfer) : Z :=
  Z.of_nat (length (filter (fun x => Account.token x = t) r)).

(** The same, among the records of one block. *)
Definition count_token_block (t : string) (b : Z) (r : list Account.Transfer)
    : Z :=
  Z.of_nat
    (length (filter (fun x => Account.token x = t /\ Account.block x = b) r)).

(** The sum of a field over the records that carry a given token. *)
Definition sum_field (f : Account.Transfer -> Z) (t : string)
    (r : list Account.Transfer) : Z :=
  foldr Z.add 0%Z (map f (filter (fun x => Account.token x = t) r)).

(** The blocks asked for, in the order of the requests. *)
Definition scanned_blocks (j : list Account.call) : list Z :=
  omap (fun c => match c with Account.CallBlock b => Some b | _ => None end) j.

Definition scanned_heights (j : list Litecoin.call) : list Z :=
  omap (fun c => match c with Litecoin.CallBlock b => Some b | _ => None end) j.

(** The block heights at which the user's confirmed transactions sit, as the
    payload carries them; litecoin.py has no function that computes this. *)
Definition own_heights (txs : list Litecoin.Tx) : list Z :=
  omap (fun tx => if Litecoin.is_confirmed tx
                  then Litecoin.status tx ≫= Litecoin.block_height
                  else None) txs.

(** The fee rate and virtual size [calculate_fee_per_byte] answers. *)
Definition fee_rate (tx : Litecoin.Tx) : Q :=
  match Litecoin.calculate_fee_per_byte tx with
  | Ok (f, _) => f
  | Raise _ => 0%Q
  end.

Definition vsize_of (tx : Litecoin.Tx) : Q :=
  match Litecoin.calculate_fee_per_byte tx with
  | Ok (_, v) => v
  | Raise _ => 0%Q
  end.

(** Whether one turn of the user-side loop records the transaction. *)
Definition kept_mine (tx : Litecoin.Tx) : bool :=
  match Litecoin.record_our_tx (Ok Litecoin.no_lists) tx with
  | Ok ls => negb (Nat.eqb (length (Litecoin.fees ls)) 0)
  | Raise _ => false
  end.

(** Whether one turn of the network-side loop records the transaction. *)
Definition kept_network (tx : Litecoin.Tx) : bool :=
  match Litecoin.sample_tx (Ok []) tx with
  | Ok l => negb (Nat.eqb (length l) 0)
  | Raise _ => false
  end.

(** The entry the network-side loop appends for a transaction it keeps. *)
Definition net_entry (tx : Litecoin.Tx) : Litecoin.NetTx :=
  {| Litecoin.nt_fee_per_byte := fee_rate tx;
     Litecoin.nt_size := default 0%Q (Litecoin.size tx);
     Litecoin.nt_weight := default 0%Q (Litecoin.weight tx);
     Litecoin.nt_inputs := Litecoin.vin_count tx;
     Litecoin.nt_outputs := Litecoin.vout_count tx;
     Litecoin.nt_vsize := vsize_of tx |}.

(** The three tests of the network-side loop, spelled out. *)
Definition passes_network_rules (tx : Litecoin.Tx) : bool :=
  negb (Litecoin.has_coinbase_input tx)
  && negb ((5 <? Litecoin.vin_count tx)%Z && Report.Qlt_bool (fee_rate tx) 2)
  && (Report.Qlt_bool 0 (fee_rate tx)
      && Qle_bool (fee_rate tx) Litecoin.MAX_FEE).

(** The lists of the user-side loop with one more transaction. *)
Definition with_our_tx (ls : Litecoin.OurLists) (tx : Litecoin.Tx)
    : Litecoin.OurLists :=
  {| Litecoin.fees := Litecoin.fees ls ++ [fee_rate tx];
     Litecoin.sizes :=
       Litecoin.sizes ls ++ [default 0%Q (Litecoin.size tx)];
     Litecoin.weights :=
       Litecoin.weights ls ++ [default 0%Q (Litecoin.weight tx)];
     Litecoin.inputs :=
       Litecoin.inputs ls ++ [inject_Z (Litecoin.vin_count tx)];
     Litecoin.outputs :=
       Litecoin.outputs ls ++ [inject_Z (Litecoin.vout_count tx)] |}.

(** The same transaction with another fee. *)
Definition with_fee (tx : Litecoin.Tx) (f : Q) : Litecoin.Tx :=
  {| Litecoin.fee := Some f;
     Litecoin.weight := Litecoin.weight tx;
     Litecoin.size := Litecoin.size tx;
     Litecoin.vin := Litecoin.vin tx;
     Litecoin.vout := Litecoin.vout tx;
     Litecoin.status := Litecoin.status tx |}.

(** One turn of the sampling loop of ethereum.py and arbitrum.py, seen from
    its accumulator (the sample so far and the counters of the current
    block): nothing changes, or one record is appended for a token whose
    counter was below the cap, and that counter goes up by one. *)
Definition sample_step (cap b : Z)
    (acc acc' : list Account.Transfer * gmap string Z) : Prop :=
  acc' = acc \/
  exists rec found,
    acc'.1 = acc.1 ++ [rec] /\ Account.block rec = b /\
    acc.2 !! Account.token rec = Some found /\ (found < cap)%Z /\
    acc'.2 = <[ Account.token rec := (found + 1)%Z ]> acc.2.

(** The records added to [before] while one block is scanned all belong to
    that block, and the counters count them, below the cap. *)
Definition block_invariant (cap b : Z) (before : list Account.Transfer)
    (acc : list Account.Transfer * gmap string Z) : Prop :=
  exists new,
    acc.1 = before ++ new /\
    Forall (fun x => Account.block x = b) new /\
    forall t,
      match acc.2 !! t with
      | Some c => count_token t new = c /\ (c <= Z.max 0 cap)%Z
      | None => count_token t new = 0%Z
      end.

(** The statistics [s0] after the records of [l] that carry the token [t]
    were added to it. *)
Definition tally (s0 : Account.Stats) (t : string)
    (l : list Account.Transfer) : Account.Stats :=
  {| Account.count := Account.count s0 + count_token t l;
     Account.total_gas_used :=
       Account.total_gas_used s0 + sum_field Account.gas_used t l;
     Account.total_gas_price :=
       Account.total_gas_price s0 + sum_field Account.gas_price t l;
     Account.total_gas_limit :=
       Account.total_gas_limit s0 + sum_field Account.gas_limit t l;
     Account.total_fee := Account.total_fee s0 + sum_field Account.fee t l;
     Account.avg_gas_used := Account.avg_gas_used s0;
     Account.avg_gas_price := Account.avg_gas_price s0;
     Account.avg_gas_limit := Account.avg_gas_limit s0;
     Account.avg_fee := Account.avg_fee s0 |}.

(** What [set_averages] returns. *)
Definition averaged (s : Account.Stats) : Account.Stats :=
  if (0 <? Account.count s)%Z then
    {| Account.count := Account.count s;
       Account.total_gas_used := Account.total_gas_used s;
       Account.total_gas_price := Account.total_gas_price s;
       Account.total_gas_limit := Account.total_gas_limit s;
       Account.total_fee := Account.total_fee s;
       Account.avg_gas_used :=
         Some (nearest_double (Account.total_gas_used s) (Account.count s));
       Account.avg_gas_price :=
         Some (nearest_double (Account.total_gas_price s) (Account.count s));
       Account.avg_gas_limit :=
         Some (nearest_double (Account.total_gas_limit s) (Account.count s));
       Account.avg_fee :=
         Some (nearest_double (Account.total_fee s) (Account.count s)) |}
  else s.

(** An average is Python's quotient of a sum by a count, two ints: a
    number of 53 bits, such that no number of 53 bits is nearer to the
    exact quotient; so it is within a relative error of 2^-53 of the exact
    quotient, and equal to it when the count divides the sum and the
    quotient is at most 2^53 in absolute value. *)
Definition mean_of (avg : option Q) (sum n : Z) : Prop :=
  exists a,
    avg = Some a /\
    a = nearest_double sum n /\
    (exists z e, a = (inject_Z z * pow2 e)%Q /\ (Z.abs z <= 2 ^ 53)%Z) /\
    (forall z e,
        (Z.abs z <= 2 ^ 53)%Z ->
        (Qabs (a - inject_Z sum / inject_Z n)
         <= Qabs (inject_Z z * pow2 e - inject_Z sum / inject_Z n))%Q) /\
    (Qabs (a - inject_Z sum / inject_Z n)
     <= Qabs (inject_Z sum / inject_Z n) * (1 # 2 ^ 53))%Q /\
    ((n | sum)%Z -> (Z.abs sum <= 2 ^ 53 * n)%Z ->
     (a == inject_Z sum / inject_Z n)%Q).

(** The entry of a token in the statistics of a list of records: none when
    no record carries the token; otherwise the number of those records and,
    for each field, the quotient of their sum by their number. *)
Definition stats_for (t : string) (l : list Account.Transfer)
    (stats : gmap string Account.Stats) : Prop :=
  (count_token t l = 0%Z -> stats !! t = None) /\
  ((0 < count_token t l)%Z ->
   exists st,
     stats !! t = Some st /\
     Account.count st = count_token t l /\
     mean_of (Account.avg_gas_used st)
       (sum_field Account.gas_used t l) (count_token t l) /\
     mean_of (Account.avg_gas_price st)
       (sum_field Account.gas_price t l) (count_token t l) /\
     mean_of (Account.avg_gas_limit st)
       (sum_field Account.gas_limit t l) (count_token t l) /\
     mean_of (Account.avg_fee st)
       (sum_field Account.fee t l) (count_token t l)).

(** While the user's transactions are collected, the list of records and
    the set of blocks grow together. *)
Definition blocks_of (acc : list Account.Transfer * gset Z) : Prop :=
  forall b, b ∈ acc.2 <-> exists tx, tx ∈ acc.1 /\ Account.block tx = b.

(** The explorer as it would answer if the blocks held no transaction sent
    by the user. *)
Definition without_own {W : Type} (cfg : Account.Config)
    (api : Account.Api W) : Account.Api W :=
  {| Account.api_transactions := Account.api_transactions api;
     Account.api_block := fun b w =>
       let '(txs, w') := Account.api_block api b w in
       (List.filter (fun tx => negb (Arbitrum.sent_by_me cfg tx)) txs, w');
     Account.api_receipt := Account.api_receipt api |}.

End Observe.

(** ** Concrete runs *)

Module Scenario.
Import Py.

(** *** Account-model chains: a world that never changes *)

Definition plain_tx (h from to input value : string) : Account.RawTx :=
  {| Account.tx_hash := Some h;
     Account.tx_from := Some from;
     Account.tx_to := Some to;
     Account.tx_input := Some input;
     Account.tx_value := Some (SStr value);
     Account.tx_blockNumber := None;
     Account.tx_gasUsed := None;
     Account.tx_gasPrice := Some (SStr "0x2540be400");
     Account.tx_gas := Some (SStr "0x5208") |}.

Definition listed_tx (h block_number : string) : Account.RawTx :=
  {| Account.tx_hash := Some h;
     Account.tx_from := None;
     Account.tx_to := None;
     Account.tx_input := None;
     Account.tx_value := None;
     Account.tx_blockNumber := Some (SStr block_number);
     Account.tx_gasUsed := Some (SStr "21000");
     Account.tx_gasPrice := Some (SStr "50000000000");
     Account.tx_gas := Some (SStr "21000") |}.

Definition my_address : string := "0xAbCd000000000000000000000000000000000001".
Definition other_address : string := "0x9999000000000000000000000000000000000002".
Definition some_recipient : string := "0x7777000000000000000000000000000000000003".

(** Every block holds one native transfer between strangers; every receipt
    reports 21000 gas; the user has two listed transactions, in blocks 100
    and 205. *)
Definition api_strangers : Account.Api unit :=
  {| Account.api_transactions := fun _ contract _ w =>
       (match contract with
        | None => [listed_tx "0xa1" "100"; listed_tx "0xa2" "205";
                   listed_tx "0xa3" "100"]
        | Some _ => []
        end, w);
     Account.api_block := fun b w =>
       ([plain_tx "0xb1" other_address some_recipient "0x" "0x1"], w);
     Account.api_receipt := fun _ w =>
       (Some (Account.Object
                {| Account.rc_gasUsed := Some (SStr "0x5208") |}), w) |}.

(** The only transaction of every block is sent by the user. *)
Definition api_own_traffic : Account.Api unit :=
  {| Account.api_transactions := fun _ _ _ w => ([], w);
     Account.api_block := fun b w =>
       ([plain_tx "0xc1" "0xabcd000000000000000000000000000000000001"
           some_recipient "0x" "0x1"], w);
     Account.api_receipt := fun _ w =>
       (Some (Account.Object
                {| Account.rc_gasUsed := Some (SStr "0x5208") |}), w) |}.

Definition cfg_one_example : Account.Config :=
  {| Account.API_KEY := "key";
     Account.MY_ADDRESS := my_address;
     Account.NETWORK_TOKENS := [("eth", Account.zero_address)];
     Account.MAX_MY_TRANSACTIONS := 10;
     Account.MAX_NETWORK_EXAMPLES := 1 |}.

Definition start : Account.State unit :=
  {| Account.world := tt; Account.journal := [] |}.

(** What sampling blocks 1 and 2 of [api_strangers] returns. *)
Definition stranger_record (b : Z) : Account.Transfer :=
  {| Account.token := "eth";
     Account.hash := "0xb1";
     Account.block := b;
     Account.gas_used := 21000;
     Account.gas_price := 10000000000;
     Account.gas_limit := 21000;
     Account.fee := 210000000000000 |}.

Definition after_two_blocks : Account.State unit :=
  {| Account.world := tt;
     Account.journal :=
       [Account.CallBlock 1; Account.CallReceipt "0xb1";
        Account.CallBlock 2; Account.CallReceipt "0xb1"] |}.

(** The record made from the user's own transaction of [api_own_traffic]. *)
Definition own_record : Account.Transfer :=
  {| Account.token := "eth";
     Account.hash := "0xc1";
     Account.block := 1;
     Account.gas_used := 21000;
     Account.gas_price := 10000000000;
     Account.gas_limit := 21000;
     Account.fee := 210000000000000 |}.

(** A native transfer that also carries call data. *)
Definition value_with_call_data : Account.RawTx :=
  plain_tx "0xd1" other_address some_recipient "0xdeadbeef" "0x1".

(** *** Litecoin *)

Definition plain_inputs (n : nat) : list Litecoin.Vin :=
  replicate n {| Litecoin.is_coinbase := None |}.

Definition utxo_tx (f sz : Q) (n_inputs : nat) (conf : bool) (h : Z)
    : Litecoin.Tx :=
  {| Litecoin.fee := Some f;
     Litecoin.weight := None;
     Litecoin.size := Some sz;
     Litecoin.vin := Some (plain_inputs n_inputs);
     Litecoin.vout := Some [ {| Litecoin.value := Some 1%Z |} ];
     Litecoin.status :=
       Some {| Litecoin.confirmed := Some conf;
               Litecoin.block_height := Some h |} |}.

(** Six inputs, 200 bytes, 300 litoshi: 1.5 per byte. *)
Definition six_inputs_cheap : Litecoin.Tx := utxo_tx 300 200 6 true 90.

(** One input, 200 bytes, 2000 litoshi: 10 per byte. *)
Definition expensive : Litecoin.Tx := utxo_tx 2000 200 1 true 5.

(** One unconfirmed transaction. *)
Definition pending : Litecoin.Tx :=
  {| Litecoin.fee := Some 400%Q;
     Litecoin.weight := Some 800%Q;
     Litecoin.size := Some 250%Q;
     Litecoin.vin := Some (plain_inputs 1);
     Litecoin.vout := Some [];
     Litecoin.status :=
       Some {| Litecoin.confirmed := Some false;
               Litecoin.block_height := None |} |}.

(** The chain is at height 100; the user's only transaction sits in block
    5; every block holds one ordinary transaction. *)
Definition api_height_100 : Litecoin.Api unit :=
  {| Litecoin.api_blockchain_info := fun w =>
       (Some {| Litecoin.blocks := Some 100%Z |}, w);
     Litecoin.api_blocks := fun w => (None, w);
     Litecoin.api_block := fun h w => ([utxo_tx 400 200 1 true h], w);
     Litecoin.api_address_txs := fun _ w => (Some [expensive], w) |}.

(** The user's history holds unconfirmed transactions only. *)
Definition api_pending_only : Litecoin.Api unit :=
  {| Litecoin.api_blockchain_info := fun w =>
       (Some {| Litecoin.blocks := Some 100%Z |}, w);
     Litecoin.api_blocks := fun w => (None, w);
     Litecoin.api_block := fun h w => ([utxo_tx 400 200 1 true h], w);
     Litecoin.api_address_txs := fun _ w => (Some [pending; pending], w) |}.

Definition ltc_address : string := "ltc1qexample".

Definition ltc_start : Litecoin.State unit :=
  {| Litecoin.world := tt; Litecoin.journal := [] |}.

End Scenario.

(** ** More to observe: requests, records, counts *)

Module Trace.
Import Py.

(** The hashes for which a receipt was asked, in the order of the
    requests. *)
Definition requested_receipts (j : list Account.call) : list string :=
  omap (fun c => match c with Account.CallReceipt h => Some h | _ => None end)
       j.

(** The requests [collect_my_transactions] makes: one per configured token,
    in the order of the configuration, without a contract address for the
    token named eth. *)
Definition calls_for (cfg : Account.Config) (l : list (string * string))
    : list Account.call :=
  map (fun '(token_name, token_address) =>
         Account.CallTransactions (Account.MY_ADDRESS cfg)
           (if String.eqb token_name "eth" then None else Some token_address)
           (Account.MAX_MY_TRANSACTIONS cfg))
      l.

Definition transactions_calls (cfg : Account.Config) : list Account.call :=
  calls_for cfg (Account.NETWORK_TOKENS cfg).

(** What is known of the user's records while they are collected, the
    tokens of [pre] having been asked for. *)
Definition own_facts {W : Type} (cfg : Account.Config)
    (s0 : Account.State W) (pre : list (string * string))
    (acc : list Account.Transfer * gset Z) (s : Account.State W) : Prop :=
  Forall (fun rec =>
            (0 < Account.block rec)%Z /\ Account.token rec ∈ pre.*1 /\
            Account.fee rec
            = (Account.gas_used rec * Account.gas_price rec)%Z) acc.1 /\
  Account.journal s = Account.journal s0 ++ calls_for cfg pre.

(** A record as the sampling loop builds it for a token it looks for. *)
Definition sampled_record (cfg : Account.Config) (tokens : gset string)
    (b : Z) (rec : Account.Transfer) : Prop :=
  Account.token rec ∈ tokens /\
  Account.token rec ∈ (Account.NETWORK_TOKENS cfg).*1 /\
  Account.block rec = b /\
  Account.fee rec = (Account.gas_used rec * Account.gas_price rec)%Z.

(** What one turn of the sampling loop does, requests included: nothing;
    or one receipt request that is answered by no receipt; or one receipt
    request that is answered, and one record. *)
Definition sample_outcome {W : Type} (api : Account.Api W)
    (cfg : Account.Config) (tokens : gset string) (b : Z)
    (acc acc' : list Account.Transfer * gmap string Z)
    (s s' : Account.State W) : Prop :=
  (acc' = acc /\ s' = s) \/
  (acc' = acc /\
   exists h,
     (Account.api_receipt api h (Account.world s)).1 = None /\
     Account.journal s' = Account.journal s ++ [Account.CallReceipt h]) \/
  (exists rec h rc,
     acc'.1 = acc.1 ++ [rec] /\
     sampled_record cfg tokens b rec /\
     (Account.api_receipt api h (Account.world s)).1
     = Some (Account.Object rc) /\
     Account.journal s' = Account.journal s ++ [Account.CallReceipt h]).

(** What holds of the records [new] added since the state [s0], while one
    block is scanned or over a whole pass. *)
Definition sample_facts {W : Type} (api : Account.Api W)
    (cfg : Account.Config) (tokens : gset string) (ok_block : Z -> Prop)
    (s0 : Account.State W) (new : list Account.Transfer)
    (s : Account.State W) : Prop :=
  Forall (fun rec => exists b, ok_block b /\ sampled_record cfg tokens b rec)
         new /\
  (length new + length (requested_receipts (Account.journal s0))
   <= length (requested_receipts (Account.journal s)))%nat /\
  ((forall h w, (Account.api_receipt api h w).1 = None) -> new = []).

(** How a sampling pass can raise: ValueError or TypeError from a field
    that does not read as a number, or AttributeError where the explorer
    answered a receipt request by something that is no object. *)
Definition sampling_error {W : Type} (api : Account.Api W) (e : exc) : Prop :=
  e = ValueError \/ e = TypeError \/
  (e = AttributeError /\
   exists h w, (Account.api_receipt api h w).1 = Some Account.NotAnObject).

(** The counters answer for every token that is looked for. *)
Definition counters_cover (tokens : gset string)
    (acc : list Account.Transfer * gmap string Z) : Prop :=
  forall t, t ∈ tokens -> is_Some (acc.2 !! t).

(** The sum of the [count] fields of all entries. *)
Definition total_count (stats : gmap string Account.Stats) : Z :=
  map_fold (fun _ st n => (Account.count st + n)%Z) 0%Z stats.

(** A token has an entry on both sides. *)
Definition on_both_sides (my_stats network_stats : gmap string Account.Stats)
    (token_name : string) : bool :=
  bool_decide (is_Some (my_stats !! token_name)
               /\ is_Some (network_stats !! token_name)).

(** How many values of a list are at most, and at least, a given one. *)
Definition count_le (q : Q) (l : list Q) : nat :=
  length (filter (fun x => Qle_bool x q = true) l).

Definition count_ge (q : Q) (l : list Q) : nat :=
  length (filter (fun x => Qle_bool q x = true) l).

(** A value splits a list in two halves: at least half of the list is at
    most the value, and at least half is at least the value. *)
Definition halves (q : Q) (l : list Q) : Prop :=
  (length l <= 2 * count_le q l)%nat /\ (length l <= 2 * count_ge q l)%nat.

(** An entry of the Litecoin network sample as the loop lets it in. *)
Definition admissible (e : Litecoin.NetTx) : Prop :=
  (0 < Litecoin.nt_fee_per_byte e)%Q /\
  (Litecoin.nt_fee_per_byte e <= Litecoin.MAX_FEE)%Q /\
  (0 < Litecoin.nt_vsize e)%Q /\
  ~ ((5 < Litecoin.nt_inputs e)%Z /\ (Litecoin.nt_fee_per_byte e < 2)%Q).

End Trace.

(** ** More concrete runs *)

Module Cases.
Import Py.

(** As [Scenario.api_strangers], but no receipt can be had. *)
Definition api_no_receipts : Account.Api unit :=
  {| Account.api_transactions := fun _ _ _ w => ([], w);
     Account.api_block := fun b w =>
       ([Scenario.plain_tx "0xb1" Scenario.other_address
           Scenario.some_recipient "0x" "0x1"], w);
     Account.api_receipt := fun _ w => (None, w) |}.

(** Every block holds one transaction whose value is not a number. *)
Definition api_bad_value : Account.Api unit :=
  {| Account.api_transactions := fun _ _ _ w => ([], w);
     Account.api_block := fun b w =>
       ([Scenario.plain_tx "0xf1" Scenario.other_address
           Scenario.some_recipient "0x" "zz"], w);
     Account.api_receipt := fun _ w =>
       (Some (Account.Object
                {| Account.rc_gasUsed := Some (SStr "0x5208") |}), w) |}.

Definition after_two_failed_receipts : Account.State unit :=
  {| Account.world := tt;
     Account.journal :=
       [Account.CallBlock 1; Account.CallReceipt "0xb1";
        Account.CallBlock 2; Account.CallReceipt "0xb1"] |}.

(** A configuration without an address. *)
Definition cfg_no_address : Account.Config :=
  {| Account.API_KEY := "key";
     Account.MY_ADDRESS := EmptyString;
     Account.NETWORK_TOKENS := [("eth", Account.zero_address)];
     Account.MAX_MY_TRANSACTIONS := 10;
     Account.MAX_NETWORK_EXAMPLES := 1 |}.

(** The user's transaction list of [Scenario.api_strangers], recorded. *)
Definition listed_record (h : string) (b : Z) : Account.Transfer :=
  {| Account.token := "eth";
     Account.hash := h;
     Account.block := b;
     Account.gas_used := 21000;
     Account.gas_price := 50000000000;
     Account.gas_limit := 21000;
     Account.fee := 1050000000000000 |}.

Definition after_listing : Account.State unit :=
  {| Account.world := tt;
     Account.journal :=
       [Account.CallTransactions Scenario.my_address None 10] |}.

(** The user's list holds a transaction whose gas price is not a number. *)
Definition api_bad_listing : Account.Api unit :=
  {| Account.api_transactions := fun _ _ _ w =>
       ([ {| Account.tx_hash := Some "0xa1";
             Account.tx_from := None;
             Account.tx_to := None;
             Account.tx_input := None;
             Account.tx_value := None;
             Account.tx_blockNumber := Some (SStr "100");
             Account.tx_gasUsed := Some (SStr "21000");
             Account.tx_gasPrice := Some (SStr "n/a");
             Account.tx_gas := Some (SStr "21000") |} ], w);
     Account.api_block := fun b w => ([], w);
     Account.api_receipt := fun _ w => (None, w) |}.

(** Litecoin: neither the chain status nor the list of blocks can be had. *)
Definition api_ltc_down : Litecoin.Api unit :=
  {| Litecoin.api_blockchain_info := fun w => (None, w);
     Litecoin.api_blocks := fun w => (None, w);
     Litecoin.api_block := fun h w => ([], w);
     Litecoin.api_address_txs := fun _ w => (Some [Scenario.expensive], w) |}.

(** Litecoin: the chain status comes without the number of blocks. *)
Definition api_ltc_no_height : Litecoin.Api unit :=
  {| Litecoin.api_blockchain_info := fun w =>
       (Some {| Litecoin.blocks := None |}, w);
     Litecoin.api_blocks := fun w => (None, w);
     Litecoin.api_block := fun h w => ([], w);
     Litecoin.api_address_txs := fun _ w => (Some [Scenario.expensive], w) |}.

(** Litecoin: the chain is three blocks long. *)
Definition api_ltc_short : Litecoin.Api unit :=
  {| Litecoin.api_blockchain_info := fun w =>
       (Some {| Litecoin.blocks := Some 3%Z |}, w);
     Litecoin.api_blocks := fun w => (None, w);
     Litecoin.api_block := fun h w => ([Scenario.utxo_tx 400 200 1 true h], w);
     Litecoin.api_address_txs := fun _ w => (None, w) |}.

Definition after_ltc_info : Litecoin.State unit :=
  {| Litecoin.world := tt;
     Litecoin.journal := [Litecoin.CallBlockchainInfo] |}.

Definition after_ltc_info_and_blocks : Litecoin.State unit :=
  {| Litecoin.world := tt;
     Litecoin.journal := [Litecoin.CallBlockchainInfo; Litecoin.CallBlocks] |}.

(** Three records of one token whose gas used adds up to 63001. *)
Definition gas_record (h : string) (used : Z) : Account.Transfer :=
  {| Account.token := "eth";
     Account.hash := h;
     Account.block := 1;
     Account.gas_used := used;
     Account.gas_price := 10000000000;
     Account.gas_limit := 21000;
     Account.fee := used * 10000000000 |}.

Definition uneven_records : list Account.Transfer :=
  [gas_record "0xe1" 21000; gas_record "0xe2" 21000; gas_record "0xe3" 21001].

(** The text of an error message where a receipt was asked for. *)
Definition api_busy : Account.Api unit :=
  {| Account.api_transactions := fun _ contract _ w =>
       (match contract with
        | None => [Scenario.listed_tx "0xa1" "100"]
        | Some _ => []
        end, w);
     Account.api_block := fun b w =>
       ([Scenario.plain_tx "0xb1" Scenario.other_address
           Scenario.some_recipient "0x" "0x1"], w);
     Account.api_receipt := fun _ w => (Some Account.NotAnObject, w) |}.

End Cases.

(** * Properties *)

(** ** Reasoning about computations in [M] *)

Section MonadFacts.
Import Py.
Context {S : Type}.

Lemma ret_ok {A : Type} (a a' : A) (s s' : S) :
  Monad.ret a s = (Ok a', s') -> a' = a /\ s' = s.
Proof. unfold Monad.ret. intros H. inversion H. auto. Qed.

Lemma lift_ok {A : Type} (r : result A) (a : A) (s s' : S) :
  Monad.lift r s = (Ok a, s') -> r = Ok a /\ s' = s.
Proof. unfold Monad.lift. intros H. inversion H. auto. Qed.

Lemma raise_ok {A : Type} (e : exc) (a : A) (s s' : S) :
  Monad.raise e s = (Ok a, s') -> False.
Proof. unfold Monad.raise. intros H. inversion H. Qed.

Lemma bind_ok {A B : Type} (m : Monad.M S A) (k : A -> Monad.M S B)
    (s s'' : S) (b : B) :
  Monad.bind m k s = (Ok b, s'') ->
  exists a s', m s = (Ok a, s') /\ k a s' = (Ok b, s'').
Proof.
  unfold Monad.bind. destruct (m s) as [[a|e] s'] eqn:E; intros H.
  - exists a, s'. auto.
  - inversion H.
Qed.

Lemma bind_eq {A B : Type} (m : Monad.M S A) (k : A -> Monad.M S B)
    (s s' : S) (a : A) :
  m s = (Ok a, s') -> Monad.bind m k s = k a s'.
Proof. unfold Monad.bind. intros ->. reflexivity. Qed.

(** A loop invariant that may mention the part of the list already
    visited. *)
Lemma for_each_invariant {A Acc : Type} (I : list A -> Acc -> S -> Prop)
    (body : A -> Acc -> Monad.M S Acc) :
  (forall pre x acc s acc' s',
      I pre acc s -> body x acc s = (Ok acc', s') -> I (pre ++ [x]) acc' s') ->
  forall l pre acc s acc' s',
    I pre acc s ->
    Monad.for_each l body acc s = (Ok acc', s') ->
    I (pre ++ l) acc' s'.
Proof.
  intros Hstep l. induction l as [|x l IH]; intros pre acc s acc' s' HI Hrun.
  - apply ret_ok in Hrun as [-> ->]. rewrite app_nil_r. exact HI.
  - simpl in Hrun. apply bind_ok in Hrun as (acc1 & s1 & Hx & Hrest).
    replace (pre ++ x :: l) with ((pre ++ [x]) ++ l)
      by (rewrite <- app_assoc; reflexivity).
    eapply IH; [|exact Hrest]. eapply Hstep; eassumption.
Qed.

(** A loop over a list of which some elements are passed over without any
    effect is the loop over the others. *)
Lemma for_each_skip {A Acc : Type} (keep : A -> bool)
    (body : A -> Acc -> Monad.M S Acc) (l : list A) :
  (forall x acc s, keep x = false -> body x acc s = (Ok acc, s)) ->
  forall acc s,
    Monad.for_each l body acc s =
    Monad.for_each (List.filter keep l) body acc s.
Proof.
  intros Hskip. induction l as [|x l IH]; intros acc s; [reflexivity|].
  simpl. destruct (keep x) eqn:E.
  - simpl. unfold Monad.bind. destruct (body x acc s) as [[a|e] s1]; auto.
  - unfold Monad.bind at 1. rewrite (Hskip _ _ _ E). apply IH.
Qed.

End MonadFacts.

(** ** The sampling pass of the account-model scripts *)

Section Counting.
Import Py Account Observe.

Lemma count_token_nil (t : string) : count_token t [] = 0%Z.
Proof. reflexivity. Qed.

Lemma count_token_app (t : string) (l1 l2 : list Transfer) :
  count_token t (l1 ++ l2) = (count_token t l1 + count_token t l2)%Z.
Proof. unfold count_token. rewrite filter_app, length_app. lia. Qed.

Lemma count_token_one (t : string) (x : Transfer) :
  count_token t [x] = if decide (token x = t) then 1%Z else 0%Z.
Proof.
  unfold count_token. rewrite filter_cons, filter_nil.
  destruct (decide (token x = t)); reflexivity.
Qed.

Lemma count_token_block_app (t : string) (b : Z) (l1 l2 : list Transfer) :
  count_token_block t b (l1 ++ l2)
  = (count_token_block t b l1 + count_token_block t b l2)%Z.
Proof. unfold count_token_block. rewrite filter_app, length_app. lia. Qed.

Lemma count_token_nonneg (t : string) (l : list Transfer) :
  (0 <= count_token t l)%Z.
Proof. unfold count_token. lia. Qed.

(** Within the records of one block, counting by token and block is
    counting by token; elsewhere it gives zero. *)
Lemma count_token_block_same (t : string) (b b' : Z) (l : list Transfer) :
  Forall (fun x => block x = b) l ->
  count_token_block t b' l = if decide (b = b') then count_token t l else 0%Z.
Proof.
  unfold count_token_block, count_token.
  induction 1 as [|x l Hx Hl IH]; [destruct (decide (b = b')); reflexivity|].
  rewrite !filter_cons.
  destruct (decide (b = b')) as [<-|Hne].
  - destruct (decide (token x = t)) as [Ht|Ht].
    + rewrite decide_True by auto. simpl. lia.
    + rewrite decide_False by tauto. exact IH.
  - rewrite decide_False by (intros [_ ?]; congruence). exact IH.
Qed.

Lemma sample_step_preserves (cap b : Z) (before : list Transfer)
    (acc acc' : list Transfer * gmap string Z) :
  block_invariant cap b before acc ->
  sample_step cap b acc acc' ->
  block_invariant cap b before acc'.
Proof.
  intros (new & Hnew & Hblk & Hcnt) [->|(rec & found & H1 & Hb & Hget & Hlt & H2)].
  - exists new. auto.
  - exists (new ++ [rec]). split; [|split].
    + rewrite H1, Hnew, app_assoc. reflexivity.
    + apply Forall_app. split; [exact Hblk|]. constructor; auto.
    + intros t. rewrite H2, count_token_app, count_token_one.
      destruct (decide (token rec = t)) as [<-|Hne].
      * rewrite lookup_insert_eq. specialize (Hcnt (token rec)).
        rewrite Hget in Hcnt. lia.
      * rewrite lookup_insert_ne by exact Hne. specialize (Hcnt t).
        destruct (acc.2 !! t); lia.
Qed.

Lemma block_invariant_start (cap b : Z) (before : list Transfer)
    (tokens : gset string) :
  block_invariant cap b before (before, gset_to_gmap 0%Z tokens).
Proof.
  exists []. split; [symmetry; apply app_nil_r|]. split; [constructor|].
  intros t. simpl. rewrite lookup_gset_to_gmap.
  destruct (decide (t ∈ tokens)).
  - rewrite option_guard_True by assumption. simpl.
    rewrite count_token_nil. lia.
  - rewrite option_guard_False by assumption. reflexivity.
Qed.

Lemma block_invariant_bound (cap b : Z) (before : list Transfer)
    (acc : list Transfer * gmap string Z) :
  block_invariant cap b before acc ->
  exists new,
    acc.1 = before ++ new /\
    Forall (fun x => block x = b) new /\
    forall t, (count_token t new <= Z.max 0 cap)%Z.
Proof.
  intros (new & Hnew & Hblk & Hcnt). exists new. repeat split; auto.
  intros t. specialize (Hcnt t). destruct (acc.2 !! t); lia.
Qed.

Lemma scanned_blocks_app (j1 j2 : list call) :
  scanned_blocks (j1 ++ j2) = scanned_blocks j1 ++ scanned_blocks j2.
Proof. unfold scanned_blocks. apply omap_app. Qed.

End Counting.

(** Take apart a run that returned, one step at a time. *)
Ltac run_step :=
  match goal with
  | H : Monad.bind _ _ _ = (Py.Ok _, _) |- _ =>
      let H1 := fresh "Hrun" in
      apply bind_ok in H as (? & ? & H1 & H); cbv beta in H
  | H : Monad.ret _ _ = (Py.Ok _, _) |- _ =>
      apply ret_ok in H as [? ?]; subst
  | H : Monad.lift _ _ = (Py.Ok _, _) |- _ =>
      apply lift_ok in H as [H ?]; subst
  | H : Monad.raise _ _ = (Py.Ok _, _) |- _ =>
      apply raise_ok in H; contradiction
  end.

Ltac run_all := repeat run_step.

Section Pass.
Import Py Account Observe.
Context {W : Type}.

(** A pass whose every block adds at most [cap] records per token, all of
    that block, and asks for that block once. *)
Lemma pass_bound (cap : Z)
    (body : Z -> list Transfer -> Monad.M (State W) (list Transfer)) :
  (0 <= cap)%Z ->
  (forall b nd nd' s s',
      body b nd s = (Ok nd', s') ->
      (exists new,
          nd' = nd ++ new /\
          Forall (fun x => block x = b) new /\
          forall t, (count_token t new <= cap)%Z) /\
      scanned_blocks (journal s') = scanned_blocks (journal s) ++ [b]) ->
  forall blocks s r s',
    Monad.for_each blocks body [] s = (Ok r, s') ->
    (forall t b,
        (count_token_block t b r
         <= cap * Z.of_nat (length (filter (fun x => x = b) blocks)))%Z) /\
    (forall t, (count_token t r <= cap * Z.of_nat (length blocks))%Z) /\
    scanned_blocks (journal s') = scanned_blocks (journal s) ++ blocks.
Proof.
  intros Hcap Hbody blocks s r s' Hrun.
  pose (I := fun (pre : list Z) (acc : list Transfer) (st : State W) =>
    (forall t b,
        (count_token_block t b acc
         <= cap * Z.of_nat (length (filter (fun x => x = b) pre)))%Z) /\
    (forall t, (count_token t acc <= cap * Z.of_nat (length pre))%Z) /\
    scanned_blocks (journal st) = scanned_blocks (journal s) ++ pre).
  change (I ([] ++ blocks) r s').
  eapply (for_each_invariant I); [| |exact Hrun].
  - intros pre b acc st acc' st' (Hblk & Htot & Hj) Hstep.
    apply Hbody in Hstep as [(new & -> & Hnew & Hcnt) Hj'].
    split; [|split].
    + intros t b'. rewrite count_token_block_app, filter_app, length_app.
      rewrite (count_token_block_same t b b' new Hnew).
      specialize (Hblk t b'). specialize (Hcnt t).
      rewrite filter_cons, filter_nil.
      destruct (decide (b = b')); simpl; lia.
    + intros t. rewrite count_token_app, length_app. simpl.
      specialize (Htot t). specialize (Hcnt t). lia.
    + rewrite Hj', Hj, <- app_assoc. reflexivity.
  - split; [|split].
    + intros t b. simpl. unfold count_token_block. simpl. lia.
    + intros t. simpl. unfold count_token. simpl. lia.
    + simpl. symmetry. apply app_nil_r.
Qed.

End Pass.

Section EthereumSampler.
Import Py Account Observe.
Context {W : Type} (api : Api W) (cfg : Config).

Lemma receipt_journal (h : string) (s s' : State W)
    (r : option answer) :
  get_transaction_receipt api h s = (Ok r, s') ->
  scanned_blocks (journal s') = scanned_blocks (journal s).
Proof.
  unfold get_transaction_receipt.
  destruct (api_receipt api h (world s)) as [r0 w]. intros H. inversion H.
  simpl. rewrite scanned_blocks_app. simpl. apply app_nil_r.
Qed.

Lemma block_journal (b : Z) (s s' : State W) (txs : list RawTx) :
  get_block_transactions api b s = (Ok txs, s') ->
  scanned_blocks (journal s') = scanned_blocks (journal s) ++ [b].
Proof.
  unfold get_block_transactions.
  destruct (api_block api b (world s)) as [r0 w]. intros H. inversion H.
  simpl. rewrite scanned_blocks_app. reflexivity.
Qed.

Lemma ethereum_match_token_step (tokens : gset string) (b : Z) (tx : RawTx)
    (tok : string * string) (acc acc' : list Transfer * gmap string Z)
    (s s' : State W) :
  Ethereum.match_token api cfg tokens b tx tok acc s = (Ok acc', s') ->
  sample_step (MAX_NETWORK_EXAMPLES cfg) b acc acc' /\
  scanned_blocks (journal s') = scanned_blocks (journal s).
Proof.
  destruct tok as [token_name token_address], acc as [nd cs].
  unfold Ethereum.match_token. intros H.
  destruct (negb (bool_decide (token_name ∈ tokens)));
    [run_all; split; [left|]; reflexivity|].
  destruct (cs !! token_name) as [found|] eqn:Hget; [|run_all].
  destruct (MAX_NETWORK_EXAMPLES cfg <=? found)%Z eqn:Hcap;
    [run_all; split; [left|]; reflexivity|].
  apply Z.leb_gt in Hcap.
  apply bind_ok in H as (matched & s1 & Hm & H). run_step.
  destruct matched; [|run_all; split; [left|]; reflexivity].
  apply bind_ok in H as (receipt & s2 & Hrc & H).
  apply receipt_journal in Hrc.
  destruct receipt as [rc|]; [|run_all; split; [left; reflexivity|exact Hrc]].
  run_all. split; [|exact Hrc].
  right. eexists _, found. simpl. repeat split; eauto.
Qed.

Lemma ethereum_scan_block (tokens : gset string) (b : Z)
    (nd nd' : list Transfer) (s s' : State W) :
  Ethereum.scan_block api cfg tokens b nd s = (Ok nd', s') ->
  (exists new,
      nd' = nd ++ new /\
      Forall (fun x => block x = b) new /\
      forall t, (count_token t new <= Z.max 0 (MAX_NETWORK_EXAMPLES cfg))%Z) /\
  scanned_blocks (journal s') = scanned_blocks (journal s) ++ [b].
Proof.
  unfold Ethereum.scan_block. intros H.
  apply bind_ok in H as (txs & s1 & Hblock & H).
  apply block_journal in Hblock as Hj.
  apply bind_ok in H as ([nd1 cs1] & s2 & Hloop & H).
  apply ret_ok in H as [Hnd Hs]. subst nd1 s2.
  pose (I := fun (_ : list RawTx) (acc : list Transfer * gmap string Z)
                 (st : State W) =>
               block_invariant (MAX_NETWORK_EXAMPLES cfg) b nd acc /\
               scanned_blocks (journal st) = scanned_blocks (journal s) ++ [b]).
  assert (HI : I ([] ++ txs) (nd', cs1) s').
  { eapply (for_each_invariant I);
      [|split; [apply block_invariant_start|exact Hj]|exact Hloop].
    intros pre x acc st acc' st' HIacc Hbody.
    pose (J := fun (_ : list (string * string)) => I pre).
    cbv beta in Hbody. change (J ([] ++ NETWORK_TOKENS cfg) acc' st').
    eapply (for_each_invariant J); [|exact HIacc|exact Hbody].
    intros pre' tok acc0 st0 acc1 st1 [Hinv0 Hj0] Hstep.
    apply ethereum_match_token_step in Hstep as [Hstep Hj1]. split.
    - eapply sample_step_preserves; eassumption.
    - congruence. }
  destruct HI as [Hinv Hjs]. split; [|exact Hjs].
  apply block_invariant_bound in Hinv as (new & Hnew & Hblk & Hcnt).
  exists new. auto.
Qed.

End EthereumSampler.

Section ArbitrumSampler.
Import Py Account Observe.
Context {W : Type} (api : Api W) (cfg : Config).

Lemma arbitrum_match_token_step (tokens : gset string) (b : Z) (tx : RawTx)
    (tok : string * string) (acc acc' : list Transfer * gmap string Z)
    (s s' : State W) :
  Arbitrum.match_token api cfg tokens b tx tok acc s = (Ok acc', s') ->
  sample_step (MAX_NETWORK_EXAMPLES cfg) b acc acc' /\
  scanned_blocks (journal s') = scanned_blocks (journal s).
Proof.
  destruct tok as [token_name token_address], acc as [nd cs].
  unfold Arbitrum.match_token. intros H. cbv zeta in H.
  destruct (negb (bool_decide (token_name ∈ tokens)));
    [run_all; split; [left|]; reflexivity|].
  destruct (cs !! token_name) as [found|] eqn:Hget; [|run_all].
  destruct (MAX_NETWORK_EXAMPLES cfg <=? found)%Z eqn:Hcap;
    [run_all; split; [left|]; reflexivity|].
  apply Z.leb_gt in Hcap.
  apply bind_ok in H as (matched & s1 & Hm & H). run_step.
  destruct matched; [|run_all; split; [left|]; reflexivity].
  apply bind_ok in H as (receipt & s2 & Hrc & H).
  apply receipt_journal in Hrc.
  destruct receipt as [rc|]; [|run_all; split; [left; reflexivity|exact Hrc]].
  run_all. split; [|exact Hrc].
  right. eexists _, found. simpl. repeat split; eauto.
Qed.

Lemma arbitrum_scan_block (tokens : gset string) (b : Z)
    (nd nd' : list Transfer) (s s' : State W) :
  Arbitrum.scan_block api cfg tokens b nd s = (Ok nd', s') ->
  (exists new,
      nd' = nd ++ new /\
      Forall (fun x => block x = b) new /\
      forall t, (count_token t new <= Z.max 0 (MAX_NETWORK_EXAMPLES cfg))%Z) /\
  scanned_blocks (journal s') = scanned_blocks (journal s) ++ [b].
Proof.
  unfold Arbitrum.scan_block. intros H.
  apply bind_ok in H as (txs & s1 & Hblock & H).
  apply block_journal in Hblock as Hj.
  apply bind_ok in H as ([nd1 cs1] & s2 & Hloop & H).
  apply ret_ok in H as [Hnd Hs]. subst nd1 s2.
  pose (I := fun (_ : list RawTx) (acc : list Transfer * gmap string Z)
                 (st : State W) =>
               block_invariant (MAX_NETWORK_EXAMPLES cfg) b nd acc /\
               scanned_blocks (journal st) = scanned_blocks (journal s) ++ [b]).
  assert (HI : I ([] ++ txs) (nd', cs1) s').
  { eapply (for_each_invariant I);
      [|split; [apply block_invariant_start|exact Hj]|exact Hloop].
    intros pre x acc st acc' st' HIacc Hbody.
    unfold Arbitrum.scan_tx in Hbody.
    destruct (Arbitrum.sent_by_me cfg x).
    { apply ret_ok in Hbody as [-> ->]. exact HIacc. }
    pose (J := fun (_ : list (string * string)) => I pre).
    change (J ([] ++ NETWORK_TOKENS cfg) acc' st').
    eapply (for_each_invariant J); [|exact HIacc|exact Hbody].
    intros pre' tok acc0 st0 acc1 st1 [Hinv0 Hj0] Hstep.
    apply arbitrum_match_token_step in Hstep as [Hstep Hj1]. split.
    - eapply sample_step_preserves; eassumption.
    - congruence. }
  destruct HI as [Hinv Hjs]. split; [|exact Hjs].
  apply block_invariant_bound in Hinv as (new & Hnew & Hblk & Hcnt).
  exists new. auto.
Qed.

End ArbitrumSampler.

(** ** The cap on network examples *)

Section Cap.
Import Py Account Observe.

(** C1, as the code has it: the counters are created inside the loop over
    the blocks, so the cap MAX_NETWORK_EXAMPLES holds per asset for each
    scanned block; over a whole pass a sample holds, for each asset, at most
    MAX_NETWORK_EXAMPLES records of any one block for each time the block
    is listed, hence at most MAX_NETWORK_EXAMPLES times the number of blocks
    in all (a cap below zero counts as zero).  Ethereum and Arbitrum. *)
Theorem C1_cap_holds_per_block (W : Type) (api : Api W) (cfg : Config)
    (blocks : list Z) (tokens_to_find : gset string) (s s' : State W)
    (r : list Transfer) :
  Ethereum.collect_network_transfers api cfg blocks tokens_to_find s
    = (Ok r, s') \/
  Arbitrum.collect_network_transfers api cfg blocks tokens_to_find s
    = (Ok r, s') ->
  forall t,
    (forall b,
        (count_token_block t b r
         <= Z.max 0 (MAX_NETWORK_EXAMPLES cfg)
            * Z.of_nat (length (filter (fun x => x = b) blocks)))%Z) /\
    (count_token t r
     <= Z.max 0 (MAX_NETWORK_EXAMPLES cfg) * Z.of_nat (length blocks))%Z.
Proof.
  intros [Hrun|Hrun] t.
  - unfold Ethereum.collect_network_transfers in Hrun.
    eapply pass_bound in Hrun as (Hb & Ht & _);
      [split; [intros b; apply Hb|apply Ht]|lia|].
    intros b nd nd' s0 s1 Hblock.
    eapply ethereum_scan_block. exact Hblock.
  - unfold Arbitrum.collect_network_transfers in Hrun.
    eapply pass_bound in Hrun as (Hb & Ht & _);
      [split; [intros b; apply Hb|apply Ht]|lia|].
    intros b nd nd' s0 s1 Hblock.
    eapply arbitrum_scan_block. exact Hblock.
Qed.

Lemma C1_cap_holds_per_block_witness :
  Ethereum.collect_network_transfers Scenario.api_strangers
    Scenario.cfg_one_example [1; 2]%Z {[ "eth" ]} Scenario.start
  = (Ok [Scenario.stranger_record 1; Scenario.stranger_record 2],
     Scenario.after_two_blocks) /\
  (count_token_block "eth" 1
     [Scenario.stranger_record 1; Scenario.stranger_record 2]
   <= Z.max 0 1 * Z.of_nat (length (filter (fun x => x = 1%Z) [1; 2]%Z)))%Z /\
  (count_token "eth" [Scenario.stranger_record 1; Scenario.stranger_record 2]
   <= Z.max 0 1 * Z.of_nat (length [1; 2]%Z))%Z.
Proof.
  assert (H : Ethereum.collect_network_transfers Scenario.api_strangers
                Scenario.cfg_one_example [1; 2]%Z {[ "eth" ]} Scenario.start
              = (Ok [Scenario.stranger_record 1; Scenario.stranger_record 2],
                 Scenario.after_two_blocks))
    by (vm_compute; reflexivity).
  split; [exact H|].
  destruct (C1_cap_holds_per_block unit Scenario.api_strangers
              Scenario.cfg_one_example [1; 2]%Z {[ "eth" ]} Scenario.start
              Scenario.after_two_blocks _ (or_introl H) "eth") as [Hb Ht].
  split; [exact (Hb 1%Z)|exact Ht].
Defined.

(** C1 fails as stated: with a cap of one example, a pass over two blocks
    that each hold one matching transfer returns two records for the asset,
    on Ethereum and on Arbitrum alike. *)
Lemma C1_counterexample :
  exists r s',
    Ethereum.collect_network_transfers Scenario.api_strangers
      Scenario.cfg_one_example [1; 2]%Z {[ "eth" ]} Scenario.start
    = (Ok r, s') /\
    Arbitrum.collect_network_transfers Scenario.api_strangers
      Scenario.cfg_one_example [1; 2]%Z {[ "eth" ]} Scenario.start
    = (Ok r, s') /\
    ~ (count_token "eth" r
       <= MAX_NETWORK_EXAMPLES Scenario.cfg_one_example)%Z.
Proof.
  exists [Scenario.stranger_record 1; Scenario.stranger_record 2],
         Scenario.after_two_blocks.
  split; [vm_compute; reflexivity|].
  split; [vm_compute; reflexivity|].
  vm_compute. intros H. apply H. reflexivity.
Qed.

End Cap.

(** ** The user's own traffic in the network sample *)

Section OwnTraffic.
Import Py Account Observe.
Context {W : Type} (api : Api W) (cfg : Config).

(** arbitrum.py passes over a transaction sent by the user: no request is
    made for it and nothing is recorded. *)
Lemma arbitrum_scan_tx_own (tokens : gset string) (b : Z) (tx : RawTx)
    (acc : list Transfer * gmap string Z) (s : State W) :
  Arbitrum.sent_by_me cfg tx = true ->
  Arbitrum.scan_tx api cfg tokens b tx acc s = (Ok acc, s).
Proof. unfold Arbitrum.scan_tx. intros ->. reflexivity. Qed.

(** Hence a whole pass of arbitrum.py runs exactly as if the blocks held no
    transaction of the user: same sample, same requests. *)
Lemma arbitrum_ignores_own_traffic (blocks : list Z) (tokens : gset string)
    (s : State W) :
  Arbitrum.collect_network_transfers api cfg blocks tokens s
  = Arbitrum.collect_network_transfers (without_own cfg api) cfg blocks
      tokens s.
Proof.
  unfold Arbitrum.collect_network_transfers.
  generalize (@nil Transfer) as acc. revert s.
  induction blocks as [|b blocks IH]; intros s acc; [reflexivity|].
  simpl. unfold Monad.bind at 1 2.
  assert (Hb : Arbitrum.scan_block api cfg tokens b acc s
               = Arbitrum.scan_block (without_own cfg api) cfg tokens b acc s).
  { unfold Arbitrum.scan_block, Monad.bind, get_block_transactions. simpl.
    destruct (api_block api b (world s)) as [txs w].
    rewrite (for_each_skip (fun tx => negb (Arbitrum.sent_by_me cfg tx))
               (Arbitrum.scan_tx api cfg tokens b) txs).
    - reflexivity.
    - intros x acc0 s0 Hx. apply arbitrum_scan_tx_own.
      destruct (Arbitrum.sent_by_me cfg x); [reflexivity|discriminate]. }
  rewrite <- Hb.
  destruct (Arbitrum.scan_block api cfg tokens b acc s) as [[nd|e] s1];
    [apply IH|reflexivity].
Qed.

End OwnTraffic.

(** C3, where the code departs from it: ethereum.py has no test on the
    sender.  A block whose only transaction is sent from the user's address
    (written in lower case, the configured address in mixed case) yields a
    record in the Ethereum sample; arbitrum.py passes over the same
    transaction. *)
Theorem C3_ethereum_samples_own_transaction :
  Arbitrum.sent_by_me Scenario.cfg_one_example
    (Scenario.plain_tx "0xc1" "0xabcd000000000000000000000000000000000001"
       Scenario.some_recipient "0x" "0x1") = true /\
  Ethereum.collect_network_transfers Scenario.api_own_traffic
    Scenario.cfg_one_example [1%Z] {[ "eth" ]} Scenario.start
  = (Py.Ok [Scenario.own_record],
     {| Account.world := tt;
        Account.journal := [Account.CallBlock 1; Account.CallReceipt "0xc1"] |})
  /\
  Arbitrum.collect_network_transfers Scenario.api_own_traffic
    Scenario.cfg_one_example [1%Z] {[ "eth" ]} Scenario.start
  = (Py.Ok [],
     {| Account.world := tt; Account.journal := [Account.CallBlock 1] |}).
Proof. repeat split; vm_compute; reflexivity. Qed.

(** ** Native transfers *)

Section NativeTransfer.
Import Py Account.

(** arbitrum.py: a native transfer has a recipient, a value that reads as a
    positive integer, and an input that is ["0x"] or empty. *)
Lemma arbitrum_native_transfer_iff (tx : RawTx) :
  Arbitrum.is_token_transfer tx zero_address = Ok true <->
  truthy_opt (tx_to tx) = true /\
  (exists v, int_base (default (SStr "0") (tx_value tx)) 0 = Ok v /\ (0 < v)%Z) /\
  (tx_input tx = Some "0x" \/ tx_input tx = Some EmptyString).
Proof.
  unfold Arbitrum.is_token_transfer.
  replace (String.eqb zero_address zero_address) with true by reflexivity.
  destruct (truthy_opt (tx_to tx)); [|split; [discriminate|intros [? _]; discriminate]].
  destruct (int_base (default (SStr "0") (tx_value tx)) 0) as [v|e]; simpl.
  - split.
    + intros H. injection H as H. apply andb_true_iff in H as [Hv Hi].
      apply Z.ltb_lt in Hv. split; [reflexivity|]. split; [eauto|].
      unfold Arbitrum.input_is_empty in Hi.
      destruct (tx_input tx) as [i|]; [|discriminate].
      apply orb_true_iff in Hi as [Hi|Hi]; apply String.eqb_eq in Hi;
        subst; auto.
    + intros (_ & (v' & Hv' & Hpos) & Hi). injection Hv' as <-.
      f_equal. apply andb_true_iff. split; [apply Z.ltb_lt; exact Hpos|].
      destruct Hi as [-> | ->]; reflexivity.
  - split; [discriminate|]. intros (_ & (v' & Hv' & _) & _). discriminate.
Qed.

(** ethereum.py: the input plays no part in the native test. *)
Lemma ethereum_native_transfer_iff (tx : RawTx) :
  Ethereum.is_token_transfer tx zero_address = Ok true <->
  truthy_opt (tx_to tx) = true /\
  exists v, int_base (default (SStr "0") (tx_value tx)) 16 = Ok v /\ (0 < v)%Z.
Proof.
  unfold Ethereum.is_token_transfer.
  replace (String.eqb zero_address zero_address) with true by reflexivity.
  destruct (truthy_opt (tx_to tx)); [|split; [discriminate|intros [? _]; discriminate]].
  destruct (int_base (default (SStr "0") (tx_value tx)) 16) as [v|e]; simpl.
  - split.
    + intros H. injection H as H. apply Z.ltb_lt in H. eauto.
    + intros (_ & v' & Hv' & Hpos). injection Hv' as <-.
      f_equal. apply Z.ltb_lt. exact Hpos.
  - split; [discriminate|]. intros (_ & v' & Hv' & _). discriminate.
Qed.

End NativeTransfer.

(** C4, where the code departs from it: a transaction with a recipient, the
    value 1 and the call data 0xdeadbeef is a native transfer for
    ethereum.py, whose test never reads the input; arbitrum.py, which tests
    the input, rejects it. *)
Theorem C4_ethereum_accepts_call_data :
  Account.tx_input Scenario.value_with_call_data = Some "0xdeadbeef" /\
  Ethereum.is_token_transfer Scenario.value_with_call_data
    Account.zero_address = Py.Ok true /\
  Arbitrum.is_token_transfer Scenario.value_with_call_data
    Account.zero_address = Py.Ok false.
Proof. repeat split; vm_compute; reflexivity. Qed.

(** ** Which blocks are scanned *)

Section OwnBlocks.
Import Py Account Observe.
Context {W : Type} (api : Api W) (cfg : Config).

Lemma blocks_of_start : blocks_of ([], ∅).
Proof.
  intros b. simpl. split; [set_solver|].
  intros (tx & Htx & _). inversion Htx.
Qed.

Lemma blocks_of_add (my : list Transfer) (B : gset Z) (rec : Transfer) :
  blocks_of (my, B) -> blocks_of (my ++ [rec], {[ block rec ]} ∪ B).
Proof.
  intros H b. simpl. rewrite elem_of_union, elem_of_singleton, (H b). simpl.
  split.
  - intros [->|(tx & Htx & Hb)].
    + exists rec. split; [apply elem_of_app; right; constructor|reflexivity].
    + exists tx. split; [apply elem_of_app; left; exact Htx|exact Hb].
  - intros (tx & Htx & Hb). apply elem_of_app in Htx as [Htx|Htx].
    + right. eauto.
    + apply list_elem_of_singleton in Htx. subst. left. reflexivity.
Qed.

Lemma ethereum_collect_tx_blocks (name : string) (tx : RawTx)
    (acc acc' : list Transfer * gset Z) :
  Ethereum.collect_tx name tx acc = Ok acc' -> blocks_of acc -> blocks_of acc'.
Proof.
  destruct acc as [my B]. unfold Ethereum.collect_tx.
  destruct (int _) as [bn|]; simpl; [|discriminate].
  destruct (0 <? bn)%Z; [|intros H; injection H as <-; auto].
  repeat (destruct (int _); simpl; [|discriminate]).
  intros H. injection H as <-. intros Hacc.
  apply (blocks_of_add my B
           {| token := name; hash := default EmptyString (tx_hash tx);
              block := bn; gas_used := a; gas_price := a0; gas_limit := a1;
              fee := a * a0 |} Hacc).
Qed.

Lemma arbitrum_collect_tx_blocks (name : string) (tx : RawTx)
    (acc acc' : list Transfer * gset Z) :
  Arbitrum.collect_tx name tx acc = Ok acc' -> blocks_of acc -> blocks_of acc'.
Proof.
  destruct acc as [my B]. unfold Arbitrum.collect_tx.
  destruct (int _) as [bn|]; simpl; [|discriminate].
  destruct (0 <? bn)%Z; [|intros H; injection H as <-; auto].
  repeat (destruct (int _); simpl; [|discriminate]).
  intros H. injection H as <-. intros Hacc.
  apply (blocks_of_add my B
           {| token := name; hash := default EmptyString (tx_hash tx);
              block := bn; gas_used := a; gas_price := a0; gas_limit := a1;
              fee := a * a0 |} Hacc).
Qed.

Lemma transactions_journal (address : string) (contract : option string)
    (limit : Z) (s s' : State W) (txs : list RawTx) :
  get_transactions api address contract limit s = (Ok txs, s') ->
  scanned_blocks (journal s') = scanned_blocks (journal s).
Proof.
  unfold get_transactions.
  destruct (api_transactions api address contract limit (world s)) as [r0 w].
  intros H. inversion H. simpl. rewrite scanned_blocks_app. simpl.
  apply app_nil_r.
Qed.

Lemma ethereum_collect_my (s s' : State W) (my : list Transfer)
    (blocks : list Z) :
  Ethereum.collect_my_transactions api cfg s = (Ok (my, blocks), s') ->
  NoDup blocks /\
  (forall b, b ∈ blocks <-> exists tx, tx ∈ my /\ block tx = b) /\
  scanned_blocks (journal s') = scanned_blocks (journal s).
Proof.
  unfold Ethereum.collect_my_transactions. intros H.
  apply bind_ok in H as ([my1 B] & s1 & Hloop & H).
  apply ret_ok in H as [H Hs]. injection H as -> ->. subst s1.
  pose (I := fun (_ : list (string * string)) (acc : list Transfer * gset Z)
                 (st : State W) =>
               blocks_of acc /\
               scanned_blocks (journal st) = scanned_blocks (journal s)).
  assert (HI : I ([] ++ NETWORK_TOKENS cfg) (my1, B) s').
  { eapply (for_each_invariant I); [|split; [apply blocks_of_start|reflexivity]|exact Hloop].
    intros pre [name address] acc st acc' st' [Hacc Hj] Hbody.
    apply bind_ok in Hbody as (txs & st1 & Hget & Hbody).
    apply transactions_journal in Hget.
    pose (J := fun (_ : list RawTx) (acc0 : list Transfer * gset Z)
                   (st0 : State W) =>
                 blocks_of acc0 /\
                 scanned_blocks (journal st0) = scanned_blocks (journal s)).
    change (J ([] ++ txs) acc' st').
    eapply (for_each_invariant J); [| |exact Hbody];
      [|split; [exact Hacc|congruence]].
    intros pre' tx acc0 st0 acc1 st2 [Hacc0 Hj0] Hstep.
    apply lift_ok in Hstep as [Hstep ->].
    split; [|exact Hj0]. eapply ethereum_collect_tx_blocks; eassumption. }
  destruct HI as [Hacc Hj]. split; [apply NoDup_elements|]. split; [|exact Hj].
  intros b. rewrite elem_of_elements. apply (Hacc b).
Qed.

Lemma arbitrum_collect_my (s s' : State W) (my : list Transfer)
    (blocks : list Z) :
  Arbitrum.collect_my_transactions api cfg s = (Ok (my, blocks), s') ->
  NoDup blocks /\
  (forall b, b ∈ blocks <-> exists tx, tx ∈ my /\ block tx = b) /\
  scanned_blocks (journal s') = scanned_blocks (journal s).
Proof.
  unfold Arbitrum.collect_my_transactions. intros H.
  apply bind_ok in H as ([my1 B] & s1 & Hloop & H).
  apply ret_ok in H as [H Hs]. injection H as -> ->. subst s1.
  pose (I := fun (_ : list (string * string)) (acc : list Transfer * gset Z)
                 (st : State W) =>
               blocks_of acc /\
               scanned_blocks (journal st) = scanned_blocks (journal s)).
  assert (HI : I ([] ++ NETWORK_TOKENS cfg) (my1, B) s').
  { eapply (for_each_invariant I); [|split; [apply blocks_of_start|reflexivity]|exact Hloop].
    intros pre [name address] acc st acc' st' [Hacc Hj] Hbody.
    apply bind_ok in Hbody as (txs & st1 & Hget & Hbody).
    apply transactions_journal in Hget.
    pose (J := fun (_ : list RawTx) (acc0 : list Transfer * gset Z)
                   (st0 : State W) =>
                 blocks_of acc0 /\
                 scanned_blocks (journal st0) = scanned_blocks (journal s)).
    change (J ([] ++ txs) acc' st').
    eapply (for_each_invariant J); [| |exact Hbody];
      [|split; [exact Hacc|congruence]].
    intros pre' tx acc0 st0 acc1 st2 [Hacc0 Hj0] Hstep.
    apply lift_ok in Hstep as [Hstep ->].
    split; [|exact Hj0]. eapply arbitrum_collect_tx_blocks; eassumption. }
  destruct HI as [Hacc Hj]. split; [apply NoDup_elements|]. split; [|exact Hj].
  intros b. rewrite elem_of_elements. apply (Hacc b).
Qed.

(** [main] scans the blocks it collected, each once and no other. *)
Lemma ethereum_main_blocks (s s' : State W) (out : Ethereum.Output)
    (rows : list Ethereum.Row) :
  Ethereum.main api cfg s = (Ok (Some (out, rows)), s') ->
  scanned_blocks (journal s')
  = scanned_blocks (journal s) ++ Ethereum.blocks_analyzed out /\
  NoDup (Ethereum.blocks_analyzed out) /\
  forall b, b ∈ Ethereum.blocks_analyzed out <->
            exists tx, tx ∈ Ethereum.my_transactions out /\ block tx = b.
Proof.
  unfold Ethereum.main. intros H.
  destruct (negb (truthy_str (MY_ADDRESS cfg))); [run_all; discriminate|].
  destruct (_ || _); [run_all; discriminate|].
  apply bind_ok in H as ([my blocks] & s1 & Hmy & H).
  apply ethereum_collect_my in Hmy as (Hnd & Hin & Hj).
  destruct my as [|tx0 my]; [run_all; discriminate|].
  apply bind_ok in H as (nd & s2 & Hnet & H).
  unfold Ethereum.collect_network_transfers in Hnet.
  eapply (pass_bound (Z.max 0 (MAX_NETWORK_EXAMPLES cfg))) in Hnet
    as (_ & _ & Hj2); [|lia|intros; eapply ethereum_scan_block; eassumption].
  apply bind_ok in H as ([ms ns] & s3 & Han & H).
  apply lift_ok in Han as [Han ->].
  apply bind_ok in H as (table & s4 & Hrep & H).
  apply lift_ok in Hrep as [Hrep ->].
  apply ret_ok in H as [H ->]. injection H as -> ->. simpl.
  split; [congruence|]. split; assumption.
Qed.

Lemma arbitrum_main_blocks (s s' : State W) (out : Arbitrum.Output)
    (rows : list Arbitrum.Row) :
  Arbitrum.main api cfg s = (Ok (Some (out, rows)), s') ->
  scanned_blocks (journal s')
  = scanned_blocks (journal s) ++ Arbitrum.blocks_analyzed out /\
  NoDup (Arbitrum.blocks_analyzed out) /\
  forall b, b ∈ Arbitrum.blocks_analyzed out <->
            exists tx, tx ∈ Arbitrum.my_transactions out /\ block tx = b.
Proof.
  unfold Arbitrum.main. intros H.
  destruct (negb (truthy_str (MY_ADDRESS cfg))); [run_all; discriminate|].
  destruct (_ || _); [run_all; discriminate|].
  apply bind_ok in H as ([my blocks] & s1 & Hmy & H).
  apply arbitrum_collect_my in Hmy as (Hnd & Hin & Hj).
  destruct my as [|tx0 my]; [run_all; discriminate|].
  apply bind_ok in H as (nd & s2 & Hnet & H).
  unfold Arbitrum.collect_network_transfers in Hnet.
  eapply (pass_bound (Z.max 0 (MAX_NETWORK_EXAMPLES cfg))) in Hnet
    as (_ & _ & Hj2); [|lia|intros; eapply arbitrum_scan_block; eassumption].
  apply bind_ok in H as ([ms ns] & s3 & Han & H).
  apply lift_ok in Han as [Han ->].
  apply bind_ok in H as (table & s4 & Hrep & H).
  apply lift_ok in Hrep as [Hrep ->].
  apply ret_ok in H as [H ->]. injection H as -> ->. simpl.
  split; [congruence|]. split; assumption.
Qed.

End OwnBlocks.

Section RecentBlocks.
Import Py Litecoin Observe.
Context {W : Type} (api : Api W).

Lemma scanned_heights_app (j1 j2 : list call) :
  scanned_heights (j1 ++ j2) = scanned_heights j1 ++ scanned_heights j2.
Proof. unfold scanned_heights. apply omap_app. Qed.

Lemma litecoin_scan_block_journal (h : Z) (acc acc' : list NetTx)
    (s s' : State W) :
  scan_block api h acc s = (Ok acc', s') ->
  scanned_heights (journal s') = scanned_heights (journal s) ++ [h].
Proof.
  unfold scan_block, Monad.bind, get_block_transactions.
  destruct (api_block api h (world s)) as [txs w].
  destruct txs as [|tx txs]; intros H.
  - apply ret_ok in H as [_ ->]. simpl. rewrite scanned_heights_app.
    reflexivity.
  - apply lift_ok in H as [_ ->]. simpl. rewrite scanned_heights_app.
    reflexivity.
Qed.

Lemma litecoin_pass_journal (heights : list Z) (acc acc' : list NetTx)
    (s s' : State W) :
  Monad.for_each heights (scan_block api) acc s = (Ok acc', s') ->
  scanned_heights (journal s') = scanned_heights (journal s) ++ heights.
Proof.
  intros H.
  pose (I := fun (pre : list Z) (_ : list NetTx) (st : State W) =>
               scanned_heights (journal st)
               = scanned_heights (journal s) ++ pre).
  change (I ([] ++ heights) acc' s').
  eapply (for_each_invariant I); [| |exact H].
  - intros pre h a st a' st' HI Hstep. unfold I in *.
    apply litecoin_scan_block_journal in Hstep.
    rewrite Hstep, HI, <- app_assoc. reflexivity.
  - unfold I. symmetry. apply app_nil_r.
Qed.

(** Asking for the recent blocks scans none. *)
Lemma get_recent_blocks_journal (limit : Z) (s s' : State W) (r : list Z) :
  get_recent_blocks api limit s = (Ok r, s') ->
  scanned_heights (journal s') = scanned_heights (journal s).
Proof.
  unfold get_recent_blocks, Monad.bind, get_blockchain_info, request_blocks.
  destruct (api_blockchain_info api (world s)) as [[info|] w]; simpl.
  - destruct (blocks info); intros H.
    + apply ret_ok in H as [_ ->]. simpl. rewrite scanned_heights_app.
      simpl. apply app_nil_r.
    + apply raise_ok in H. contradiction.
  - destruct (api_blocks api w) as [[bl|] w']; simpl.
    + destruct (mapM height (slice_to bl limit)); intros H;
        apply ret_ok in H as [_ ->]; simpl;
        rewrite !scanned_heights_app; simpl; rewrite !app_nil_r; reflexivity.
    + intros H. apply ret_ok in H as [_ ->]. simpl.
      rewrite !scanned_heights_app. simpl. rewrite !app_nil_r. reflexivity.
Qed.

(** When the chain height is known, the recent blocks are the last [limit]
    heights, not below 1. *)
Lemma get_recent_blocks_height (limit h : Z) (s : State W) (w : W) :
  api_blockchain_info api (world s) = (Some {| blocks := Some h |}, w) ->
  get_recent_blocks api limit s
  = (Ok (seqZ (Z.max 1 (h - limit + 1)) (h + 1 - Z.max 1 (h - limit + 1))),
     {| world := w; journal := journal s ++ [CallBlockchainInfo] |}).
Proof.
  intros H. unfold get_recent_blocks, Monad.bind, get_blockchain_info.
  rewrite H. reflexivity.
Qed.

(** The network pass scans the recent blocks, in order, and no other. *)
Lemma litecoin_scans_recent_blocks (s s' : State W) (r : list NetTx) :
  analyze_network_transactions api s = (Ok r, s') ->
  exists recent s1,
    get_recent_blocks api NETWORK_BLOCKS_LIMIT s = (Ok recent, s1) /\
    scanned_heights (journal s') = scanned_heights (journal s) ++ recent.
Proof.
  unfold analyze_network_transactions. intros H.
  apply bind_ok in H as (recent & s1 & Hrecent & H).
  exists recent, s1. split; [exact Hrecent|].
  apply get_recent_blocks_journal in Hrecent.
  destruct recent as [|h0 recent]; [apply raise_ok in H; contradiction|].
  apply litecoin_pass_journal in H. congruence.
Qed.

End RecentBlocks.

Section ScannedBlocks.
Import Py Observe.

(** C2, as the code has it: ethereum.py and arbitrum.py scan exactly the
    distinct block numbers of the user's own recorded transactions, each
    once; litecoin.py scans the blocks that [get_recent_blocks] answers,
    which are the last NETWORK_BLOCKS_LIMIT = 20 heights of the chain when
    its height is known, whatever blocks the user's transactions are
    in. *)
Theorem C2_scanned_blocks :
  (forall (W : Type) (api : Account.Api W) (cfg : Account.Config)
          (s s' : Account.State W) out rows,
      Ethereum.main api cfg s = (Ok (Some (out, rows)), s') ->
      scanned_blocks (Account.journal s')
      = scanned_blocks (Account.journal s) ++ Ethereum.blocks_analyzed out /\
      NoDup (Ethereum.blocks_analyzed out) /\
      forall b, b ∈ Ethereum.blocks_analyzed out <->
                exists tx, tx ∈ Ethereum.my_transactions out /\
                           Account.block tx = b) /\
  (forall (W : Type) (api : Account.Api W) (cfg : Account.Config)
          (s s' : Account.State W) out rows,
      Arbitrum.main api cfg s = (Ok (Some (out, rows)), s') ->
      scanned_blocks (Account.journal s')
      = scanned_blocks (Account.journal s) ++ Arbitrum.blocks_analyzed out /\
      NoDup (Arbitrum.blocks_analyzed out) /\
      forall b, b ∈ Arbitrum.blocks_analyzed out <->
                exists tx, tx ∈ Arbitrum.my_transactions out /\
                           Account.block tx = b) /\
  (forall (W : Type) (api : Litecoin.Api W) (s s' : Litecoin.State W) r,
      Litecoin.analyze_network_transactions api s = (Ok r, s') ->
      exists recent s1,
        Litecoin.get_recent_blocks api Litecoin.NETWORK_BLOCKS_LIMIT s
        = (Ok recent, s1) /\
        scanned_heights (Litecoin.journal s')
        = scanned_heights (Litecoin.journal s) ++ recent) /\
  (forall (W : Type) (api : Litecoin.Api W) (s : Litecoin.State W) h w,
      Litecoin.api_blockchain_info api (Litecoin.world s)
      = (Some {| Litecoin.blocks := Some h |}, w) ->
      Litecoin.get_recent_blocks api Litecoin.NETWORK_BLOCKS_LIMIT s
      = (Ok (seqZ (Z.max 1 (h - 19)) (h + 1 - Z.max 1 (h - 19))),
         {| Litecoin.world := w;
            Litecoin.journal :=
              Litecoin.journal s ++ [Litecoin.CallBlockchainInfo] |})).
Proof.
  split; [|split; [|split]].
  - intros. eapply ethereum_main_blocks. eassumption.
  - intros. eapply arbitrum_main_blocks. eassumption.
  - intros. eapply litecoin_scans_recent_blocks. eassumption.
  - intros W api s h w H.
    rewrite (get_recent_blocks_height api Litecoin.NETWORK_BLOCKS_LIMIT h s w H).
    unfold Litecoin.NETWORK_BLOCKS_LIMIT.
    replace (h - 20 + 1)%Z with (h - 19)%Z by lia. reflexivity.
Qed.

End ScannedBlocks.

Lemma C2_scanned_blocks_witness :
  (exists out rows s',
      Ethereum.main Scenario.api_strangers Scenario.cfg_one_example
        Scenario.start = (Py.Ok (Some (out, rows)), s') /\
      Ethereum.blocks_analyzed out = [205; 100]%Z /\
      Observe.scanned_blocks (Account.journal s')
      = Observe.scanned_blocks (Account.journal Scenario.start)
        ++ Ethereum.blocks_analyzed out) /\
  (exists out rows s',
      Arbitrum.main Scenario.api_strangers Scenario.cfg_one_example
        Scenario.start = (Py.Ok (Some (out, rows)), s') /\
      Observe.scanned_blocks (Account.journal s')
      = Observe.scanned_blocks (Account.journal Scenario.start)
        ++ Arbitrum.blocks_analyzed out) /\
  (exists r s' recent s1,
      Litecoin.analyze_network_transactions Scenario.api_height_100
        Scenario.ltc_start = (Py.Ok r, s') /\
      Litecoin.get_recent_blocks Scenario.api_height_100
        Litecoin.NETWORK_BLOCKS_LIMIT Scenario.ltc_start
      = (Py.Ok recent, s1) /\
      Observe.scanned_heights (Litecoin.journal s')
      = Observe.scanned_heights (Litecoin.journal Scenario.ltc_start)
        ++ recent) /\
  Litecoin.get_recent_blocks Scenario.api_height_100
    Litecoin.NETWORK_BLOCKS_LIMIT Scenario.ltc_start
  = (Py.Ok (seqZ (Z.max 1 (100 - 19)) (100 + 1 - Z.max 1 (100 - 19))),
     {| Litecoin.world := tt;
        Litecoin.journal := [Litecoin.CallBlockchainInfo] |}).
Proof.
  destruct C2_scanned_blocks as (Heth & Harb & Hltc & Hrecent).
  split; [|split; [|split]].
  - destruct (Ethereum.main Scenario.api_strangers Scenario.cfg_one_example
                Scenario.start) as [[[[out rows]|]|e] s'] eqn:E;
      try (vm_compute in E; discriminate E).
    exists out, rows, s'. split; [reflexivity|].
    split; [vm_compute in E; injection E as <- _ _; reflexivity|].
    exact (proj1 (Heth unit _ _ _ _ _ _ E)).
  - destruct (Arbitrum.main Scenario.api_strangers Scenario.cfg_one_example
                Scenario.start) as [[[[out rows]|]|e] s'] eqn:E;
      try (vm_compute in E; discriminate E).
    exists out, rows, s'. split; [reflexivity|].
    exact (proj1 (Harb unit _ _ _ _ _ _ E)).
  - destruct (Litecoin.analyze_network_transactions Scenario.api_height_100
                Scenario.ltc_start) as [[r|e] s'] eqn:E;
      [|vm_compute in E; discriminate E].
    destruct (Hltc unit _ _ _ _ E) as (recent & s1 & H1 & H2).
    exists r, s', recent, s1. auto.
  - exact (Hrecent unit Scenario.api_height_100 Scenario.ltc_start 100%Z tt
             eq_refl).
Defined.

(** C2 fails as stated on Litecoin: the user's only transaction sits in
    block 5, the chain is at height 100, and the run scans the heights 81
    to 100; block 5 is not among them. *)
Lemma C2_counterexample :
  exists table s',
    Litecoin.main Scenario.api_height_100 Scenario.ltc_address
      Scenario.ltc_start = (Py.Ok (Some table), s') /\
    Litecoin.api_address_txs Scenario.api_height_100 Scenario.ltc_address tt
    = (Some [Scenario.expensive], tt) /\
    Observe.own_heights [Scenario.expensive] = [5%Z] /\
    Observe.scanned_heights (Litecoin.journal s') = seqZ 81 20 /\
    ~ (forall b, b ∈ Observe.scanned_heights (Litecoin.journal s') <->
                 b ∈ Observe.own_heights [Scenario.expensive]).
Proof.
  destruct (Litecoin.main Scenario.api_height_100 Scenario.ltc_address
              Scenario.ltc_start) as [[[table|]|e] s'] eqn:E;
    try (vm_compute in E; discriminate E).
  exists table, s'. split; [reflexivity|]. split; [reflexivity|].
  split; [reflexivity|].
  assert (Hs : Observe.scanned_heights (Litecoin.journal s') = seqZ 81 20)
    by (vm_compute in E; injection E as _ <-; reflexivity).
  split; [exact Hs|].
  rewrite Hs. intros H. specialize (H 5%Z).
  assert (H5 : 5%Z ∈ seqZ 81 20) by (apply H; vm_compute; constructor).
  apply elem_of_seqZ in H5. lia.
Qed.

(** ** Fee rates and the two samples of litecoin.py *)

Section FeeRate.
Import Py Litecoin Observe.

Lemma Qlt_bool_iff (a b : Q) : Report.Qlt_bool a b = true <-> (a < b)%Q.
Proof.
  unfold Report.Qlt_bool. rewrite negb_true_iff.
  split.
  - intros H. apply Qnot_le_lt. intros Hle.
    apply Qle_bool_iff in Hle. congruence.
  - intros H. destruct (Qle_bool b a) eqn:E; [|reflexivity].
    apply Qle_bool_iff in E. exfalso. exact (Qlt_not_le _ _ H E).
Qed.

Lemma Qlt_bool_false_iff (a b : Q) :
  Report.Qlt_bool a b = false <-> ~ (a < b)%Q.
Proof.
  rewrite <- Qlt_bool_iff. destruct (Report.Qlt_bool a b); split; congruence.
Qed.

(** Dividing by a positive number never raises. *)
Lemma truediv_positive (a b : Q) :
  Report.Qlt_bool 0 b = true -> truediv a b = Ok (a / b)%Q.
Proof.
  intros H. apply Qlt_bool_iff in H. unfold truediv.
  destruct (Qeq_bool b 0) eqn:E; [|reflexivity].
  apply Qeq_bool_iff in E. rewrite E in H. exfalso.
  exact (Qlt_irrefl 0 H).
Qed.

Lemma calculate_fee_per_byte_total (tx : Tx) :
  calculate_fee_per_byte tx = Ok (fee_rate tx, vsize_of tx).
Proof.
  unfold fee_rate, vsize_of, calculate_fee_per_byte.
  destruct (Report.Qlt_bool 0 (default 0%Q (weight tx))) eqn:Ew.
  - rewrite (truediv_positive _ 4) by reflexivity. simpl.
    destruct (Report.Qlt_bool 0 (default 0%Q (weight tx) / 4)) eqn:Ev.
    + rewrite (truediv_positive _ _ Ev). reflexivity.
    + reflexivity.
  - simpl. destruct (Report.Qlt_bool 0 (default 1%Q (size tx))) eqn:Ev.
    + rewrite (truediv_positive _ _ Ev). reflexivity.
    + reflexivity.
Qed.

Lemma is_cpfp_transaction_total (tx : Tx) :
  is_cpfp_transaction tx
  = Ok ((5 <? vin_count tx)%Z && Report.Qlt_bool (fee_rate tx) 2).
Proof.
  unfold is_cpfp_transaction, fee_rate, calculate_fee_per_byte.
  destruct (5 <? vin_count tx)%Z; [|reflexivity]. simpl.
  destruct (Report.Qlt_bool 0 (default 0%Q (weight tx))) eqn:Ew.
  - rewrite (truediv_positive _ 4) by reflexivity. simpl.
    destruct (Report.Qlt_bool 0 (default 0%Q (weight tx) / 4)) eqn:Ev.
    + rewrite (truediv_positive _ _ Ev). simpl.
      destruct (Report.Qlt_bool _ 2); reflexivity.
    + simpl. reflexivity.
  - simpl. destruct (Report.Qlt_bool 0 (default 1%Q (size tx))) eqn:Ev.
    + rewrite (truediv_positive _ _ Ev). simpl.
      destruct (Report.Qlt_bool _ 2); reflexivity.
    + simpl. reflexivity.
Qed.

Lemma sample_tx_total (acc : list NetTx) (tx : Tx) :
  sample_tx (Ok acc) tx
  = Ok (if passes_network_rules tx then acc ++ [net_entry tx] else acc).
Proof.
  unfold sample_tx, passes_network_rules. simpl.
  destruct (has_coinbase_input tx); [reflexivity|].
  rewrite is_cpfp_transaction_total. simpl.
  destruct ((5 <? vin_count tx)%Z && Report.Qlt_bool (fee_rate tx) 2);
    [reflexivity|].
  rewrite calculate_fee_per_byte_total. simpl.
  destruct (Report.Qlt_bool 0 (fee_rate tx) && Qle_bool (fee_rate tx) MAX_FEE);
    reflexivity.
Qed.

Lemma kept_network_rules (tx : Tx) :
  kept_network tx = passes_network_rules tx.
Proof.
  unfold kept_network. rewrite sample_tx_total.
  destruct (passes_network_rules tx); reflexivity.
Qed.

Lemma record_our_tx_total (ls : OurLists) (tx : Tx) :
  record_our_tx (Ok ls) tx
  = Ok (if is_confirmed tx then with_our_tx ls tx else ls).
Proof.
  unfold record_our_tx. simpl. destruct (is_confirmed tx); [|reflexivity].
  simpl. rewrite calculate_fee_per_byte_total. reflexivity.
Qed.

Lemma kept_mine_confirmed (tx : Tx) : kept_mine tx = is_confirmed tx.
Proof.
  unfold kept_mine. rewrite record_our_tx_total.
  destruct (is_confirmed tx); reflexivity.
Qed.

(** The two loops, as filters. *)
Lemma sample_loop (txs : list Tx) (acc : list NetTx) :
  fold_left sample_tx txs (Ok acc)
  = Ok (acc ++ map net_entry (List.filter kept_network txs)).
Proof.
  revert acc. induction txs as [|tx txs IH]; intros acc.
  - simpl. rewrite app_nil_r. reflexivity.
  - cbn [fold_left List.filter].
    rewrite sample_tx_total, kept_network_rules.
    destruct (passes_network_rules tx); rewrite IH; [|reflexivity].
    simpl. rewrite <- app_assoc. reflexivity.
Qed.

Lemma our_loop (txs : list Tx) (ls : OurLists) :
  fold_left record_our_tx txs (Ok ls)
  = Ok {| fees := fees ls ++ map fee_rate (List.filter kept_mine txs);
          sizes := sizes ls
            ++ map (fun tx => default 0%Q (size tx))
                 (List.filter kept_mine txs);
          weights := weights ls
            ++ map (fun tx => default 0%Q (weight tx))
                 (List.filter kept_mine txs);
          inputs := inputs ls
            ++ map (fun tx => inject_Z (vin_count tx))
                 (List.filter kept_mine txs);
          outputs := outputs ls
            ++ map (fun tx => inject_Z (vout_count tx))
                 (List.filter kept_mine txs) |}.
Proof.
  revert ls. induction txs as [|tx txs IH]; intros ls.
  - simpl. rewrite !app_nil_r. destruct ls; reflexivity.
  - cbn [fold_left List.filter].
    rewrite record_our_tx_total, kept_mine_confirmed.
    destruct (is_confirmed tx); rewrite IH; [|reflexivity].
    simpl. rewrite <- !app_assoc. reflexivity.
Qed.

End FeeRate.

Section Rules.
Import Py Litecoin Observe.

(** C9: [calculate_fee_per_byte] always returns and never divides by zero
    (a division by zero would raise): the virtual size is [weight / 4] when
    the weight is positive and the size in bytes otherwise (1 when the size
    is absent); the fee rate is [fee / vsize] when the virtual size is
    positive and exactly 0 otherwise. *)
Theorem C9_fee_per_byte_total (tx : Tx) :
  exists fee_per_byte vsize,
    calculate_fee_per_byte tx = Ok (fee_per_byte, vsize) /\
    ((0 < default 0 (weight tx))%Q ->
     vsize = (default 0 (weight tx) / 4)%Q) /\
    (~ (0 < default 0 (weight tx))%Q -> vsize = default 1%Q (size tx)) /\
    ((0 < vsize)%Q -> fee_per_byte = (default 0 (fee tx) / vsize)%Q) /\
    (~ (0 < vsize)%Q -> fee_per_byte = 0%Q).
Proof.
  unfold calculate_fee_per_byte.
  destruct (Report.Qlt_bool 0 (default 0%Q (weight tx))) eqn:Ew.
  - rewrite (truediv_positive _ 4) by reflexivity. simpl.
    apply Qlt_bool_iff in Ew.
    destruct (Report.Qlt_bool 0 (default 0%Q (weight tx) / 4)) eqn:Ev.
    + rewrite (truediv_positive _ _ Ev). simpl. apply Qlt_bool_iff in Ev.
      eexists _, _. split; [reflexivity|]. repeat split; tauto.
    + simpl. apply Qlt_bool_false_iff in Ev.
      eexists _, _. split; [reflexivity|]. repeat split; tauto.
  - simpl. apply Qlt_bool_false_iff in Ew.
    destruct (Report.Qlt_bool 0 (default 1%Q (size tx))) eqn:Ev.
    + rewrite (truediv_positive _ _ Ev). simpl. apply Qlt_bool_iff in Ev.
      eexists _, _. split; [reflexivity|]. repeat split; tauto.
    + simpl. apply Qlt_bool_false_iff in Ev.
      eexists _, _. split; [reflexivity|]. repeat split; tauto.
Qed.

Lemma C9_fee_per_byte_total_witness :
  exists fee_per_byte vsize,
    calculate_fee_per_byte Scenario.pending = Ok (fee_per_byte, vsize) /\
    vsize = (800 / 4)%Q /\
    fee_per_byte = (400 / vsize)%Q.
Proof.
  destruct (C9_fee_per_byte_total Scenario.pending)
    as (f & v & H & Hw & _ & Hpos & _).
  exists f, v. split; [exact H|].
  assert (Hv : v = (800 / 4)%Q) by (apply Hw; reflexivity).
  split; [exact Hv|]. apply Hpos. rewrite Hv. reflexivity.
Defined.

(** C6: in the network sample of litecoin.py a transaction with more than
    5 inputs and a fee rate below 2.0 is dropped; a transaction whose fee
    rate is not positive, or is above 8.0, is never counted; a transaction
    that the CPFP test does not drop (so the one with more than 5 inputs at
    a rate of 2.0 or more) and that has no coinbase input is kept as soon
    as its rate lies in (0, 8.0], and nothing else is kept.  Six inputs at
    1.5 per byte: dropped; the same transaction at 3.0 per byte: kept. *)
Theorem C6_cpfp_and_fee_window :
  (forall tx,
      ((5 < vin_count tx)%Z -> (fee_rate tx < 2)%Q ->
       kept_network tx = false) /\
      (~ (0 < fee_rate tx)%Q -> kept_network tx = false) /\
      ((MAX_FEE < fee_rate tx)%Q -> kept_network tx = false) /\
      (has_coinbase_input tx = false ->
       ~ ((5 < vin_count tx)%Z /\ (fee_rate tx < 2)%Q) ->
       (0 < fee_rate tx)%Q -> (fee_rate tx <= MAX_FEE)%Q ->
       kept_network tx = true) /\
      (kept_network tx = true ->
       has_coinbase_input tx = false /\
       ~ ((5 < vin_count tx)%Z /\ (fee_rate tx < 2)%Q) /\
       (0 < fee_rate tx)%Q /\ (fee_rate tx <= MAX_FEE)%Q)) /\
  (forall txs acc,
      fold_left sample_tx txs (Ok acc)
      = Ok (acc ++ map net_entry (List.filter kept_network txs))) /\
  (vin_count Scenario.six_inputs_cheap = 6%Z /\
   (fee_rate Scenario.six_inputs_cheap == 3 # 2)%Q /\
   kept_network Scenario.six_inputs_cheap = false) /\
  ((fee_rate (with_fee Scenario.six_inputs_cheap 600) == 3)%Q /\
   kept_network (with_fee Scenario.six_inputs_cheap 600) = true).
Proof.
  split; [|split; [apply sample_loop|split]].
  2: { split; [|split]; vm_compute; reflexivity. }
  2: { split; vm_compute; reflexivity. }
  intros tx. rewrite kept_network_rules. unfold passes_network_rules.
  split; [|split; [|split; [|split]]].
  - intros Hn Hf. apply Z.ltb_lt in Hn. apply Qlt_bool_iff in Hf.
    rewrite Hn, Hf. simpl. rewrite andb_false_r. reflexivity.
  - intros Hf. apply Qlt_bool_false_iff in Hf. rewrite Hf.
    simpl. apply andb_false_r.
  - intros Hf. destruct (Qle_bool (fee_rate tx) MAX_FEE) eqn:E.
    + apply Qle_bool_iff in E. exfalso. exact (Qlt_not_le _ _ Hf E).
    + rewrite andb_false_r. apply andb_false_r.
  - intros Hc Hcpfp Hpos Hmax. rewrite Hc.
    apply Qlt_bool_iff in Hpos. apply Qle_bool_iff in Hmax.
    rewrite Hpos, Hmax. simpl. rewrite andb_true_r. apply negb_true_iff.
    destruct (5 <? vin_count tx)%Z eqn:En; [|reflexivity]. simpl.
    apply Qlt_bool_false_iff. intros Hf. apply Hcpfp.
    split; [apply Z.ltb_lt; exact En|exact Hf].
  - intros H. apply andb_true_iff in H as [H Hwin].
    apply andb_true_iff in H as [Hc Hcpfp].
    apply andb_true_iff in Hwin as [Hpos Hmax].
    apply negb_true_iff in Hc. apply negb_true_iff in Hcpfp.
    apply Qlt_bool_iff in Hpos. apply Qle_bool_iff in Hmax.
    split; [exact Hc|]. split; [|split; assumption].
    intros [Hn Hf]. apply Z.ltb_lt in Hn. apply Qlt_bool_iff in Hf.
    rewrite Hn, Hf in Hcpfp. discriminate Hcpfp.
Qed.

Lemma C6_cpfp_and_fee_window_witness :
  ((5 < vin_count Scenario.six_inputs_cheap)%Z /\
   (fee_rate Scenario.six_inputs_cheap < 2)%Q /\
   kept_network Scenario.six_inputs_cheap = false) /\
  (has_coinbase_input (with_fee Scenario.six_inputs_cheap 600) = false /\
   (0 < fee_rate (with_fee Scenario.six_inputs_cheap 600))%Q /\
   (fee_rate (with_fee Scenario.six_inputs_cheap 600) <= MAX_FEE)%Q /\
   kept_network (with_fee Scenario.six_inputs_cheap 600) = true).
Proof.
  destruct C6_cpfp_and_fee_window as (Hall & _).
  assert (H1 : (5 < vin_count Scenario.six_inputs_cheap)%Z) by reflexivity.
  assert (H2 : (fee_rate Scenario.six_inputs_cheap < 2)%Q) by reflexivity.
  assert (H3 : has_coinbase_input (with_fee Scenario.six_inputs_cheap 600)
               = false) by reflexivity.
  assert (H4 : (0 < fee_rate (with_fee Scenario.six_inputs_cheap 600))%Q)
    by reflexivity.
  assert (H5 : (fee_rate (with_fee Scenario.six_inputs_cheap 600)
                <= MAX_FEE)%Q) by (vm_compute; discriminate).
  assert (H6 : ~ ((5 < vin_count (with_fee Scenario.six_inputs_cheap 600))%Z
                  /\ (fee_rate (with_fee Scenario.six_inputs_cheap 600) < 2)%Q))
    by (intros [_ H]; vm_compute in H; discriminate H).
  split.
  - split; [exact H1|split; [exact H2|]].
    exact (proj1 (Hall Scenario.six_inputs_cheap) H1 H2).
  - split; [exact H3|split; [exact H4|split; [exact H5|]]].
    exact (proj1 (proj2 (proj2 (proj2
                    (Hall (with_fee Scenario.six_inputs_cheap 600)))))
             H3 H6 H4 H5).
Defined.

(** C5, as the code has it: the three exclusion rules (coinbase input,
    more than 5 inputs with a fee rate below 2.0, fee rate outside
    (0, 8.0]) are applied to the network sample only.  The user-side loop
    keeps a transaction exactly when its status is confirmed, whatever its
    inputs and fee rate; the network-side loop does not read the status. *)
Theorem C5_rules_apply_to_network_only :
  (forall tx, kept_mine tx = is_confirmed tx) /\
  (forall tx,
      kept_network tx
      = negb (has_coinbase_input tx)
        && negb ((5 <? vin_count tx)%Z && Report.Qlt_bool (fee_rate tx) 2)
        && (Report.Qlt_bool 0 (fee_rate tx)
            && Qle_bool (fee_rate tx) MAX_FEE)) /\
  (forall txs,
      exists ls,
        fold_left record_our_tx txs (Ok no_lists) = Ok ls /\
        fees ls = map fee_rate (List.filter kept_mine txs)) /\
  (forall txs acc,
      fold_left sample_tx txs (Ok acc)
      = Ok (acc ++ map net_entry (List.filter kept_network txs))).
Proof.
  split; [exact kept_mine_confirmed|].
  split; [exact kept_network_rules|].
  split; [|exact sample_loop].
  intros txs. rewrite our_loop. eexists. split; reflexivity.
Qed.

(** C5 fails as stated: a confirmed transaction at 10 per byte, and a
    confirmed one with six inputs at 1.5 per byte, are both recorded on the
    user side and dropped on the network side; an unconfirmed transaction
    at 2 per byte is dropped on the user side and recorded on the network
    side. *)
Lemma C5_counterexample :
  (is_confirmed Scenario.expensive = true /\
   (fee_rate Scenario.expensive == 10)%Q /\
   kept_mine Scenario.expensive = true /\
   kept_network Scenario.expensive = false) /\
  (is_confirmed Scenario.six_inputs_cheap = true /\
   kept_mine Scenario.six_inputs_cheap = true /\
   kept_network Scenario.six_inputs_cheap = false) /\
  (is_confirmed Scenario.pending = false /\
   (fee_rate Scenario.pending == 2)%Q /\
   kept_mine Scenario.pending = false /\
   kept_network Scenario.pending = true) /\
  ~ (forall tx, kept_mine tx = true <-> kept_network tx = true).
Proof.
  repeat split; try (vm_compute; reflexivity).
  intros H. specialize (H Scenario.expensive).
  assert (Hm : kept_mine Scenario.expensive = true) by reflexivity.
  apply H in Hm. vm_compute in Hm. discriminate Hm.
Qed.

End Rules.

(** ** The quotient of two ints *)

Section Doubles.
Import Py.

Lemma scale_step (m d e : Z) :
  (scale_num m (e - 1) * scale_den d e
   = 2 * (scale_num m e * scale_den d (e - 1)))%Z.
Proof.
  unfold scale_num, scale_den.
  destruct (0 <=? e)%Z eqn:E; destruct (0 <=? e - 1)%Z eqn:E1;
    rewrite ?Z.leb_le, ?Z.leb_gt in *; try lia.
  - assert (Hp : (2 ^ e = 2 * 2 ^ (e - 1))%Z).
    { rewrite <- Z.pow_succ_r by lia. f_equal. lia. }
    rewrite Hp. ring.
  - assert (e = 0)%Z by lia. subst e. change (2 ^ (- (0 - 1)))%Z with 2%Z. change (2 ^ 0)%Z with 1%Z. ring.
  - assert (Hp : (2 ^ (- (e - 1)) = 2 * 2 ^ (- e))%Z).
    { rewrite <- Z.pow_succ_r by lia. f_equal. lia. }
    rewrite Hp. ring.
Qed.

Lemma scale_den_pos (d e : Z) : (0 < d)%Z -> (0 < scale_den d e)%Z.
Proof.
  intros Hd. unfold scale_den. destruct (0 <=? e)%Z eqn:E; [|exact Hd].
  apply Z.leb_le in E. pose proof (Z.pow_pos_nonneg 2 e). nia.
Qed.

Lemma first_exponent (m d : Z) :
  (0 < m)%Z -> (0 < d)%Z ->
  let e := (Z.log2 m - Z.log2 d - 52)%Z in
  (2 ^ 51 * scale_den d e < scale_num m e /\
   scale_num m e < 2 ^ 53 * scale_den d e)%Z.
Proof.
  intros Hm Hd e.
  destruct (Z.log2_spec m Hm) as [Hm1 Hm2].
  destruct (Z.log2_spec d Hd) as [Hd1 Hd2].
  pose proof (Z.log2_nonneg m) as Hlm. pose proof (Z.log2_nonneg d) as Hld.
  rewrite Z.pow_succ_r in Hm2, Hd2 by assumption.
  unfold scale_num, scale_den.
  destruct (0 <=? e)%Z eqn:E; rewrite ?Z.leb_le, ?Z.leb_gt in E.
  - assert (El : Z.log2 m = (Z.log2 d + (52 + e))%Z) by (unfold e; lia).
    rewrite El in Hm1, Hm2.
    rewrite !Z.pow_add_r in Hm1, Hm2 by lia.
    pose proof (Z.pow_pos_nonneg 2 e ltac:(lia) E) as He.
    pose proof (Z.pow_pos_nonneg 2 (Z.log2 d) ltac:(lia) Hld) as Hp.
    change (2 ^ 53)%Z with (2 * 2 ^ 52)%Z. change (2 ^ 51)%Z with 2251799813685248%Z.
    change (2 ^ 52)%Z with (2 * 2251799813685248)%Z in *.
    split; nia.
  - assert (El : (Z.log2 m + - e)%Z = (Z.log2 d + 52)%Z) by (unfold e; lia).
    assert (Hx : (2 ^ Z.log2 m * 2 ^ (- e) = 2 ^ Z.log2 d * 2 ^ 52)%Z).
    { rewrite <- !Z.pow_add_r by lia. rewrite El. reflexivity. }
    pose proof (Z.pow_pos_nonneg 2 (- e) ltac:(lia) ltac:(lia)) as He.
    pose proof (Z.pow_pos_nonneg 2 (Z.log2 d) ltac:(lia) Hld) as Hp.
    change (2 ^ 53)%Z with (2 * 2 ^ 52)%Z. change (2 ^ 51)%Z with 2251799813685248%Z.
    change (2 ^ 52)%Z with (2 * 2251799813685248)%Z in *.
    split; nia.
Qed.

(** The significand has 53 bits. *)
Lemma exponent_bounds (m d : Z) :
  (0 < m)%Z -> (0 < d)%Z ->
  let e := last_bit_exponent m d in
  (2 ^ 52 * scale_den d e <= scale_num m e /\
   scale_num m e < 2 ^ 53 * scale_den d e)%Z.
Proof.
  intros Hm Hd. unfold last_bit_exponent.
  set (e := (Z.log2 m - Z.log2 d - 52)%Z).
  destruct (first_exponent m d Hm Hd) as [Hlo Hhi]. fold e in Hlo, Hhi.
  pose proof (scale_den_pos d e Hd) as Hden.
  pose proof (scale_den_pos d (e - 1) Hd) as Hden1.
  pose proof (scale_step m d e) as Hstep.
  destruct (scale_num m e / scale_den d e <? 2 ^ 52)%Z eqn:E;
    rewrite ?Z.ltb_lt, ?Z.ltb_ge in E; cbv zeta.
  - assert (Hlt : (scale_num m e < 2 ^ 52 * scale_den d e)%Z).
    { destruct (Z.lt_ge_cases (scale_num m e) (2 ^ 52 * scale_den d e))
        as [Hc|Hc]; [exact Hc|].
      assert (2 ^ 52 <= scale_num m e / scale_den d e)%Z; [|lia].
      apply Z.div_le_lower_bound; lia. }
    change (2 ^ 53)%Z with (2 * 2 ^ 52)%Z. change (2 ^ 51)%Z with 2251799813685248%Z in *.
    change (2 ^ 52)%Z with (2 * 2251799813685248)%Z in *.
    split; nia.
  - split; [|exact Hhi].
    pose proof (Z.mul_div_le (scale_num m e) (scale_den d e) Hden). nia.
Qed.

Lemma round_half_even_near (num den : Z) :
  (0 < den)%Z ->
  (Z.abs (2 * (round_half_even num den * den - num)) <= den)%Z.
Proof.
  intros Hden. unfold round_half_even.
  pose proof (Z.div_mod num den ltac:(lia)) as Hdm.
  pose proof (Z.mod_pos_bound num den Hden) as Hr.
  destruct ((den <? 2 * (num mod den))%Z
            || ((2 * (num mod den) =? den)%Z && Z.odd (num / den))) eqn:E.
  - apply orb_true_iff in E as [E|E].
    + apply Z.ltb_lt in E. nia.
    + apply andb_true_iff in E as [E _]. apply Z.eqb_eq in E. nia.
  - apply orb_false_iff in E as [E _]. apply Z.ltb_ge in E. nia.
Qed.

Lemma round_half_even_exact (num den : Z) :
  (0 < den)%Z -> (num mod den = 0)%Z ->
  (round_half_even num den * den = num)%Z.
Proof.
  intros Hden Hr. unfold round_half_even. rewrite Hr.
  pose proof (Z.div_mod num den ltac:(lia)) as Hdm.
  replace (den <? 2 * 0)%Z with false by (symmetry; apply Z.ltb_ge; lia).
  replace (2 * 0 =? den)%Z with false by (symmetry; apply Z.eqb_neq; lia).
  simpl. nia.
Qed.

Lemma pow2_pos (e : Z) : (0 < pow2 e)%Q.
Proof.
  unfold pow2. destruct (0 <=? e)%Z eqn:E.
  - apply Z.leb_le in E. pose proof (Z.pow_pos_nonneg 2 e ltac:(lia) E).
    unfold Qlt. simpl. lia.
  - reflexivity.
Qed.

(** Scaling does not change the quotient. *)
Lemma scale_quotient (m d e : Z) :
  (0 < d)%Z ->
  (inject_Z m / inject_Z d
   == inject_Z (scale_num m e) / inject_Z (scale_den d e) * pow2 e)%Q.
Proof.
  intros Hd. pose proof (scale_den_pos d e Hd) as Hden.
  unfold scale_num, scale_den, pow2 in *.
  destruct (0 <=? e)%Z eqn:E; rewrite ?Z.leb_le, ?Z.leb_gt in E.
  - pose proof (Z.pow_pos_nonneg 2 e ltac:(lia) E) as Hp.
    rewrite inject_Z_mult. field. split.
    + intros H. unfold Qeq in H. simpl in H. lia.
    + intros H. unfold Qeq in H. simpl in H. lia.
  - pose proof (Z.pow_pos_nonneg 2 (- e) ltac:(lia) ltac:(lia)) as Hp.
    rewrite inject_Z_mult.
    assert (Ei : (1 # Z.to_pos (2 ^ (- e)) == / inject_Z (2 ^ (- e)))%Q).
    { destruct (2 ^ (- e))%Z eqn:Ep; try lia. reflexivity. }
    rewrite Ei. field. split.
    + intros H. unfold Qeq in H. simpl in H. lia.
    + intros H. unfold Qeq in H. simpl in H. lia.
Qed.

Lemma Qabs_sign (S : Z) (y : Q) :
  (S = 1 \/ S = -1)%Z -> (Qabs (inject_Z S * y) == Qabs y)%Q.
Proof.
  intros [-> | ->].
  - rewrite Qmult_1_l. reflexivity.
  - setoid_replace (inject_Z (-1) * y)%Q with (- y)%Q using relation Qeq by ring.
    apply Qabs_opp.
Qed.

Lemma error_core (S q N D : Z) (P : Q) :
  (S = 1 \/ S = -1)%Z -> (0 < D)%Z -> (0 < P)%Q ->
  (Z.abs (2 * (q * D - N)) <= D)%Z -> (2 ^ 52 * D <= N)%Z ->
  (Qabs (inject_Z (S * q) * P
         - inject_Z S * (inject_Z N / inject_Z D * P))
   <= Qabs (inject_Z S * (inject_Z N / inject_Z D * P)) * (1 # 2 ^ 53))%Q.
Proof.
  intros HS HD HP Hnear Hbig.
  setoid_replace (inject_Z (S * q) * P
                  - inject_Z S * (inject_Z N / inject_Z D * P))%Q
    with (inject_Z S * ((inject_Z q - inject_Z N / inject_Z D) * P))%Q
    using relation Qeq by (rewrite inject_Z_mult; ring).
  rewrite !Qabs_sign by exact HS.
  rewrite !Qabs_Qmult. rewrite (Qabs_pos P) by (apply Qlt_le_weak; exact HP).
  setoid_replace (Qabs (inject_Z N / inject_Z D) * P * (1 # 2 ^ 53))%Q
    with (Qabs (inject_Z N / inject_Z D) * (1 # 2 ^ 53) * P)%Q
    using relation Qeq by ring.
  apply Qmult_le_compat_r; [|apply Qlt_le_weak; exact HP].
  destruct D as [|p|p]; try lia.
  assert (Hx : (inject_Z N / inject_Z (Z.pos p) == N # p)%Q).
  { unfold Qdiv, Qinv, Qmult, inject_Z, Qeq. simpl. lia. }
  rewrite Hx.
  assert (HN : (0 <= N)%Z) by lia.
  rewrite (Qabs_pos (N # p)) by (unfold Qle; simpl; lia).
  apply Qabs_Qle_condition.
  unfold Qle, Qminus, Qplus, Qopp, Qmult, inject_Z. simpl.
  change (Z.pos (2 ^ 53)) with (2 * 2 ^ 52)%Z.
  rewrite ?Pos2Z.inj_mul.
  change (2 ^ 52)%Z with 4503599627370496%Z in *.
  change (Z.pos (2 ^ 53)) with (2 * 4503599627370496)%Z.
  assert (Ht : (- N <= (q * Z.pos p - N) * (2 * 4503599627370496) <= N)%Z)
    by lia.
  split; nia.
Qed.

Lemma quotient_sign (a b : Z) :
  (inject_Z a / inject_Z b
   == inject_Z (Z.sgn a) * (inject_Z (Z.abs a) / inject_Z b))%Q.
Proof.
  destruct a as [|p|p]; unfold Qdiv.
  - change (inject_Z (Z.sgn 0)) with 0%Q. change (inject_Z 0) with 0%Q.
    rewrite !Qmult_0_l. reflexivity.
  - change (inject_Z (Z.sgn (Z.pos p))) with 1%Q.
    change (Z.abs (Z.pos p)) with (Z.pos p).
    rewrite Qmult_1_l. reflexivity.
  - change (inject_Z (Z.sgn (Z.neg p))) with (- (1))%Q.
    change (Z.abs (Z.neg p)) with (Z.pos p).
    change (inject_Z (Z.neg p)) with (- inject_Z (Z.pos p))%Q. ring.
Qed.

(** The double returned is within half a unit in the last place of the
    exact quotient: a relative error of at most 2^-53. *)
Lemma nearest_double_error (a b : Z) :
  (0 < b)%Z ->
  (Qabs (nearest_double a b - inject_Z a / inject_Z b)
   <= Qabs (inject_Z a / inject_Z b) * (1 # 2 ^ 53))%Q.
Proof.
  intros Hb. unfold nearest_double.
  destruct (a =? 0)%Z eqn:Ea; rewrite ?Z.eqb_eq, ?Z.eqb_neq in Ea.
  - subst a. unfold Qdiv. rewrite !Qmult_0_l. apply Qle_refl.
  - rewrite (Z.abs_eq b), (Z.sgn_pos b), Z.mul_1_r by lia.
    assert (Hm : (0 < Z.abs a)%Z) by lia.
    destruct (exponent_bounds (Z.abs a) b Hm Hb) as [Hlo _].
    set (e := last_bit_exponent (Z.abs a) b) in *.
    rewrite (quotient_sign a b).
    rewrite (scale_quotient (Z.abs a) b e Hb).
    apply error_core.
    + destruct (Z.sgn_spec a) as [[? ?]|[[? ?]|[? ?]]]; lia.
    + apply scale_den_pos. exact Hb.
    + apply pow2_pos.
    + apply round_half_even_near. apply scale_den_pos. exact Hb.
    + exact Hlo.
Qed.

Lemma exact_remainder (m b : Z) :
  (0 < m)%Z -> (0 < b)%Z -> (b | m)%Z -> (m <= 2 ^ 53 * b)%Z ->
  let e := last_bit_exponent m b in
  (scale_num m e mod scale_den b e = 0)%Z.
Proof.
  intros Hm Hb [z Hz] Hle.
  destruct (exponent_bounds m b Hm Hb) as [Hlo _].
  set (e := last_bit_exponent m b) in *. cbv zeta.
  unfold scale_num, scale_den in *.
  destruct (0 <=? e)%Z eqn:E; rewrite ?Z.leb_le, ?Z.leb_gt in E.
  - assert (He : (e = 0 \/ e = 1)%Z).
    { destruct (Z.le_gt_cases e 1) as [H1|H1]; [lia|]. exfalso.
      assert (H4 : (2 ^ 2 <= 2 ^ e)%Z) by (apply Z.pow_le_mono_r; lia).
      change (2 ^ 2)%Z with 4%Z in H4.
      change (2 ^ 53)%Z with (2 * 2 ^ 52)%Z in Hle.
      change (2 ^ 52)%Z with 4503599627370496%Z in *. nia. }
    destruct He as [-> | ->].
    + change (2 ^ 0)%Z with 1%Z. rewrite Z.mul_1_r. subst m.
      apply Z.mod_mul. lia.
    + change (2 ^ 1)%Z with 2%Z in *.
      assert (m = 2 ^ 52 * (b * 2))%Z.
      { change (2 ^ 53)%Z with (2 * 2 ^ 52)%Z in Hle.
        change (2 ^ 52)%Z with 4503599627370496%Z in *. lia. }
      rewrite H. apply Z.mod_mul. lia.
  - subst m. rewrite (Z.mul_comm z b), <- Z.mul_assoc, Z.mul_comm.
    apply Z.mod_mul. lia.
Qed.

(** When the divisor divides the dividend and the quotient is at most 2^53
    in absolute value, the division is exact. *)
Lemma nearest_double_exact (a b : Z) :
  (0 < b)%Z -> (b | a)%Z -> (Z.abs a <= 2 ^ 53 * b)%Z ->
  (nearest_double a b == inject_Z a / inject_Z b)%Q.
Proof.
  intros Hb Hdiv Hle. unfold nearest_double.
  destruct (a =? 0)%Z eqn:Ea; rewrite ?Z.eqb_eq, ?Z.eqb_neq in Ea.
  - subst a. unfold Qdiv. rewrite Qmult_0_l. reflexivity.
  - rewrite (Z.abs_eq b), (Z.sgn_pos b), Z.mul_1_r by lia.
    assert (Hm : (0 < Z.abs a)%Z) by lia.
    assert (Hdiv' : (b | Z.abs a)%Z) by (apply Z.divide_abs_r; exact Hdiv).
    pose proof (exact_remainder (Z.abs a) b Hm Hb Hdiv' Hle) as Hr.
    set (e := last_bit_exponent (Z.abs a) b) in *. cbv zeta in Hr.
    pose proof (scale_den_pos b e Hb) as Hden.
    pose proof (round_half_even_exact _ _ Hden Hr) as Hq.
    rewrite (quotient_sign a b).
    rewrite (scale_quotient (Z.abs a) b e Hb).
    rewrite <- Hq at 2. rewrite !inject_Z_mult. field.
    intros H. unfold Qeq in H. simpl in H. lia.
Qed.

(** No integer is nearer to [num / den] than the rounded one. *)
Lemma round_half_even_nearest (num den y : Z) :
  (0 < den)%Z ->
  (Z.abs (round_half_even num den * den - num) <= Z.abs (y * den - num))%Z.
Proof.
  intros Hden. unfold round_half_even.
  pose proof (Z.div_mod num den ltac:(lia)) as Hdm.
  pose proof (Z.mod_pos_bound num den Hden) as Hr.
  set (f := (num / den)%Z) in *. set (r := (num mod den)%Z) in *.
  destruct ((den <? 2 * r)%Z || ((2 * r =? den)%Z && Z.odd f)) eqn:E.
  - assert (Hhalf : (den <= 2 * r)%Z).
    { apply orb_true_iff in E as [E|E].
      - apply Z.ltb_lt in E. lia.
      - apply andb_true_iff in E as [E _]. apply Z.eqb_eq in E. lia. }
    destruct (Z.le_gt_cases y f) as [Hy|Hy]; nia.
  - apply orb_false_iff in E as [E _]. apply Z.ltb_ge in E.
    destruct (Z.le_gt_cases y f) as [Hy|Hy]; nia.
Qed.

Lemma pow2_power (e : Z) : (pow2 e == 2 ^ e)%Q.
Proof.
  unfold pow2. destruct (0 <=? e)%Z eqn:E; rewrite ?Z.leb_le, ?Z.leb_gt in E.
  - rewrite Zpower_Qpower by exact E. reflexivity.
  - replace e with (- (- e))%Z at 2 by lia.
    rewrite Qpower_opp. rewrite <- (Zpower_Qpower 2 (- e)) by lia.
    pose proof (Z.pow_pos_nonneg 2 (- e) ltac:(lia) ltac:(lia)) as Hp.
    destruct (2 ^ (- e))%Z eqn:Ep; try lia. reflexivity.
Qed.

Lemma pow2_add (e1 e2 : Z) : (pow2 (e1 + e2) == pow2 e1 * pow2 e2)%Q.
Proof.
  rewrite !pow2_power. apply Qpower_plus. discriminate.
Qed.

Lemma pow2_shift (e k : Z) :
  (0 <= k)%Z -> (pow2 (e + k) == inject_Z (2 ^ k) * pow2 e)%Q.
Proof.
  intros Hk. rewrite pow2_add, Qmult_comm.
  apply Qmult_comp; [|reflexivity].
  unfold pow2. replace (0 <=? k)%Z with true by (symmetry; apply Z.leb_le; lia).
  reflexivity.
Qed.

Lemma abs_ratio_le (c : Q) (A B D : Z) :
  (0 < c)%Q -> (0 < D)%Z -> (Z.abs A <= Z.abs B)%Z ->
  (Qabs (c * (inject_Z A / inject_Z D))
   <= Qabs (c * (inject_Z B / inject_Z D)))%Q.
Proof.
  intros Hc HD Hle. rewrite !Qabs_Qmult.
  rewrite (Qabs_pos c) by (apply Qlt_le_weak; exact Hc).
  apply Qmult_le_l; [exact Hc|].
  destruct D as [|p|p]; try lia.
  assert (Hx : forall X, (inject_Z X / inject_Z (Z.pos p) == X # p)%Q).
  { intros X. unfold Qdiv, Qinv, Qmult, inject_Z, Qeq. simpl. lia. }
  rewrite !Hx. unfold Qabs, Qle. simpl. nia.
Qed.

Lemma nearest_core (S q N D z' : Z) (P Pz : Q) :
  (S = 1 \/ S = -1)%Z -> (0 < D)%Z -> (0 < P)%Q -> (0 < Pz)%Q ->
  (forall y, Z.abs (q * D - N) <= Z.abs (y * D - N))%Z ->
  (2 ^ 52 * D <= N)%Z -> (Z.abs z' <= 2 ^ 53)%Z ->
  (exists k, (0 <= k)%Z /\ (Pz == inject_Z (2 ^ k) * P)%Q) \/
  (exists k, (0 < k)%Z /\ (P == inject_Z (2 ^ k) * Pz)%Q) ->
  (Qabs (inject_Z (S * q) * P
         - inject_Z S * (inject_Z N / inject_Z D * P))
   <= Qabs (inject_Z z' * Pz
            - inject_Z S * (inject_Z N / inject_Z D * P)))%Q.
Proof.
  intros HS HD HP HPz Hnear Hbig Hz [(k & Hk & E)|(k & Hk & E)].
  - assert (HDq : ~ (inject_Z D == 0)%Q)
      by (intros H; unfold Qeq in H; simpl in H; lia).
    setoid_replace (inject_Z (S * q) * P
                    - inject_Z S * (inject_Z N / inject_Z D * P))%Q
      with (P * (inject_Z (S * (q * D - N)) / inject_Z D))%Q
      using relation Qeq.
    2:{ rewrite !inject_Z_mult. unfold Z.sub. rewrite inject_Z_plus.
        rewrite inject_Z_opp, inject_Z_mult. field. exact HDq. }
    setoid_replace (inject_Z z' * Pz
                    - inject_Z S * (inject_Z N / inject_Z D * P))%Q
      with (P * (inject_Z (z' * 2 ^ k * D - S * N) / inject_Z D))%Q
      using relation Qeq.
    2:{ rewrite E. unfold Z.sub. rewrite inject_Z_plus, inject_Z_opp.
        rewrite !inject_Z_mult. field. exact HDq. }
    apply abs_ratio_le; [exact HP|exact HD|].
    destruct HS as [-> | ->].
    + pose proof (Hnear (z' * 2 ^ k)%Z). lia.
    + pose proof (Hnear (- (z' * 2 ^ k))%Z). lia.
  - assert (HDq : ~ (inject_Z D == 0)%Q)
      by (intros H; unfold Qeq in H; simpl in H; lia).
    setoid_replace (inject_Z (S * q) * P
                    - inject_Z S * (inject_Z N / inject_Z D * P))%Q
      with (Pz * (inject_Z (2 ^ k * (S * (q * D - N))) / inject_Z D))%Q
      using relation Qeq.
    2:{ rewrite E. rewrite !inject_Z_mult. unfold Z.sub.
        rewrite inject_Z_plus, inject_Z_opp, inject_Z_mult. field.
        exact HDq. }
    setoid_replace (inject_Z z' * Pz
                    - inject_Z S * (inject_Z N / inject_Z D * P))%Q
      with (Pz * (inject_Z (z' * D - S * (2 ^ k * N)) / inject_Z D))%Q
      using relation Qeq.
    2:{ rewrite E. unfold Z.sub. rewrite inject_Z_plus, inject_Z_opp.
        rewrite !inject_Z_mult. field. exact HDq. }
    apply abs_ratio_le; [exact HPz|exact HD|].
    assert (HK : (2 <= 2 ^ k)%Z).
    { change 2%Z with (2 ^ 1)%Z at 1. apply Z.pow_le_mono_r; lia. }
    pose proof (Hnear (2 ^ 52)%Z) as H52.
    set (K := (2 ^ k)%Z) in *.
    change (2 ^ 53)%Z with (2 * 2 ^ 52)%Z in Hz.
    set (T := (2 ^ 52)%Z) in *.
    assert (HT : (0 < T)%Z) by (unfold T; lia).
    assert (Hd : (Z.abs (q * D - N) <= N - T * D)%Z) by lia.
    assert (H1 : (K * Z.abs (q * D - N) <= K * (N - T * D))%Z)
      by (apply Z.mul_le_mono_nonneg_l; lia).
    assert (H2 : (Z.abs z' * D <= 2 * T * D)%Z)
      by (apply Z.mul_le_mono_nonneg_r; lia).
    assert (H3 : (2 * (T * D) <= K * (T * D))%Z)
      by (apply Z.mul_le_mono_nonneg_r; nia).
    assert (H4 : (Z.abs (K * (S * (q * D - N))) = K * Z.abs (q * D - N))%Z).
    { rewrite Z.abs_mul, (Z.abs_eq K) by lia. f_equal.
      destruct HS as [-> | ->]; lia. }
    rewrite H4.
    destruct HS as [-> | ->]; nia.
Qed.

(** No number of 53 bits is nearer to the exact quotient than the double
    returned. *)
Lemma nearest_double_nearest (a b z' e' : Z) :
  (0 < b)%Z -> (Z.abs z' <= 2 ^ 53)%Z ->
  (Qabs (nearest_double a b - inject_Z a / inject_Z b)
   <= Qabs (inject_Z z' * pow2 e' - inject_Z a / inject_Z b))%Q.
Proof.
  intros Hb Hz. unfold nearest_double.
  destruct (a =? 0)%Z eqn:Ea; rewrite ?Z.eqb_eq, ?Z.eqb_neq in Ea.
  - subst a. unfold Qdiv. rewrite !Qmult_0_l.
    setoid_replace (0 - 0)%Q with 0%Q using relation Qeq by ring.
    apply Qabs_nonneg.
  - rewrite (Z.abs_eq b), (Z.sgn_pos b), Z.mul_1_r by lia.
    assert (Hm : (0 < Z.abs a)%Z) by lia.
    destruct (exponent_bounds (Z.abs a) b Hm Hb) as [Hlo _].
    set (e := last_bit_exponent (Z.abs a) b) in *.
    rewrite (quotient_sign a b).
    rewrite (scale_quotient (Z.abs a) b e Hb).
    apply nearest_core.
    + destruct (Z.sgn_spec a) as [[? ?]|[[? ?]|[? ?]]]; lia.
    + apply scale_den_pos. exact Hb.
    + apply pow2_pos.
    + apply pow2_pos.
    + intros y. apply round_half_even_nearest. apply scale_den_pos. exact Hb.
    + exact Hlo.
    + exact Hz.
    + destruct (Z.le_gt_cases e e') as [Hle|Hgt].
      * left. exists (e' - e)%Z. split; [lia|].
        rewrite <- pow2_shift by lia. replace (e + (e' - e))%Z with e' by lia.
        reflexivity.
      * right. exists (e - e')%Z. split; [lia|].
        rewrite <- pow2_shift by lia. replace (e' + (e - e'))%Z with e by lia.
        reflexivity.
Qed.

(** The double returned has a significand of at most 53 bits. *)
Lemma nearest_double_bits (a b : Z) :
  (0 < b)%Z ->
  exists z e,
    nearest_double a b = (inject_Z z * pow2 e)%Q /\ (Z.abs z <= 2 ^ 53)%Z.
Proof.
  intros Hb. unfold nearest_double.
  destruct (a =? 0)%Z eqn:Ea; rewrite ?Z.eqb_eq, ?Z.eqb_neq in Ea.
  - exists 0%Z, 0%Z. split; [reflexivity|]. simpl. lia.
  - rewrite (Z.abs_eq b), (Z.sgn_pos b), Z.mul_1_r by lia.
    assert (Hm : (0 < Z.abs a)%Z) by lia.
    destruct (exponent_bounds (Z.abs a) b Hm Hb) as [Hlo Hhi].
    set (e := last_bit_exponent (Z.abs a) b) in *.
    pose proof (scale_den_pos b e Hb) as Hden.
    pose proof (round_half_even_near (scale_num (Z.abs a) e)
                  (scale_den b e) Hden) as Hnear.
    eexists _, e. split; [reflexivity|].
    set (q := round_half_even (scale_num (Z.abs a) e) (scale_den b e)) in *.
    assert (Hq : (0 <= q <= 2 ^ 53)%Z).
    { change (2 ^ 53)%Z with 9007199254740992%Z in *.
      change (2 ^ 52)%Z with 4503599627370496%Z in *. nia. }
    destruct (Z.sgn_spec a) as [[_ Hs]|[[_ Hs]|[_ Hs]]]; rewrite Hs; lia.
Qed.

End Doubles.

(** ** The statistics of the account-model scripts *)

Section Statistics.
Import Py Account Observe.

Lemma count_token_cons (t : string) (x : Transfer) (l : list Transfer) :
  count_token t (x :: l)
  = ((if decide (token x = t) then 1 else 0) + count_token t l)%Z.
Proof.
  unfold count_token. rewrite filter_cons.
  destruct (decide (token x = t)); simpl length; lia.
Qed.

Lemma sum_field_cons (f : Transfer -> Z) (t : string) (x : Transfer)
    (l : list Transfer) :
  sum_field f t (x :: l)
  = ((if decide (token x = t) then f x else 0) + sum_field f t l)%Z.
Proof.
  unfold sum_field. rewrite filter_cons.
  destruct (decide (token x = t)); simpl; lia.
Qed.

Lemma stats_eq (s1 s2 : Stats) :
  count s1 = count s2 ->
  total_gas_used s1 = total_gas_used s2 ->
  total_gas_price s1 = total_gas_price s2 ->
  total_gas_limit s1 = total_gas_limit s2 ->
  total_fee s1 = total_fee s2 ->
  avg_gas_used s1 = avg_gas_used s2 ->
  avg_gas_price s1 = avg_gas_price s2 ->
  avg_gas_limit s1 = avg_gas_limit s2 ->
  avg_fee s1 = avg_fee s2 ->
  s1 = s2.
Proof. destruct s1, s2. simpl. intros. subst. reflexivity. Qed.

(** The entry of a token after the loop over the records. *)
Lemma accumulate_lookup (l : list Transfer) (m : gmap string Stats)
    (t : string) :
  fold_left accumulate l m !! t
  = if decide (count_token t l = 0%Z) then m !! t
    else Some (tally (default new_stats (m !! t)) t l).
Proof.
  revert m. induction l as [|x l IH]; intros m; [reflexivity|].
  cbn [fold_left]. rewrite IH. unfold accumulate.
  rewrite count_token_cons.
  pose proof (count_token_nonneg t l) as Hnn.
  destruct (decide (token x = t)) as [Hx|Hx].
  - rewrite Hx, lookup_insert_eq. simpl default.
    destruct (decide ((1 + count_token t l)%Z = 0%Z)) as [Hbad|_]; [lia|].
    destruct (decide (count_token t l = 0%Z)) as [H0|H0]; f_equal.
    + assert (Hl : filter (fun y => token y = t) l = []).
      { unfold count_token in H0. apply length_zero_iff_nil. lia. }
      apply stats_eq; simpl; rewrite ?count_token_cons, ?sum_field_cons,
        ?Hx, ?decide_True by reflexivity; unfold sum_field, count_token;
        rewrite ?Hl; simpl; try reflexivity; lia.
    + apply stats_eq; simpl; rewrite ?count_token_cons, ?sum_field_cons,
        ?Hx, ?decide_True by reflexivity; try reflexivity; lia.
  - rewrite lookup_insert_ne by exact Hx.
    destruct (decide (count_token t l = 0%Z)) as [H0|H0].
    + rewrite decide_True by lia. reflexivity.
    + rewrite decide_False by lia. f_equal.
      apply stats_eq; simpl; rewrite ?count_token_cons, ?sum_field_cons,
        ?decide_False by exact Hx; try reflexivity; lia.
Qed.

(** The four divisions are by a positive count: none raises. *)
Lemma set_averages_total (s : Stats) : set_averages s = Ok (averaged s).
Proof.
  unfold set_averages, averaged.
  destruct (0 <? count s)%Z eqn:E; [|reflexivity].
  apply Z.ltb_lt in E. unfold int_truediv.
  replace (count s =? 0)%Z with false by (symmetry; apply Z.eqb_neq; lia).
  reflexivity.
Qed.

Lemma averages_total (m : gmap string Stats) :
  averages m = Ok (averaged <$> m).
Proof.
  unfold averages.
  apply (map_fold_weak_ind
           (fun r m => r = Ok (averaged <$> m))).
  - rewrite fmap_empty. reflexivity.
  - intros i x m0 r Hi ->. simpl. rewrite set_averages_total. simpl.
    rewrite fmap_insert. reflexivity.
Qed.

Lemma analyze_data_total (my net : list Transfer) :
  analyze_data my net
  = Ok (averaged <$> fold_left accumulate my ∅,
        averaged <$> fold_left accumulate net ∅).
Proof. unfold analyze_data. rewrite !averages_total. reflexivity. Qed.

Lemma mean_of_quotient (sum n : Z) :
  (0 < n)%Z -> mean_of (Some (nearest_double sum n)) sum n.
Proof.
  intros Hn. exists (nearest_double sum n).
  split; [reflexivity|]. split; [reflexivity|].
  split; [apply nearest_double_bits; exact Hn|].
  split; [intros z e Hz; apply nearest_double_nearest; assumption|].
  split; [apply nearest_double_error; exact Hn|].
  intros Hdiv Hle. apply nearest_double_exact; assumption.
Qed.

Lemma stats_for_averaged (t : string) (l : list Transfer) :
  stats_for t l (averaged <$> fold_left accumulate l ∅).
Proof.
  unfold stats_for. rewrite lookup_fmap, accumulate_lookup, lookup_empty.
  split.
  - intros H0. rewrite decide_True by exact H0. reflexivity.
  - intros Hpos. rewrite decide_False by lia. simpl.
    eexists. split; [reflexivity|].
    unfold averaged, tally. simpl.
    assert (E : (0 <? count_token t l)%Z = true) by (apply Z.ltb_lt; exact Hpos).
    rewrite !Z.add_0_l, E. simpl.
    repeat split; try reflexivity; apply mean_of_quotient; exact Hpos.
Qed.

(** C8, as the code has it: [analyze_data] always returns; for each token,
    the entry of each side is absent when no record of that side carries
    the token, and otherwise has [count] equal to the number of those
    records and each [avg_] field equal to Python's quotient of the sum of
    the field over those records by that number: the double nearest to the
    exact quotient, within a relative error of 2^-53 of it, and equal to it
    when the number divides the sum and the quotient is at most 2^53 in
    absolute value. *)
Theorem C8_mean_per_asset (my network : list Transfer) :
  exists my_stats network_stats,
    analyze_data my network = Ok (my_stats, network_stats) /\
    forall t, stats_for t my my_stats /\ stats_for t network network_stats.
Proof.
  eexists _, _. split; [apply analyze_data_total|].
  intros t. split; apply stats_for_averaged.
Qed.

End Statistics.

Lemma C8_mean_per_asset_witness :
  exists my_stats network_stats st a,
    Account.analyze_data
      [Scenario.stranger_record 1; Scenario.stranger_record 2] []
    = Py.Ok (my_stats, network_stats) /\
    my_stats !! "eth" = Some st /\
    Account.count st = 2%Z /\
    Account.avg_fee st = Some a /\
    (a == 210000000000000)%Q /\
    network_stats !! "eth" = None.
Proof.
  destruct (C8_mean_per_asset
              [Scenario.stranger_record 1; Scenario.stranger_record 2] [])
    as (ms & ns & Hrun & Hall).
  destruct (Hall "eth") as [[_ Hmy] [Hnet _]].
  destruct (Hmy eq_refl) as (st & Hst & Hc & _ & _ & _ & Hfee).
  destruct Hfee as (a & Ha & _ & _ & _ & _ & Hexact).
  exists ms, ns, st, a.
  repeat split; [exact Hrun|exact Hst|exact Hc|exact Ha| |].
  - rewrite Hexact.
    + vm_compute. reflexivity.
    + exists 210000000000000%Z. vm_compute. reflexivity.
    + vm_compute. discriminate.
  - apply Hnet. reflexivity.
Defined.

(** C8 fails as stated: three records whose gas used adds up to 63001 get
    the average 21000.333333333332, the double
    5772527671792981 / 2^38, which is not 63001 / 3. *)
Lemma C8_counterexample :
  exists my_stats network_stats st a,
    Account.analyze_data Cases.uneven_records []
    = Py.Ok (my_stats, network_stats) /\
    my_stats !! "eth" = Some st /\
    Account.count st = 3%Z /\
    Account.total_gas_used st = 63001%Z /\
    Account.avg_gas_used st = Some a /\
    (a == 5772527671792981 # 274877906944)%Q /\
    ~ (a == inject_Z 63001 / inject_Z 3)%Q.
Proof.
  rewrite analyze_data_total. do 4 eexists.
  split; [reflexivity|].
  split; [vm_compute; reflexivity|].
  split; [reflexivity|].
  split; [reflexivity|].
  split; [reflexivity|].
  split; [vm_compute; reflexivity|].
  vm_compute. discriminate.
Qed.

(** ** The percentage delta *)

Section PercentDiff.
Import Py Observe.

Lemma percent_diff_total (mine network : Q) :
  Report.percent_diff mine network
  = Ok (if Report.Qlt_bool 0 network
        then ((mine - network) / network * 100)%Q else 0%Q).
Proof.
  unfold Report.percent_diff.
  destruct (Report.Qlt_bool 0 network) eqn:E; [|reflexivity].
  rewrite (truediv_positive _ _ E). reflexivity.
Qed.

(** C7: the percentage delta is [(mine - network) / network * 100] when
    the network value is positive and 0 otherwise, in particular when it is
    0; it never raises, so never divides by zero; percent_diff(110, 100) is
    10 and percent_diff(90, 100) is -10; each delta of the three reports is
    computed this way. *)
Theorem C7_percent_diff :
  (forall mine network : Q,
      ((0 < network)%Q ->
       Report.percent_diff mine network
       = Ok ((mine - network) / network * 100)%Q) /\
      ((network == 0)%Q -> Report.percent_diff mine network = Ok 0%Q) /\
      (~ (0 < network)%Q -> Report.percent_diff mine network = Ok 0%Q) /\
      exists q, Report.percent_diff mine network = Ok q) /\
  (forall x : Q, Report.percent_diff x 0 = Ok 0%Q) /\
  (exists q, Report.percent_diff 110 100 = Ok q /\ (q == 10)%Q) /\
  (exists q, Report.percent_diff 90 100 = Ok q /\ (q == -10)%Q) /\
  (forall name my_data network_data,
      exists row,
        Ethereum.report_row name my_data network_data = Ok row /\
        Report.percent_diff (default 0%Q (Account.avg_fee my_data))
          (default 0%Q (Account.avg_fee network_data))
        = Ok (Ethereum.row_fee_diff_percent row)) /\
  (forall name my_data network_data,
      exists row,
        Arbitrum.report_row name my_data network_data = Ok row /\
        Report.percent_diff (default 0%Q (Account.avg_fee my_data))
          (default 0%Q (Account.avg_fee network_data))
        = Ok (Arbitrum.row_fee_diff_percent row)) /\
  (forall name ours network,
      exists row,
        Litecoin.compare name ours network = Ok row /\
        Report.percent_diff ours network
        = Ok (Litecoin.row_diff_percent row)).
Proof.
  split; [|split; [|split; [|split; [|split; [|split]]]]].
  - intros mine network. rewrite percent_diff_total.
    split; [|split; [|split]].
    + intros H. apply Qlt_bool_iff in H. rewrite H. reflexivity.
    + intros H. destruct (Report.Qlt_bool 0 network) eqn:E; [|reflexivity].
      apply Qlt_bool_iff in E. rewrite H in E. exfalso.
      exact (Qlt_irrefl 0 E).
    + intros H. apply Qlt_bool_false_iff in H. rewrite H. reflexivity.
    + eexists. reflexivity.
  - intros x. reflexivity.
  - eexists. split; [reflexivity|]. reflexivity.
  - eexists. split; [reflexivity|]. reflexivity.
  - intros name my_data network_data. unfold Ethereum.report_row.
    rewrite !percent_diff_total. simpl. eexists. split; reflexivity.
  - intros name my_data network_data. unfold Arbitrum.report_row.
    rewrite !percent_diff_total. simpl. eexists. split; reflexivity.
  - intros name ours network. unfold Litecoin.compare.
    rewrite !percent_diff_total. simpl. eexists. split; reflexivity.
Qed.

Lemma C7_percent_diff_witness :
  (0 < 100)%Q /\
  Report.percent_diff 110 100 = Ok ((110 - 100) / 100 * 100)%Q /\
  (0 == 0)%Q /\
  Report.percent_diff 110 0 = Ok 0%Q /\
  ~ (0 < -5)%Q /\
  Report.percent_diff 110 (-5) = Ok 0%Q.
Proof.
  destruct C7_percent_diff as (Hall & _).
  assert (H1 : (0 < 100)%Q) by reflexivity.
  assert (H2 : (0 == 0)%Q) by reflexivity.
  assert (H3 : ~ (0 < -5)%Q) by (intros H; discriminate H).
  split; [exact H1|]. split; [exact (proj1 (Hall 110%Q 100%Q) H1)|].
  split; [exact H2|]. split; [exact (proj1 (proj2 (Hall 110%Q 0%Q)) H2)|].
  split; [exact H3|]. exact (proj1 (proj2 (proj2 (Hall 110%Q (-5)%Q))) H3).
Defined.

End PercentDiff.

(** ** The user's side of litecoin.py *)

Section Confirmed.
Import Py Litecoin Observe.

Lemma insert_sorted_length (x : Q) (l : list Q) :
  length (insert_sorted x l) = S (length l).
Proof.
  induction l as [|y l IH]; [reflexivity|].
  simpl. destruct (Qle_bool x y); simpl; [reflexivity|].
  rewrite IH. reflexivity.
Qed.

Lemma sorted_length (l : list Q) : length (sorted l) = length l.
Proof.
  induction l as [|x l IH]; [reflexivity|].
  simpl. rewrite insert_sorted_length, IH. reflexivity.
Qed.

(** The median of a non-empty list is defined. *)
Lemma median_total (l : list Q) : l <> [] -> exists q, median l = Ok q.
Proof.
  intros Hl. unfold median. rewrite sorted_length.
  destruct (length l =? 0)%nat eqn:E.
  - apply Nat.eqb_eq in E. apply length_zero_iff_nil in E. contradiction.
  - destruct (Nat.odd (length l)); [eexists; reflexivity|].
    unfold truediv. simpl. eexists. reflexivity.
Qed.

Lemma filter_kept_mine (txs : list Tx) :
  List.filter kept_mine txs = List.filter is_confirmed txs.
Proof. apply List.filter_ext. exact kept_mine_confirmed. Qed.

(** C10: the user-side statistics of litecoin.py are made from the
    confirmed transactions among the first 20 fetched, and from no other;
    when there is none, [get_our_transactions_stats] returns None and
    [main] returns at once: the address request is the only remote call of
    the run, so no block is sampled and no table is built. *)
Theorem C10_only_confirmed_transactions (W : Type) (api : Api W)
    (address : string) (s : State W) (txs : list Tx) (w : W) :
  truthy_str address = true ->
  api_address_txs api address (world s) = (Some txs, w) ->
  let kept := List.filter is_confirmed (slice_to txs OUR_TRANSACTIONS_LIMIT) in
  let s1 := {| world := w;
               journal := journal s ++ [CallAddressTxs address] |} in
  (kept = [] ->
   get_our_transactions_stats api address s = (Ok None, s1) /\
   main api address s = (Ok None, s1)) /\
  (kept <> [] ->
   exists st,
     get_our_transactions_stats api address s = (Ok (Some st), s1) /\
     total_txs st = Z.of_nat (length kept) /\
     median (map fee_rate kept) = Ok (avg_fee_per_byte st) /\
     median (map (fun tx => default 0%Q (size tx)) kept) = Ok (avg_size st) /\
     median (map (fun tx => default 0%Q (weight tx)) kept)
     = Ok (avg_weight st) /\
     median (map (fun tx => inject_Z (vin_count tx)) kept)
     = Ok (avg_inputs st) /\
     median (map (fun tx => inject_Z (vout_count tx)) kept)
     = Ok (avg_outputs st)).
Proof.
  intros Haddr Hresp kept s1.
  assert (Hstats : get_our_transactions_stats api address s
                   = (match
                        our_stats_of
                          {| fees := map fee_rate kept;
                             sizes := map (fun tx => default 0%Q (size tx)) kept;
                             weights :=
                               map (fun tx => default 0%Q (weight tx)) kept;
                             inputs :=
                               map (fun tx => inject_Z (vin_count tx)) kept;
                             outputs :=
                               map (fun tx => inject_Z (vout_count tx)) kept |}
                      with
                      | Ok r => Ok r
                      | Raise _ => Ok None
                      end, s1)).
  { unfold get_our_transactions_stats, Monad.bind, request_address_txs.
    rewrite Haddr. change (negb true) with false. cbv iota beta.
    rewrite Hresp.
    cbv iota beta. rewrite our_loop, filter_kept_mine.
    cbn [rbind fees sizes weights inputs outputs no_lists app].
    fold kept. destruct (our_stats_of _); reflexivity. }
  split.
  - intros Hnil. rewrite Hnil in Hstats. simpl in Hstats.
    split; [exact Hstats|].
    unfold main. rewrite Haddr. change (negb true) with false. cbv iota.
    unfold Monad.bind. rewrite Hstats. reflexivity.
  - intros Hne.
    destruct kept as [|tx0 kept'] eqn:Ek; [contradiction|].
    destruct (median_total (map fee_rate (tx0 :: kept'))) as [q1 H1];
      [discriminate|].
    destruct (median_total
                (map (fun tx => default 0%Q (size tx)) (tx0 :: kept')))
      as [q2 H2]; [discriminate|].
    destruct (median_total
                (map (fun tx => default 0%Q (weight tx)) (tx0 :: kept')))
      as [q3 H3]; [discriminate|].
    destruct (median_total
                (map (fun tx => inject_Z (vin_count tx)) (tx0 :: kept')))
      as [q4 H4]; [discriminate|].
    destruct (median_total
                (map (fun tx => inject_Z (vout_count tx)) (tx0 :: kept')))
      as [q5 H5]; [discriminate|].
    unfold our_stats_of in Hstats. cbn [fees sizes weights inputs outputs] in Hstats.
    rewrite H1, H2, H3, H4, H5 in Hstats. simpl in Hstats.
    eexists. split; [exact Hstats|]. simpl.
    rewrite length_map. repeat split; assumption.
Qed.

Lemma C10_only_confirmed_transactions_witness :
  (truthy_str Scenario.ltc_address = true /\
   api_address_txs Scenario.api_pending_only Scenario.ltc_address tt
   = (Some [Scenario.pending; Scenario.pending], tt) /\
   List.filter is_confirmed
     (slice_to [Scenario.pending; Scenario.pending] OUR_TRANSACTIONS_LIMIT)
   = [] /\
   main Scenario.api_pending_only Scenario.ltc_address Scenario.ltc_start
   = (Ok None,
      {| world := tt;
         journal := [CallAddressTxs Scenario.ltc_address] |})) /\
  (List.filter is_confirmed
     (slice_to [Scenario.expensive] OUR_TRANSACTIONS_LIMIT) <> [] /\
   exists st,
     get_our_transactions_stats Scenario.api_height_100 Scenario.ltc_address
       Scenario.ltc_start
     = (Ok (Some st),
        {| world := tt;
           journal := [CallAddressTxs Scenario.ltc_address] |}) /\
     total_txs st = 1%Z).
Proof.
  split.
  - split; [reflexivity|]. split; [reflexivity|]. split; [reflexivity|].
    exact (proj2 (proj1 (C10_only_confirmed_transactions unit
                           Scenario.api_pending_only Scenario.ltc_address
                           Scenario.ltc_start
                           [Scenario.pending; Scenario.pending] tt
                           eq_refl eq_refl) eq_refl)).
  - assert (Hne : List.filter is_confirmed
                    (slice_to [Scenario.expensive] OUR_TRANSACTIONS_LIMIT)
                  <> []) by (vm_compute; discriminate).
    split; [exact Hne|].
    destruct (proj2 (C10_only_confirmed_transactions unit
                       Scenario.api_height_100 Scenario.ltc_address
                       Scenario.ltc_start [Scenario.expensive] tt
                       eq_refl eq_refl) Hne) as (st & Hst & Hn & _).
    exists st. split; [exact Hst|exact Hn].
Defined.

End Confirmed.

(** ** Worked examples *)

Section Examples.
Import Py.

Example int_hex : int_of_string "0x1f" 16 = Ok 31%Z.
Proof. reflexivity. Qed.

Example int_auto_base : int_of_string " 0x_1F " 0 = Ok 31%Z.
Proof. reflexivity. Qed.

Example int_leading_zero : int_of_string "010" 0 = Raise ValueError.
Proof. reflexivity. Qed.

Example int_bare_prefix : int_of_string "0x" 16 = Raise ValueError.
Proof. reflexivity. Qed.

Example int_decimal_underscore : int_of_string "-12_3" 10 = Ok (-123)%Z.
Proof. reflexivity. Qed.

Example int_number_with_base : int_base (SInt 5) 16 = Raise TypeError.
Proof. reflexivity. Qed.

Example lower_address : lower "0xAbCd" = "0xabcd".
Proof. reflexivity. Qed.

Example median_odd :
  exists q, Litecoin.median [3; 1; 2]%Q = Ok q /\ (q == 2)%Q.
Proof. eexists. split; reflexivity. Qed.

Example median_even :
  exists q, Litecoin.median [4; 1; 3; 2]%Q = Ok q /\ (q == 5 # 2)%Q.
Proof. eexists. split; reflexivity. Qed.

Example median_empty : Litecoin.median [] = Raise StatisticsError.
Proof. reflexivity. Qed.

(** Two own transfers at 50 and 60 gwei against one network transfer at
    40 gwei, 21000 gas each: the mean fee is 21000 * 55 gwei and the delta
    is +37.5 percent. *)
Example mean_and_delta :
  exists my_stats network_stats mine network q,
    Account.analyze_data
      [ {| Account.token := "eth"; Account.hash := "0x1";
           Account.block := 100; Account.gas_used := 21000;
           Account.gas_price := 50000000000; Account.gas_limit := 21000;
           Account.fee := 21000 * 50000000000 |};
        {| Account.token := "eth"; Account.hash := "0x2";
           Account.block := 205; Account.gas_used := 21000;
           Account.gas_price := 60000000000; Account.gas_limit := 21000;
           Account.fee := 21000 * 60000000000 |} ]
      [ {| Account.token := "eth"; Account.hash := "0x3";
           Account.block := 100; Account.gas_used := 21000;
           Account.gas_price := 40000000000; Account.gas_limit := 21000;
           Account.fee := 21000 * 40000000000 |} ]
    = Ok (my_stats, network_stats) /\
    (my_stats !! "eth") ≫= Account.avg_fee = Some mine /\
    (network_stats !! "eth") ≫= Account.avg_fee = Some network /\
    (mine == inject_Z (21000 * 55000000000))%Q /\
    (Ethereum.wei_to_eth mine == 1155 # 1000000)%Q /\
    Report.percent_diff mine network = Ok q /\
    (q == 75 # 2)%Q.
Proof.
  rewrite analyze_data_total. do 5 eexists.
  split; [reflexivity|].
  split; [vm_compute; reflexivity|].
  split; [vm_compute; reflexivity|].
  split; [vm_compute; reflexivity|].
  split; [vm_compute; reflexivity|].
  split; vm_compute; reflexivity.
Qed.

End Examples.

(** * Further properties of the three scripts *)

(** ** Classifying a transaction *)

Section Classification.
Import Py Account.

(** The token test of both scripts never reads the value and never raises;
    the two scripts agree on it; and it depends on the contract address
    only up to the case of its letters (the configuration writes some
    addresses in mixed case, the explorer answers in lower case). *)
Theorem token_test_ignores_case (tx : RawTx) (a a' : string) :
  a <> zero_address -> a' <> zero_address -> lower a = lower a' ->
  Ethereum.is_token_transfer tx a = Ethereum.is_token_transfer tx a' /\
  Arbitrum.is_token_transfer tx a = Ethereum.is_token_transfer tx a /\
  exists m, Ethereum.is_token_transfer tx a = Ok m.
Proof.
  intros Ha Ha' Hl.
  unfold Ethereum.is_token_transfer, Arbitrum.is_token_transfer.
  apply String.eqb_neq in Ha. apply String.eqb_neq in Ha'.
  rewrite Ha, Ha', Hl.
  split; [reflexivity|]. split; [reflexivity|].
  destruct (tx_to tx); eexists; reflexivity.
Qed.

Lemma token_test_ignores_case_witness :
  "0xdAC17F958D2ee523a2206206994597C13D831ec7" <> zero_address /\
  lower "0xdAC17F958D2ee523a2206206994597C13D831ec7"
  = lower "0xdac17f958d2ee523a2206206994597c13d831ec7" /\
  Ethereum.is_token_transfer
    (Scenario.plain_tx "0xe1" Scenario.other_address
       "0xdac17f958d2ee523a2206206994597c13d831ec7" "0xa9059cbb0000" "0x0")
    "0xdAC17F958D2ee523a2206206994597C13D831ec7"
  = Ethereum.is_token_transfer
      (Scenario.plain_tx "0xe1" Scenario.other_address
         "0xdac17f958d2ee523a2206206994597c13d831ec7" "0xa9059cbb0000" "0x0")
      "0xdac17f958d2ee523a2206206994597c13d831ec7".
Proof.
  assert (H1 : "0xdAC17F958D2ee523a2206206994597C13D831ec7" <> zero_address)
    by discriminate.
  assert (H2 : "0xdac17f958d2ee523a2206206994597c13d831ec7" <> zero_address)
    by discriminate.
  assert (H3 : lower "0xdAC17F958D2ee523a2206206994597C13D831ec7"
               = lower "0xdac17f958d2ee523a2206206994597c13d831ec7")
    by reflexivity.
  split; [exact H1|]. split; [exact H3|].
  exact (proj1 (token_test_ignores_case _ _ _ H1 H2 H3)).
Defined.

Lemma selector_not_empty_input (i : option string) :
  Arbitrum.input_is_empty i = true ->
  startswith (default EmptyString i) transfer_selector = false.
Proof.
  unfold Arbitrum.input_is_empty. destruct i as [s|]; [|discriminate].
  intros H. apply orb_true_iff in H as [H|H]; apply String.eqb_eq in H;
    subst; reflexivity.
Qed.

(** arbitrum.py never takes one transaction for both a native transfer and
    a token transfer: what passes the native test fails the token test of
    every contract address. *)
Theorem arbitrum_native_excludes_token (tx : RawTx) (a : string) :
  Arbitrum.is_token_transfer tx zero_address = Ok true ->
  a <> zero_address ->
  Arbitrum.is_token_transfer tx a = Ok false.
Proof.
  intros Hn Ha. apply arbitrum_native_transfer_iff in Hn as (_ & _ & Hi).
  unfold Arbitrum.is_token_transfer.
  apply String.eqb_neq in Ha. rewrite Ha.
  destruct (tx_to tx) as [to|]; [|reflexivity].
  rewrite selector_not_empty_input; [rewrite andb_false_r; reflexivity|].
  destruct Hi as [-> | ->]; reflexivity.
Qed.

Lemma arbitrum_native_excludes_token_witness :
  Arbitrum.is_token_transfer
    (Scenario.plain_tx "0xb1" Scenario.other_address Scenario.some_recipient
       "0x" "0x1") zero_address = Ok true /\
  Scenario.some_recipient <> zero_address /\
  Arbitrum.is_token_transfer
    (Scenario.plain_tx "0xb1" Scenario.other_address Scenario.some_recipient
       "0x" "0x1") Scenario.some_recipient = Ok false.
Proof.
  assert (H1 : Arbitrum.is_token_transfer
                 (Scenario.plain_tx "0xb1" Scenario.other_address
                    Scenario.some_recipient "0x" "0x1") zero_address
               = Ok true) by reflexivity.
  assert (H2 : Scenario.some_recipient <> zero_address) by discriminate.
  split; [exact H1|]. split; [exact H2|].
  exact (arbitrum_native_excludes_token _ _ H1 H2).
Defined.

End Classification.

(** ** The records and the requests of a sampling pass *)

Section LoopFacts.
Import Py.
Context {S : Type}.

(** A loop invariant, with the element at hand known to be in the list. *)
Lemma for_each_invariant_elem {A Acc : Type} (I : Acc -> S -> Prop)
    (body : A -> Acc -> Monad.M S Acc) (l : list A) :
  (forall x acc s acc' s',
      x ∈ l -> I acc s -> body x acc s = (Ok acc', s') -> I acc' s') ->
  forall acc s acc' s',
    I acc s -> Monad.for_each l body acc s = (Ok acc', s') -> I acc' s'.
Proof.
  induction l as [|x l IH]; intros Hstep acc s acc' s' HI Hrun.
  - apply ret_ok in Hrun as [-> ->]. exact HI.
  - simpl in Hrun. apply bind_ok in Hrun as (acc1 & s1 & Hx & Hrest).
    eapply IH; [|..|exact Hrest].
    + intros y a st a' st' Hy. apply Hstep. right. exact Hy.
    + eapply Hstep; [left|exact HI|exact Hx].
Qed.

(** A loop that raises does so in one of its turns, entered with the
    invariant. *)
Lemma for_each_raise {A Acc : Type} (I : Acc -> S -> Prop)
    (body : A -> Acc -> Monad.M S Acc) (l : list A) :
  (forall x acc s acc' s',
      x ∈ l -> I acc s -> body x acc s = (Ok acc', s') -> I acc' s') ->
  forall acc s e s',
    I acc s -> Monad.for_each l body acc s = (Raise e, s') ->
    exists x acc1 s1, x ∈ l /\ I acc1 s1 /\ body x acc1 s1 = (Raise e, s').
Proof.
  induction l as [|x l IH]; intros Hstep acc s e s' HI Hrun.
  - inversion Hrun.
  - simpl in Hrun. unfold Monad.bind in Hrun.
    destruct (body x acc s) as [[acc1|e1] s1] eqn:Hx.
    + destruct (IH (fun y a st a' st' Hy => Hstep y a st a' st'
                      (list_elem_of_further _ _ _ Hy))
                  acc1 s1 e s') as (y & a & st & Hy & Ha & Hr).
      * eapply Hstep; [left|exact HI|exact Hx].
      * exact Hrun.
      * exists y, a, st. split; [right; exact Hy|]. split; assumption.
    + inversion Hrun. subst. exists x, acc, s.
      split; [left|]. split; assumption.
Qed.

End LoopFacts.

Section SampleFacts.
Import Py Account Observe Trace.
Context {W : Type} (api : Api W) (cfg : Config).

Lemma requested_receipts_app (j1 j2 : list call) :
  requested_receipts (j1 ++ j2)
  = requested_receipts j1 ++ requested_receipts j2.
Proof. unfold requested_receipts. apply omap_app. Qed.

Lemma receipt_call (h : string) (s s' : State W) (r : option answer) :
  get_transaction_receipt api h s = (Ok r, s') ->
  r = (api_receipt api h (world s)).1 /\
  journal s' = journal s ++ [CallReceipt h].
Proof.
  unfold get_transaction_receipt.
  destruct (api_receipt api h (world s)) as [r0 w]. intros H.
  inversion H. auto.
Qed.

Lemma ethereum_match_token_outcome (tokens : gset string) (b : Z)
    (tx : RawTx) (tok : string * string)
    (acc acc' : list Transfer * gmap string Z) (s s' : State W) :
  tok ∈ NETWORK_TOKENS cfg ->
  Ethereum.match_token api cfg tokens b tx tok acc s = (Ok acc', s') ->
  sample_outcome api cfg tokens b acc acc' s s'.
Proof.
  destruct tok as [token_name token_address], acc as [nd cs].
  intros Htok. unfold Ethereum.match_token. intros H.
  destruct (negb (bool_decide (token_name ∈ tokens))) eqn:Hin;
    [run_all; left; auto|].
  apply negb_false_iff, bool_decide_eq_true in Hin.
  destruct (cs !! token_name) as [found|] eqn:Hget; [|run_all].
  destruct (MAX_NETWORK_EXAMPLES cfg <=? found)%Z; [run_all; left; auto|].
  apply bind_ok in H as (matched & s1 & Hm & H). run_step.
  destruct matched; [|run_all; left; auto].
  apply bind_ok in H as (receipt & s2 & Hrc & H).
  apply receipt_call in Hrc as [Hr Hj].
  destruct receipt as [[rc|]|].
  - run_all. right. right. eexists _, _, rc. simpl.
    split; [reflexivity|]. split; [|split; [symmetry; exact Hr|exact Hj]].
    unfold sampled_record. simpl. repeat split; auto.
    apply list_elem_of_fmap. exists (token_name, token_address). auto.
  - apply bind_ok in H as (used & s3 & Hu & _).
    apply lift_ok in Hu as [Hu _]. discriminate Hu.
  - run_all. right. left. split; [reflexivity|]. eauto.
Qed.

Lemma arbitrum_match_token_outcome (tokens : gset string) (b : Z)
    (tx : RawTx) (tok : string * string)
    (acc acc' : list Transfer * gmap string Z) (s s' : State W) :
  tok ∈ NETWORK_TOKENS cfg ->
  Arbitrum.match_token api cfg tokens b tx tok acc s = (Ok acc', s') ->
  sample_outcome api cfg tokens b acc acc' s s'.
Proof.
  destruct tok as [token_name token_address], acc as [nd cs].
  intros Htok. unfold Arbitrum.match_token. intros H. cbv zeta in H.
  destruct (negb (bool_decide (token_name ∈ tokens))) eqn:Hin;
    [run_all; left; auto|].
  apply negb_false_iff, bool_decide_eq_true in Hin.
  destruct (cs !! token_name) as [found|] eqn:Hget; [|run_all].
  destruct (MAX_NETWORK_EXAMPLES cfg <=? found)%Z; [run_all; left; auto|].
  apply bind_ok in H as (matched & s1 & Hm & H). run_step.
  destruct matched; [|run_all; left; auto].
  apply bind_ok in H as (receipt & s2 & Hrc & H).
  apply receipt_call in Hrc as [Hr Hj].
  destruct receipt as [[rc|]|].
  - run_all. right. right. eexists _, _, rc. simpl.
    split; [reflexivity|]. split; [|split; [symmetry; exact Hr|exact Hj]].
    unfold sampled_record. simpl. repeat split; auto.
    apply list_elem_of_fmap. exists (token_name, token_address). auto.
  - apply bind_ok in H as (used & s3 & Hu & _).
    apply lift_ok in Hu as [Hu _]. discriminate Hu.
  - run_all. right. left. split; [reflexivity|]. eauto.
Qed.

(** One turn keeps what is known of the records added so far. *)
Lemma outcome_keeps_facts (tokens : gset string) (b : Z)
    (nd new : list Transfer) (acc acc' : list Transfer * gmap string Z)
    (s0 s s' : State W) :
  acc.1 = nd ++ new ->
  sample_facts api cfg tokens (eq b) s0 new s ->
  sample_outcome api cfg tokens b acc acc' s s' ->
  exists new',
    acc'.1 = nd ++ new' /\ sample_facts api cfg tokens (eq b) s0 new' s'.
Proof.
  intros Hacc (Hrec & Hlen & Hnone)
         [[-> ->]|[[-> (h & Hh & Hj)]|(rec & h & rc & Hnd & Hr & Hh & Hj)]].
  - exists new. split; [exact Hacc|]. split; [|split]; assumption.
  - exists new. split; [exact Hacc|]. split; [exact Hrec|]. split; [|exact Hnone].
    rewrite Hj, requested_receipts_app, length_app. lia.
  - exists (new ++ [rec]). split; [rewrite Hnd, Hacc, app_assoc; reflexivity|].
    split; [|split].
    + apply Forall_app. split; [exact Hrec|]. constructor; [|constructor].
      exists b. split; [reflexivity|exact Hr].
    + rewrite Hj, requested_receipts_app, !length_app. simpl. lia.
    + intros Hall. rewrite Hall in Hh. discriminate Hh.
Qed.

Lemma block_call (b : Z) (s s' : State W) (txs : list RawTx) :
  get_block_transactions api b s = (Ok txs, s') ->
  requested_receipts (journal s') = requested_receipts (journal s).
Proof.
  unfold get_block_transactions.
  destruct (api_block api b (world s)) as [r0 w]. intros H. inversion H.
  simpl. rewrite requested_receipts_app. simpl. apply app_nil_r.
Qed.

Lemma sample_facts_start (tokens : gset string) (ok : Z -> Prop)
    (s0 s : State W) :
  requested_receipts (journal s) = requested_receipts (journal s0) ->
  sample_facts api cfg tokens ok s0 [] s.
Proof.
  intros H. split; [constructor|]. split; [rewrite H; simpl; lia|auto].
Qed.

Lemma ethereum_scan_block_facts (tokens : gset string) (b : Z)
    (nd nd' : list Transfer) (s s' : State W) :
  Ethereum.scan_block api cfg tokens b nd s = (Ok nd', s') ->
  exists new,
    nd' = nd ++ new /\ sample_facts api cfg tokens (eq b) s new s'.
Proof.
  unfold Ethereum.scan_block. intros H.
  apply bind_ok in H as (txs & s1 & Hblock & H).
  apply block_call in Hblock.
  apply bind_ok in H as ([nd1 cs1] & s2 & Hloop & H).
  apply ret_ok in H as [Hnd Hs]. subst nd1 s2.
  pose (I := fun (acc : list Transfer * gmap string Z) (st : State W) =>
               exists new, acc.1 = nd ++ new /\
                           sample_facts api cfg tokens (eq b) s new st).
  assert (HI : I (nd', cs1) s').
  { eapply (for_each_invariant_elem I); [| |exact Hloop].
    - intros tx acc st acc' st' _ HIacc Hbody. cbv beta in Hbody.
      eapply (for_each_invariant_elem I); [|exact HIacc|exact Hbody].
      intros tok acc0 st0 acc1 st1 Htok (new & Hnew & Hfacts) Hstep.
      eapply outcome_keeps_facts; [exact Hnew|exact Hfacts|].
      eapply ethereum_match_token_outcome; eassumption.
    - exists []. split; [symmetry; apply app_nil_r|].
      apply sample_facts_start. exact Hblock. }
  exact HI.
Qed.

Lemma arbitrum_scan_block_facts (tokens : gset string) (b : Z)
    (nd nd' : list Transfer) (s s' : State W) :
  Arbitrum.scan_block api cfg tokens b nd s = (Ok nd', s') ->
  exists new,
    nd' = nd ++ new /\ sample_facts api cfg tokens (eq b) s new s'.
Proof.
  unfold Arbitrum.scan_block. intros H.
  apply bind_ok in H as (txs & s1 & Hblock & H).
  apply block_call in Hblock.
  apply bind_ok in H as ([nd1 cs1] & s2 & Hloop & H).
  apply ret_ok in H as [Hnd Hs]. subst nd1 s2.
  pose (I := fun (acc : list Transfer * gmap string Z) (st : State W) =>
               exists new, acc.1 = nd ++ new /\
                           sample_facts api cfg tokens (eq b) s new st).
  assert (HI : I (nd', cs1) s').
  { eapply (for_each_invariant_elem I); [| |exact Hloop].
    - intros tx acc st acc' st' _ HIacc Hbody.
      unfold Arbitrum.scan_tx in Hbody.
      destruct (Arbitrum.sent_by_me cfg tx).
      { apply ret_ok in Hbody as [-> ->]. exact HIacc. }
      eapply (for_each_invariant_elem I); [|exact HIacc|exact Hbody].
      intros tok acc0 st0 acc1 st1 Htok (new & Hnew & Hfacts) Hstep.
      eapply outcome_keeps_facts; [exact Hnew|exact Hfacts|].
      eapply arbitrum_match_token_outcome; eassumption.
    - exists []. split; [symmetry; apply app_nil_r|].
      apply sample_facts_start. exact Hblock. }
  exact HI.
Qed.

(** From the blocks to the pass. *)
Lemma pass_facts (tokens : gset string)
    (body : Z -> list Transfer -> Monad.M (State W) (list Transfer)) :
  (forall b nd nd' s s',
      body b nd s = (Ok nd', s') ->
      exists new,
        nd' = nd ++ new /\ sample_facts api cfg tokens (eq b) s new s') ->
  forall blocks s r s',
    Monad.for_each blocks body [] s = (Ok r, s') ->
    sample_facts api cfg tokens (fun b => b ∈ blocks) s r s'.
Proof.
  intros Hbody blocks s r s' Hrun.
  pose (I := fun (acc : list Transfer) (st : State W) =>
               sample_facts api cfg tokens (fun b => b ∈ blocks) s acc st).
  change (I r s').
  eapply (for_each_invariant_elem I); [|apply sample_facts_start; reflexivity|exact Hrun].
  intros b acc st acc' st' Hb (Hrec & Hlen & Hnone) Hstep.
  apply Hbody in Hstep as (new & -> & Hrec' & Hlen' & Hnone').
  split; [|split].
  - apply Forall_app. split; [exact Hrec|].
    eapply Forall_impl; [exact Hrec'|]. simpl.
    intros rec (b' & <- & Hr). exists b. auto.
  - rewrite length_app. lia.
  - intros Hall. rewrite (Hnone Hall), (Hnone' Hall). reflexivity.
Qed.

Lemma account_pass_facts (blocks : list Z) (tokens : gset string)
    (s s' : State W) (r : list Transfer) :
  Ethereum.collect_network_transfers api cfg blocks tokens s = (Ok r, s') \/
  Arbitrum.collect_network_transfers api cfg blocks tokens s = (Ok r, s') ->
  sample_facts api cfg tokens (fun b => b ∈ blocks) s r s'.
Proof.
  intros [H|H].
  - eapply (pass_facts tokens (Ethereum.scan_block api cfg tokens));
      [|exact H].
    intros. eapply ethereum_scan_block_facts. eassumption.
  - eapply (pass_facts tokens (Arbitrum.scan_block api cfg tokens));
      [|exact H].
    intros. eapply arbitrum_scan_block_facts. eassumption.
Qed.

End SampleFacts.

Section SampleTheorems.
Import Py Account Observe Trace.

(** Every record of a sample (ethereum.py and arbitrum.py) carries a token
    that was looked for and is configured, the number of a block of the
    list, and a fee equal to the gas used times the gas price. *)
Theorem sample_records_well_formed (W : Type) (api : Api W) (cfg : Config)
    (blocks : list Z) (tokens : gset string) (s s' : State W)
    (r : list Transfer) :
  Ethereum.collect_network_transfers api cfg blocks tokens s = (Ok r, s') \/
  Arbitrum.collect_network_transfers api cfg blocks tokens s = (Ok r, s') ->
  Forall (fun rec =>
            token rec ∈ tokens /\
            token rec ∈ (NETWORK_TOKENS cfg).*1 /\
            block rec ∈ blocks /\
            fee rec = (gas_used rec * gas_price rec)%Z) r.
Proof.
  intros H. apply account_pass_facts in H as (Hrec & _).
  eapply Forall_impl; [exact Hrec|]. simpl.
  intros rec (b & Hb & Ht & Hn & <- & Hf). auto.
Qed.

Lemma sample_records_well_formed_witness :
  Ethereum.collect_network_transfers Scenario.api_strangers
    Scenario.cfg_one_example [1; 2]%Z {[ "eth" ]} Scenario.start
  = (Ok [Scenario.stranger_record 1; Scenario.stranger_record 2],
     Scenario.after_two_blocks) /\
  Forall (fun rec =>
            token rec ∈ ({[ "eth" ]} : gset string) /\
            token rec ∈ (NETWORK_TOKENS Scenario.cfg_one_example).*1 /\
            block rec ∈ [1; 2]%Z /\
            fee rec = (gas_used rec * gas_price rec)%Z)
         [Scenario.stranger_record 1; Scenario.stranger_record 2].
Proof.
  assert (H : Ethereum.collect_network_transfers Scenario.api_strangers
                Scenario.cfg_one_example [1; 2]%Z {[ "eth" ]} Scenario.start
              = (Ok [Scenario.stranger_record 1; Scenario.stranger_record 2],
                 Scenario.after_two_blocks))
    by (vm_compute; reflexivity).
  split; [exact H|].
  exact (sample_records_well_formed unit _ _ _ _ _ _ _ (or_introl H)).
Defined.

(** A record costs a receipt: a pass makes at least as many receipt
    requests as it returns records, and when no receipt can be had the
    sample is empty (ethereum.py and arbitrum.py). *)
Theorem sample_needs_receipts (W : Type) (api : Api W) (cfg : Config)
    (blocks : list Z) (tokens : gset string) (s s' : State W)
    (r : list Transfer) :
  Ethereum.collect_network_transfers api cfg blocks tokens s = (Ok r, s') \/
  Arbitrum.collect_network_transfers api cfg blocks tokens s = (Ok r, s') ->
  (length r + length (requested_receipts (journal s))
   <= length (requested_receipts (journal s')))%nat /\
  ((forall h w, (api_receipt api h w).1 = None) -> r = []).
Proof.
  intros H. apply account_pass_facts in H as (_ & Hlen & Hnone). auto.
Qed.

Lemma sample_needs_receipts_witness :
  Arbitrum.collect_network_transfers Cases.api_no_receipts
    Scenario.cfg_one_example [1; 2]%Z {[ "eth" ]} Scenario.start
  = (Ok [], Cases.after_two_failed_receipts) /\
  (forall h w, (api_receipt Cases.api_no_receipts h w).1 = None) /\
  (length (@nil Transfer)
   + length (requested_receipts (journal Scenario.start))
   <= length (requested_receipts (journal Cases.after_two_failed_receipts)))%nat.
Proof.
  assert (H : Arbitrum.collect_network_transfers Cases.api_no_receipts
                Scenario.cfg_one_example [1; 2]%Z {[ "eth" ]} Scenario.start
              = (Ok [], Cases.after_two_failed_receipts))
    by (vm_compute; reflexivity).
  split; [exact H|]. split; [intros h w; reflexivity|].
  exact (proj1 (sample_needs_receipts unit _ _ _ _ _ _ _ (or_intror H))).
Defined.

End SampleTheorems.

(** ** What a sampling pass can raise *)

Section Raising.
Import Py Account Observe Trace.

Lemma int_of_string_raises (t : string) (base : Z) (e : exc) :
  int_of_string t base = Raise e -> e = ValueError.
Proof.
  unfold int_of_string.
  repeat match goal with
         | |- context [match ?x with _ => _ end] => destruct x
         end;
    intros H; inversion H; reflexivity.
Qed.

Lemma int_base_raises (x : scalar) (base : Z) (e : exc) :
  int_base x base = Raise e -> e = ValueError \/ e = TypeError.
Proof.
  destruct x as [t|z]; simpl.
  - intros H. left. eapply int_of_string_raises. exact H.
  - intros H. inversion H. right. reflexivity.
Qed.

Lemma int_raises (x : scalar) (e : exc) : int x = Raise e -> e = ValueError.
Proof.
  destruct x as [t|z]; simpl; [apply int_of_string_raises|discriminate].
Qed.

Lemma hex_or_number_raises (x : option scalar) (e : exc) :
  Arbitrum.hex_or_number x = Raise e -> e = ValueError.
Proof.
  unfold Arbitrum.hex_or_number. destruct (default (SStr "0") x).
  - apply int_of_string_raises.
  - discriminate.
Qed.

Lemma ethereum_test_raises (tx : RawTx) (a : string) (e : exc) :
  Ethereum.is_token_transfer tx a = Raise e ->
  e = ValueError \/ e = TypeError.
Proof.
  unfold Ethereum.is_token_transfer.
  destruct (String.eqb a zero_address).
  - destruct (truthy_opt (tx_to tx)); [|discriminate].
    destruct (int_base _ 16) eqn:E; simpl; [discriminate|].
    intros H. inversion H. subst. eapply int_base_raises. exact E.
  - destruct (tx_to tx); discriminate.
Qed.

Lemma arbitrum_test_raises (tx : RawTx) (a : string) (e : exc) :
  Arbitrum.is_token_transfer tx a = Raise e ->
  e = ValueError \/ e = TypeError.
Proof.
  unfold Arbitrum.is_token_transfer.
  destruct (String.eqb a zero_address).
  - destruct (truthy_opt (tx_to tx)); [|discriminate].
    destruct (int_base _ 0) eqn:E; simpl; [discriminate|].
    intros H. inversion H. subst. eapply int_base_raises. exact E.
  - destruct (tx_to tx); discriminate.
Qed.

Lemma bind_raise {S A B : Type} (m : Monad.M S A) (k : A -> Monad.M S B)
    (s s'' : S) (e : exc) :
  Monad.bind m k s = (Raise e, s'') ->
  m s = (Raise e, s'') \/
  exists a s', m s = (Ok a, s') /\ k a s' = (Raise e, s'').
Proof.
  unfold Monad.bind. destruct (m s) as [[a|e1] s'] eqn:E; intros H.
  - right. eauto.
  - left. inversion H. reflexivity.
Qed.

Lemma lift_raise {S A : Type} (r : result A) (e : exc) (s s' : S) :
  Monad.lift r s = (Raise e, s') -> r = Raise e.
Proof. unfold Monad.lift. intros H. inversion H. reflexivity. Qed.

Lemma ret_raise {S A : Type} (a : A) (e : exc) (s s' : S) :
  Monad.ret a s = (Raise e, s') -> False.
Proof. unfold Monad.ret. intros H. inversion H. Qed.

Lemma receipt_never_raises {W : Type} (api : Api W) (h : string)
    (s s' : State W) (e : exc) :
  get_transaction_receipt api h s = (Raise e, s') -> False.
Proof.
  unfold get_transaction_receipt.
  destruct (api_receipt api h (world s)). intros H. inversion H.
Qed.

Lemma block_never_raises {W : Type} (api : Api W) (b : Z)
    (s s' : State W) (e : exc) :
  get_block_transactions api b s = (Raise e, s') -> False.
Proof.
  unfold get_block_transactions.
  destruct (api_block api b (world s)). intros H. inversion H.
Qed.

Lemma transactions_never_raise {W : Type} (api : Api W) (a : string)
    (c : option string) (n : Z) (s s' : State W) (e : exc) :
  get_transactions api a c n s = (Raise e, s') -> False.
Proof.
  unfold get_transactions.
  destruct (api_transactions api a c n (world s)). intros H. inversion H.
Qed.

(** Take apart a run that raised, one step at a time. *)
Ltac raise_step :=
  match goal with
  | H : Monad.bind _ _ _ = (Py.Raise _, _) |- _ =>
      apply bind_raise in H as [H|(? & ? & ? & H)]; cbv beta in H
  | H : Monad.ret _ _ = (Py.Raise _, _) |- _ =>
      apply ret_raise in H; contradiction
  | H : Monad.lift _ _ = (Py.Raise _, _) |- _ => apply lift_raise in H
  | H : get_transaction_receipt _ _ _ = (Py.Raise _, _) |- _ =>
      apply receipt_never_raises in H; contradiction
  | H : get_block_transactions _ _ _ = (Py.Raise _, _) |- _ =>
      apply block_never_raises in H; contradiction
  | H : get_transactions _ _ _ _ _ = (Py.Raise _, _) |- _ =>
      apply transactions_never_raise in H; contradiction
  end.

Ltac raise_case :=
  match goal with
  | H : (match ?x with _ => _ end) _ = (Py.Raise _, _) |- _ => destruct x
  end.

Section SamplerRaises.
Context {W : Type} (api : Api W) (cfg : Config).

Lemma counters_cover_start (tokens : gset string) (nd : list Transfer) :
  counters_cover tokens (nd, gset_to_gmap 0%Z tokens).
Proof.
  intros t Ht. simpl. rewrite lookup_gset_to_gmap.
  rewrite option_guard_True by exact Ht. eexists. reflexivity.
Qed.

Lemma counters_cover_step (tokens : gset string) (cap b : Z)
    (acc acc' : list Transfer * gmap string Z) :
  counters_cover tokens acc -> sample_step cap b acc acc' ->
  counters_cover tokens acc'.
Proof.
  intros Hc [->|(rec & found & _ & _ & _ & _ & H2)]; [exact Hc|].
  intros t Ht. rewrite H2.
  destruct (decide (token rec = t)) as [<-|Hne].
  - rewrite lookup_insert_eq. eexists. reflexivity.
  - rewrite lookup_insert_ne by exact Hne. apply Hc. exact Ht.
Qed.

Lemma bad_number (e : exc) :
  e = ValueError \/ e = TypeError -> sampling_error api e.
Proof. unfold sampling_error. tauto. Qed.

(** Reading the gas used of an answer raises for a number that does not
    read, or for an answer that is no object. *)
Lemma gasUsed_raises (read : option scalar -> result Z) (a : answer)
    (h : string) (s s' : State W) (e : exc) :
  get_transaction_receipt api h s = (Ok (Some a), s') ->
  (forall x e', read x = Raise e' -> e' = ValueError \/ e' = TypeError) ->
  rbind (get_gasUsed a) read = Raise e ->
  sampling_error api e.
Proof.
  intros Hrc Hread H. destruct a as [rc|]; simpl in H.
  - apply bad_number. eapply Hread. exact H.
  - inversion H. right. right. split; [reflexivity|].
    unfold get_transaction_receipt in Hrc.
    destruct (api_receipt api h (world s)) as [r0 w] eqn:E.
    inversion Hrc. subst r0. exists h, (world s). rewrite E. reflexivity.
Qed.

Lemma ethereum_match_token_raises (tokens : gset string) (b : Z)
    (tx : RawTx) (tok : string * string)
    (acc : list Transfer * gmap string Z) (s s' : State W) (e : exc) :
  counters_cover tokens acc ->
  Ethereum.match_token api cfg tokens b tx tok acc s = (Raise e, s') ->
  sampling_error api e.
Proof.
  destruct tok as [token_name token_address], acc as [nd cs].
  intros Hc. unfold Ethereum.match_token. intros H.
  destruct (negb (bool_decide (token_name ∈ tokens))) eqn:Hin;
    [raise_step|].
  apply negb_false_iff, bool_decide_eq_true in Hin.
  destruct (Hc token_name Hin) as [found Hget]. simpl in Hget.
  rewrite Hget in H.
  destruct (MAX_NETWORK_EXAMPLES cfg <=? found)%Z; [raise_step|].
  raise_step;
    [raise_step; apply bad_number; eapply ethereum_test_raises; exact H|].
  raise_case; [|raise_step].
  apply bind_raise in H as [H|(receipt & s2 & Hrc & H)]; [raise_step|].
  destruct receipt as [a|]; [|raise_step].
  raise_step.
  { raise_step.
    eapply (gasUsed_raises
              (fun g => int_base (default (SStr "0") g) 16)); [exact Hrc| |exact H].
    intros x e'. apply int_base_raises. }
  raise_step;
    [raise_step; apply bad_number; eapply int_base_raises; exact H|].
  raise_step;
    [raise_step; apply bad_number; eapply int_base_raises; exact H|].
  raise_step.
Qed.

Lemma arbitrum_match_token_raises (tokens : gset string) (b : Z)
    (tx : RawTx) (tok : string * string)
    (acc : list Transfer * gmap string Z) (s s' : State W) (e : exc) :
  counters_cover tokens acc ->
  Arbitrum.match_token api cfg tokens b tx tok acc s = (Raise e, s') ->
  sampling_error api e.
Proof.
  destruct tok as [token_name token_address], acc as [nd cs].
  intros Hc. unfold Arbitrum.match_token. intros H. cbv zeta in H.
  destruct (negb (bool_decide (token_name ∈ tokens))) eqn:Hin;
    [raise_step|].
  apply negb_false_iff, bool_decide_eq_true in Hin.
  destruct (Hc token_name Hin) as [found Hget]. simpl in Hget.
  rewrite Hget in H.
  destruct (MAX_NETWORK_EXAMPLES cfg <=? found)%Z; [raise_step|].
  raise_step;
    [raise_step; apply bad_number; eapply arbitrum_test_raises; exact H|].
  raise_case; [|raise_step].
  apply bind_raise in H as [H|(receipt & s2 & Hrc & H)]; [raise_step|].
  destruct receipt as [a|]; [|raise_step].
  raise_step.
  { raise_step.
    eapply (gasUsed_raises Arbitrum.hex_or_number); [exact Hrc| |exact H].
    intros x e' Hx. left. eapply hex_or_number_raises. exact Hx. }
  raise_step;
    [raise_step; apply bad_number; left; eapply hex_or_number_raises;
     exact H|].
  raise_step;
    [raise_step; apply bad_number; left; eapply hex_or_number_raises;
     exact H|].
  raise_step.
Qed.

Lemma ethereum_scan_block_raises (tokens : gset string) (b : Z)
    (nd : list Transfer) (s s' : State W) (e : exc) :
  Ethereum.scan_block api cfg tokens b nd s = (Raise e, s') ->
  sampling_error api e.
Proof.
  unfold Ethereum.scan_block. intros H.
  raise_step; [raise_step|].
  raise_step; [|raise_case; raise_step].
  apply (for_each_raise (fun acc _ => counters_cover tokens acc)) in H
    as (tx & acc1 & s1 & _ & Hc1 & H).
  - cbv beta in H.
    apply (for_each_raise (fun acc _ => counters_cover tokens acc)) in H
      as (tok & acc2 & s2 & _ & Hc2 & H).
    + eapply ethereum_match_token_raises; eassumption.
    + intros tok acc2 s2 acc3 s3 _ Hc2 Hstep.
      apply ethereum_match_token_step in Hstep as [Hstep _].
      eapply counters_cover_step; eassumption.
    + exact Hc1.
  - intros tx acc1 s1 acc2 s2 _ Hc1 Hbody. cbv beta in Hbody.
    eapply (for_each_invariant_elem (fun acc _ => counters_cover tokens acc));
      [|exact Hc1|exact Hbody].
    intros tok acc3 s3 acc4 s4 _ Hc3 Hstep.
    apply ethereum_match_token_step in Hstep as [Hstep _].
    eapply counters_cover_step; eassumption.
  - apply counters_cover_start.
Qed.

Lemma arbitrum_scan_tx_cover (tokens : gset string) (b : Z) (tx : RawTx)
    (acc acc' : list Transfer * gmap string Z) (s s' : State W) :
  counters_cover tokens acc ->
  Arbitrum.scan_tx api cfg tokens b tx acc s = (Ok acc', s') ->
  counters_cover tokens acc'.
Proof.
  intros Hc. unfold Arbitrum.scan_tx.
  destruct (Arbitrum.sent_by_me cfg tx); intros H.
  - apply ret_ok in H as [-> _]. exact Hc.
  - eapply (for_each_invariant_elem (fun acc _ => counters_cover tokens acc));
      [|exact Hc|exact H].
    intros tok acc3 s3 acc4 s4 _ Hc3 Hstep.
    apply arbitrum_match_token_step in Hstep as [Hstep _].
    eapply counters_cover_step; eassumption.
Qed.

Lemma arbitrum_scan_block_raises (tokens : gset string) (b : Z)
    (nd : list Transfer) (s s' : State W) (e : exc) :
  Arbitrum.scan_block api cfg tokens b nd s = (Raise e, s') ->
  sampling_error api e.
Proof.
  unfold Arbitrum.scan_block. intros H.
  raise_step; [raise_step|].
  raise_step; [|raise_case; raise_step].
  apply (for_each_raise (fun acc _ => counters_cover tokens acc)) in H
    as (tx & acc1 & s1 & _ & Hc1 & H).
  - unfold Arbitrum.scan_tx in H.
    destruct (Arbitrum.sent_by_me cfg tx); [raise_step|].
    apply (for_each_raise (fun acc _ => counters_cover tokens acc)) in H
      as (tok & acc2 & s2 & _ & Hc2 & H).
    + eapply arbitrum_match_token_raises; eassumption.
    + intros tok acc2 s2 acc3 s3 _ Hc2 Hstep.
      apply arbitrum_match_token_step in Hstep as [Hstep _].
      eapply counters_cover_step; eassumption.
    + exact Hc1.
  - intros tx acc1 s1 acc2 s2 _ Hc1 Hbody.
    eapply arbitrum_scan_tx_cover; eassumption.
  - apply counters_cover_start.
Qed.

End SamplerRaises.

Lemma account_pass_raises (W : Type) (api : Api W)
    (cfg : Config) (blocks : list Z) (tokens : gset string)
    (s s' : State W) (e : exc) :
  Ethereum.collect_network_transfers api cfg blocks tokens s = (Raise e, s')
  \/ Arbitrum.collect_network_transfers api cfg blocks tokens s
     = (Raise e, s') ->
  sampling_error api e.
Proof.
  intros [H|H].
  - apply (for_each_raise (fun _ _ => True)) in H
      as (b & nd & s1 & _ & _ & H); [|auto|exact I].
    eapply ethereum_scan_block_raises. exact H.
  - apply (for_each_raise (fun _ _ => True)) in H
      as (b & nd & s1 & _ & _ & H); [|auto|exact I].
    eapply arbitrum_scan_block_raises. exact H.
Qed.

Lemma sampling_error_classes (W : Type) (api : Api W) (e : exc) :
  sampling_error api e ->
  (e = ValueError \/ e = TypeError \/ e = AttributeError) /\
  (e = AttributeError ->
   exists h w, (api_receipt api h w).1 = Some NotAnObject).
Proof.
  intros [->|[->|[-> H]]].
  - split; [auto|discriminate].
  - split; [auto|discriminate].
  - split; [auto|intros _; exact H].
Qed.

(** A sampling pass (ethereum.py and arbitrum.py) that raises does so with
    ValueError or TypeError, from a field that does not read as a number,
    or with AttributeError, and then the explorer has answered a receipt
    request by something that is no object (the text of an error message,
    say), which the code takes for a receipt.  The lookup of a counter
    never raises KeyError, since the counters hold every token that is
    looked for. *)
Theorem sampling_raises_on_bad_answers (W : Type) (api : Api W)
    (cfg : Config) (blocks : list Z) (tokens : gset string)
    (s s' : State W) (e : exc) :
  Ethereum.collect_network_transfers api cfg blocks tokens s = (Raise e, s')
  \/ Arbitrum.collect_network_transfers api cfg blocks tokens s
     = (Raise e, s') ->
  (e = ValueError \/ e = TypeError \/ e = AttributeError) /\
  (e = AttributeError ->
   exists h w, (api_receipt api h w).1 = Some NotAnObject).
Proof.
  intros H. apply sampling_error_classes.
  eapply account_pass_raises. exact H.
Qed.

Lemma sampling_raises_on_bad_answers_witness :
  (Ethereum.collect_network_transfers Cases.api_bad_value
     Scenario.cfg_one_example [1%Z] {[ "eth" ]} Scenario.start
   = (Raise ValueError,
      {| world := tt; journal := [CallBlock 1] |}) /\
   (ValueError = ValueError \/ ValueError = TypeError
    \/ ValueError = AttributeError)) /\
  (Arbitrum.collect_network_transfers Cases.api_busy
     Scenario.cfg_one_example [1%Z] {[ "eth" ]} Scenario.start
   = (Raise AttributeError,
      {| world := tt; journal := [CallBlock 1; CallReceipt "0xb1"] |}) /\
   exists h w, (api_receipt Cases.api_busy h w).1 = Some NotAnObject).
Proof.
  assert (H : Ethereum.collect_network_transfers Cases.api_bad_value
                Scenario.cfg_one_example [1%Z] {[ "eth" ]} Scenario.start
              = (Raise ValueError,
                 {| world := tt; journal := [CallBlock 1] |}))
    by (vm_compute; reflexivity).
  assert (H' : Arbitrum.collect_network_transfers Cases.api_busy
                 Scenario.cfg_one_example [1%Z] {[ "eth" ]} Scenario.start
               = (Raise AttributeError,
                  {| world := tt;
                     journal := [CallBlock 1; CallReceipt "0xb1"] |}))
    by (vm_compute; reflexivity).
  split.
  - split; [exact H|].
    exact (proj1 (sampling_raises_on_bad_answers unit _ _ _ _ _ _ _
                    (or_introl H))).
  - split; [exact H'|].
    exact (proj2 (sampling_raises_on_bad_answers unit _ _ _ _ _ _ _
                    (or_intror H')) eq_refl).
Defined.

End Raising.

(** ** Collecting the user's transactions *)

Section OwnTransactions.
Import Py Account Observe Trace.
Context {W : Type} (api : Api W) (cfg : Config).

Lemma transactions_call (a : string) (c : option string) (n : Z)
    (s s' : State W) (txs : list RawTx) :
  get_transactions api a c n s = (Ok txs, s') ->
  journal s' = journal s ++ [CallTransactions a c n].
Proof.
  unfold get_transactions.
  destruct (api_transactions api a c n (world s)) as [r0 w].
  intros H. inversion H. reflexivity.
Qed.

Lemma ethereum_collect_tx_record (name : string) (tx : RawTx)
    (acc acc' : list Transfer * gset Z) :
  Ethereum.collect_tx name tx acc = Ok acc' ->
  acc'.1 = acc.1 \/
  exists rec,
    acc'.1 = acc.1 ++ [rec] /\ token rec = name /\ (0 < block rec)%Z /\
    fee rec = (gas_used rec * gas_price rec)%Z.
Proof.
  destruct acc as [my B]. unfold Ethereum.collect_tx.
  destruct (int (default (SStr "0") (tx_blockNumber tx))) as [bn|];
    simpl; [|discriminate].
  destruct (0 <? bn)%Z eqn:Hbn; [|intros H; injection H as <-; auto].
  apply Z.ltb_lt in Hbn.
  destruct (int (default (SStr "0") (tx_gasUsed tx))) as [used|];
    simpl; [|discriminate].
  destruct (int (default (SStr "0") (tx_gasPrice tx))) as [price|];
    simpl; [|discriminate].
  destruct (int (default (SStr "0") (tx_gas tx))) as [limit|];
    simpl; [|discriminate].
  intros H. injection H as <-. right. eexists. simpl.
  split; [reflexivity|]. simpl. auto.
Qed.

Lemma arbitrum_collect_tx_record (name : string) (tx : RawTx)
    (acc acc' : list Transfer * gset Z) :
  Arbitrum.collect_tx name tx acc = Ok acc' ->
  acc'.1 = acc.1 \/
  exists rec,
    acc'.1 = acc.1 ++ [rec] /\ token rec = name /\ (0 < block rec)%Z /\
    fee rec = (gas_used rec * gas_price rec)%Z.
Proof.
  destruct acc as [my B]. unfold Arbitrum.collect_tx.
  destruct (int (default (SStr "0") (tx_blockNumber tx))) as [bn|];
    simpl; [|discriminate].
  destruct (0 <? bn)%Z eqn:Hbn; [|intros H; injection H as <-; auto].
  apply Z.ltb_lt in Hbn.
  destruct (int (default (SStr "0") (tx_gasUsed tx))) as [used|];
    simpl; [|discriminate].
  destruct (int (default (SStr "0") (tx_gasPrice tx))) as [price|];
    simpl; [|discriminate].
  destruct (int (default (SStr "0") (tx_gas tx))) as [limit|];
    simpl; [|discriminate].
  intros H. injection H as <-. right. eexists. simpl.
  split; [reflexivity|]. simpl. auto.
Qed.

(** One token asked for, and its transactions recorded. *)
Lemma own_facts_token (s0 : State W) (pre : list (string * string))
    (name address : string) (txs : list RawTx)
    (step : RawTx -> list Transfer * gset Z -> result (list Transfer * gset Z))
    (acc acc' : list Transfer * gset Z) (s s1 s' : State W) :
  (forall tx a a',
      step tx a = Ok a' ->
      a'.1 = a.1 \/
      exists rec,
        a'.1 = a.1 ++ [rec] /\ token rec = name /\ (0 < block rec)%Z /\
        fee rec = (gas_used rec * gas_price rec)%Z) ->
  own_facts cfg s0 pre acc s ->
  journal s1
  = journal s
    ++ [CallTransactions (MY_ADDRESS cfg)
          (if String.eqb name "eth" then None else Some address)
          (MAX_MY_TRANSACTIONS cfg)] ->
  Monad.for_each txs (fun tx a => Monad.lift (step tx a)) acc s1
  = (Ok acc', s') ->
  own_facts cfg s0 (pre ++ [(name, address)]) acc' s'.
Proof.
  intros Hstep [Hrec Hj] Hj1 Hloop.
  eapply (for_each_invariant_elem
            (fun a st => own_facts cfg s0 (pre ++ [(name, address)]) a st));
    [| |exact Hloop].
  - intros tx a st a' st' _ [Ha Hst] Hbody.
    apply lift_ok in Hbody as [Hbody ->]. split; [|exact Hst].
    apply Hstep in Hbody as [->|(rec & -> & Hn & Hb & Hf)]; [exact Ha|].
    apply Forall_app. split; [exact Ha|]. constructor; [|constructor].
    split; [exact Hb|]. split; [|exact Hf].
    rewrite fmap_app, Hn. apply elem_of_app. right. simpl. left.
  - split.
    + eapply Forall_impl; [exact Hrec|]. simpl.
      intros rec (Hb & Ht & Hf). split; [exact Hb|]. split; [|exact Hf].
      rewrite fmap_app. apply elem_of_app. left. exact Ht.
    + rewrite Hj1, Hj. unfold calls_for. rewrite map_app, <- app_assoc.
      reflexivity.
Qed.

Lemma ethereum_collect_my_facts (s s' : State W) (my : list Transfer)
    (blocks : list Z) :
  Ethereum.collect_my_transactions api cfg s = (Ok (my, blocks), s') ->
  own_facts cfg s (NETWORK_TOKENS cfg) (my, ∅) s'.
Proof.
  unfold Ethereum.collect_my_transactions. intros H.
  apply bind_ok in H as ([my1 B] & s1 & Hloop & H).
  apply ret_ok in H as [H Hs]. injection H as -> ->. subst s1.
  assert (HI : own_facts cfg s ([] ++ NETWORK_TOKENS cfg) (my1, B) s').
  { eapply (for_each_invariant (own_facts cfg s)); [| |exact Hloop].
    - intros pre [name address] acc st acc' st' Hacc Hbody.
      apply bind_ok in Hbody as (txs & st1 & Hget & Hbody).
      apply transactions_call in Hget.
      eapply (own_facts_token s pre name address txs
                (Ethereum.collect_tx name));
        [|exact Hacc|exact Hget|exact Hbody].
      intros tx a a'. apply ethereum_collect_tx_record.
    - split; [constructor|]. simpl. symmetry. apply app_nil_r. }
  exact HI.
Qed.

Lemma arbitrum_collect_my_facts (s s' : State W) (my : list Transfer)
    (blocks : list Z) :
  Arbitrum.collect_my_transactions api cfg s = (Ok (my, blocks), s') ->
  own_facts cfg s (NETWORK_TOKENS cfg) (my, ∅) s'.
Proof.
  unfold Arbitrum.collect_my_transactions. intros H.
  apply bind_ok in H as ([my1 B] & s1 & Hloop & H).
  apply ret_ok in H as [H Hs]. injection H as -> ->. subst s1.
  assert (HI : own_facts cfg s ([] ++ NETWORK_TOKENS cfg) (my1, B) s').
  { eapply (for_each_invariant (own_facts cfg s)); [| |exact Hloop].
    - intros pre [name address] acc st acc' st' Hacc Hbody.
      apply bind_ok in Hbody as (txs & st1 & Hget & Hbody).
      apply transactions_call in Hget.
      eapply (own_facts_token s pre name address txs
                (Arbitrum.collect_tx name));
        [|exact Hacc|exact Hget|exact Hbody].
      intros tx a a'. apply arbitrum_collect_tx_record.
    - split; [constructor|]. simpl. symmetry. apply app_nil_r. }
  exact HI.
Qed.

End OwnTransactions.

Section OwnTheorems.
Import Py Account Observe Trace.

(** [collect_my_transactions] (ethereum.py and arbitrum.py) asks once for
    each configured token, in the order of the configuration, and for
    nothing else; every record it returns has a positive block number, a
    configured token and a fee equal to the gas used times the gas price;
    the blocks it returns are the block numbers of the records, each
    once. *)
Theorem own_transactions_collected (W : Type) (api : Api W) (cfg : Config)
    (s s' : State W) (my : list Transfer) (blocks : list Z) :
  Ethereum.collect_my_transactions api cfg s = (Ok (my, blocks), s') \/
  Arbitrum.collect_my_transactions api cfg s = (Ok (my, blocks), s') ->
  journal s' = journal s ++ transactions_calls cfg /\
  Forall (fun rec =>
            (0 < block rec)%Z /\
            token rec ∈ (NETWORK_TOKENS cfg).*1 /\
            fee rec = (gas_used rec * gas_price rec)%Z) my /\
  NoDup blocks /\
  (forall b, b ∈ blocks <-> exists rec, rec ∈ my /\ block rec = b).
Proof.
  intros [H|H].
  - pose proof (ethereum_collect_my_facts api cfg _ _ _ _ H) as [Hrec Hj].
    apply ethereum_collect_my in H as (Hnd & Hin & _). auto.
  - pose proof (arbitrum_collect_my_facts api cfg _ _ _ _ H) as [Hrec Hj].
    apply arbitrum_collect_my in H as (Hnd & Hin & _). auto.
Qed.

Lemma own_transactions_collected_witness :
  Ethereum.collect_my_transactions Scenario.api_strangers
    Scenario.cfg_one_example Scenario.start
  = (Ok ([Cases.listed_record "0xa1" 100; Cases.listed_record "0xa2" 205;
          Cases.listed_record "0xa3" 100], [205; 100]%Z),
     Cases.after_listing) /\
  journal Cases.after_listing
  = journal Scenario.start ++ transactions_calls Scenario.cfg_one_example /\
  NoDup [205; 100]%Z.
Proof.
  assert (H : Ethereum.collect_my_transactions Scenario.api_strangers
                Scenario.cfg_one_example Scenario.start
              = (Ok ([Cases.listed_record "0xa1" 100;
                      Cases.listed_record "0xa2" 205;
                      Cases.listed_record "0xa3" 100], [205; 100]%Z),
                 Cases.after_listing))
    by (vm_compute; reflexivity).
  split; [exact H|].
  destruct (own_transactions_collected unit _ _ _ _ _ _ (or_introl H))
    as (Hj & _ & Hnd & _).
  split; [exact Hj|exact Hnd].
Defined.

End OwnTheorems.

(** ** The report table *)

Section ReportTable.
Import Py Account Observe Trace.

Lemma ethereum_report_row_total (name : string) (m n : Stats) :
  exists row, Ethereum.report_row name m n = Ok row.
Proof.
  unfold Ethereum.report_row. rewrite !percent_diff_total. simpl.
  eexists. reflexivity.
Qed.

Lemma arbitrum_report_row_total (name : string) (m n : Stats) :
  exists row, Arbitrum.report_row name m n = Ok row.
Proof.
  unfold Arbitrum.report_row. rewrite !percent_diff_total. simpl.
  eexists. reflexivity.
Qed.

Lemma on_both_sides_true (my net : gmap string Stats) (t : string) :
  on_both_sides my net t = true ->
  exists m n, my !! t = Some m /\ net !! t = Some n.
Proof.
  unfold on_both_sides. intros H. apply bool_decide_eq_true in H as [[m Hm] [n Hn]].
  eauto.
Qed.

Lemma on_both_sides_false (my net : gmap string Stats) (t : string) :
  on_both_sides my net t = false -> my !! t = None \/ net !! t = None.
Proof.
  unfold on_both_sides. intros H. apply bool_decide_eq_false in H.
  destruct (my !! t); [|auto]. destruct (net !! t); [|auto].
  exfalso. apply H. split; eexists; reflexivity.
Qed.

Lemma ethereum_generate_report_rows (my net : gmap string Stats)
    (tokens : list string) :
  exists rows,
    Ethereum.generate_report my net tokens = Ok rows /\
    Forall2 (fun t row =>
               exists m n, my !! t = Some m /\ net !! t = Some n /\
                           Ethereum.report_row t m n = Ok row)
            (List.filter (on_both_sides my net) tokens) rows.
Proof.
  induction tokens as [|t tokens (rows & Hrows & Hall)].
  - exists []. split; [reflexivity|constructor].
  - cbn [Ethereum.generate_report List.filter].
    destruct (on_both_sides my net t) eqn:E.
    + apply on_both_sides_true in E as (m & n & Hm & Hn).
      rewrite Hm, Hn.
      destruct (ethereum_report_row_total t m n) as [row Hrow].
      rewrite Hrow, Hrows. simpl. exists (row :: rows).
      split; [reflexivity|]. constructor; [|exact Hall].
      exists m, n. auto.
    + exists rows. split; [|exact Hall].
      apply on_both_sides_false in E as [E|E]; rewrite E;
        [|destruct (my !! t)]; exact Hrows.
Qed.

Lemma arbitrum_generate_report_rows (my net : gmap string Stats)
    (tokens : list string) :
  exists rows,
    Arbitrum.generate_report my net tokens = Ok rows /\
    Forall2 (fun t row =>
               exists m n, my !! t = Some m /\ net !! t = Some n /\
                           Arbitrum.report_row t m n = Ok row)
            (List.filter (on_both_sides my net) tokens) rows.
Proof.
  induction tokens as [|t tokens (rows & Hrows & Hall)].
  - exists []. split; [reflexivity|constructor].
  - cbn [Arbitrum.generate_report List.filter].
    destruct (on_both_sides my net t) eqn:E.
    + apply on_both_sides_true in E as (m & n & Hm & Hn).
      rewrite Hm, Hn.
      destruct (arbitrum_report_row_total t m n) as [row Hrow].
      rewrite Hrow, Hrows. simpl. exists (row :: rows).
      split; [reflexivity|]. constructor; [|exact Hall].
      exists m, n. auto.
    + exists rows. split; [|exact Hall].
      apply on_both_sides_false in E as [E|E]; rewrite E;
        [|destruct (my !! t)]; exact Hrows.
Qed.

(** [generate_report] (ethereum.py and arbitrum.py) never raises; it gives
    one row for each analysed token that has an entry in the user's
    statistics and in the network's, in the order of [tokens_analyzed],
    and no row for any other token. *)
Theorem report_has_one_row_per_common_token (my net : gmap string Stats)
    (tokens : list string) :
  (exists rows,
      Ethereum.generate_report my net tokens = Ok rows /\
      Forall2 (fun t row =>
                 exists m n, my !! t = Some m /\ net !! t = Some n /\
                             Ethereum.report_row t m n = Ok row)
              (List.filter (on_both_sides my net) tokens) rows) /\
  (exists rows,
      Arbitrum.generate_report my net tokens = Ok rows /\
      Forall2 (fun t row =>
                 exists m n, my !! t = Some m /\ net !! t = Some n /\
                             Arbitrum.report_row t m n = Ok row)
              (List.filter (on_both_sides my net) tokens) rows).
Proof.
  split; [apply ethereum_generate_report_rows|apply arbitrum_generate_report_rows].
Qed.

End ReportTable.

(** ** How a run of ethereum.py or arbitrum.py can end *)

Section AccountMain.
Import Py Account Observe Trace.
Context {W : Type} (api : Api W) (cfg : Config).

Lemma ethereum_collect_tx_raises (name : string) (tx : RawTx)
    (acc : list Transfer * gset Z) (e : exc) :
  Ethereum.collect_tx name tx acc = Raise e -> e = ValueError.
Proof.
  destruct acc as [my B]. unfold Ethereum.collect_tx.
  destruct (int (default (SStr "0") (tx_blockNumber tx))) as [bn|] eqn:E1;
    simpl; [|intros H; inversion H; subst; eapply int_raises; exact E1].
  destruct (0 <? bn)%Z; [|discriminate].
  destruct (int (default (SStr "0") (tx_gasUsed tx))) as [used|] eqn:E2;
    simpl; [|intros H; inversion H; subst; eapply int_raises; exact E2].
  destruct (int (default (SStr "0") (tx_gasPrice tx))) as [price|] eqn:E3;
    simpl; [|intros H; inversion H; subst; eapply int_raises; exact E3].
  destruct (int (default (SStr "0") (tx_gas tx))) as [limit|] eqn:E4;
    simpl; [|intros H; inversion H; subst; eapply int_raises; exact E4].
  discriminate.
Qed.

Lemma arbitrum_collect_tx_raises (name : string) (tx : RawTx)
    (acc : list Transfer * gset Z) (e : exc) :
  Arbitrum.collect_tx name tx acc = Raise e -> e = ValueError.
Proof.
  destruct acc as [my B]. unfold Arbitrum.collect_tx.
  destruct (int (default (SStr "0") (tx_blockNumber tx))) as [bn|] eqn:E1;
    simpl; [|intros H; inversion H; subst; eapply int_raises; exact E1].
  destruct (0 <? bn)%Z; [|discriminate].
  destruct (int (default (SStr "0") (tx_gasUsed tx))) as [used|] eqn:E2;
    simpl; [|intros H; inversion H; subst; eapply int_raises; exact E2].
  destruct (int (default (SStr "0") (tx_gasPrice tx))) as [price|] eqn:E3;
    simpl; [|intros H; inversion H; subst; eapply int_raises; exact E3].
  destruct (int (default (SStr "0") (tx_gas tx))) as [limit|] eqn:E4;
    simpl; [|intros H; inversion H; subst; eapply int_raises; exact E4].
  discriminate.
Qed.

Lemma ethereum_collect_my_raises (s s' : State W) (e : exc) :
  Ethereum.collect_my_transactions api cfg s = (Raise e, s') ->
  e = ValueError.
Proof.
  unfold Ethereum.collect_my_transactions. intros H.
  apply bind_raise in H as [H|(a & s1 & _ & H)];
    [|destruct a; apply ret_raise in H; contradiction].
  apply (for_each_raise (fun _ _ => True)) in H
    as ([name address] & acc & s1 & _ & _ & H); [|auto|exact I].
  apply bind_raise in H as [H|(txs & s2 & _ & H)];
    [apply transactions_never_raise in H; contradiction|].
  apply (for_each_raise (fun _ _ => True)) in H
    as (tx & acc1 & s3 & _ & _ & H); [|auto|exact I].
  apply lift_raise in H. eapply ethereum_collect_tx_raises. exact H.
Qed.

Lemma arbitrum_collect_my_raises (s s' : State W) (e : exc) :
  Arbitrum.collect_my_transactions api cfg s = (Raise e, s') ->
  e = ValueError.
Proof.
  unfold Arbitrum.collect_my_transactions. intros H.
  apply bind_raise in H as [H|(a & s1 & _ & H)];
    [|destruct a; apply ret_raise in H; contradiction].
  apply (for_each_raise (fun _ _ => True)) in H
    as ([name address] & acc & s1 & _ & _ & H); [|auto|exact I].
  apply bind_raise in H as [H|(txs & s2 & _ & H)];
    [apply transactions_never_raise in H; contradiction|].
  apply (for_each_raise (fun _ _ => True)) in H
    as (tx & acc1 & s3 & _ & _ & H); [|auto|exact I].
  apply lift_raise in H. eapply arbitrum_collect_tx_raises. exact H.
Qed.

Lemma ethereum_generate_report_total (my net : gmap string Stats)
    (tokens : list string) (e : exc) :
  Ethereum.generate_report my net tokens = Raise e -> False.
Proof.
  destruct (ethereum_generate_report_rows my net tokens) as (rows & H & _).
  rewrite H. discriminate.
Qed.

Lemma arbitrum_generate_report_total (my net : gmap string Stats)
    (tokens : list string) (e : exc) :
  Arbitrum.generate_report my net tokens = Raise e -> False.
Proof.
  destruct (arbitrum_generate_report_rows my net tokens) as (rows & H & _).
  rewrite H. discriminate.
Qed.

Lemma ethereum_main_raises (s s' : State W) (e : exc) :
  Ethereum.main api cfg s = (Raise e, s') ->
  sampling_error api e.
Proof.
  unfold Ethereum.main. intros H.
  destruct (negb (truthy_str (MY_ADDRESS cfg)));
    [apply ret_raise in H; contradiction|].
  destruct (_ || _); [apply ret_raise in H; contradiction|].
  apply bind_raise in H as [H|([my blocks] & s1 & _ & H)];
    [left; eapply ethereum_collect_my_raises; exact H|].
  destruct my as [|tx0 my]; [apply ret_raise in H; contradiction|].
  apply bind_raise in H as [H|(nd & s2 & _ & H)].
  { eapply (account_pass_raises W api cfg). left. exact H. }
  apply bind_raise in H as [H|([ms ns] & s3 & _ & H)].
  { apply lift_raise in H. rewrite analyze_data_total in H. discriminate H. }
  apply bind_raise in H as [H|(table & s4 & _ & H)].
  { apply lift_raise in H. apply ethereum_generate_report_total in H.
    contradiction. }
  apply ret_raise in H. contradiction.
Qed.

Lemma arbitrum_main_raises (s s' : State W) (e : exc) :
  Arbitrum.main api cfg s = (Raise e, s') ->
  sampling_error api e.
Proof.
  unfold Arbitrum.main. intros H.
  destruct (negb (truthy_str (MY_ADDRESS cfg)));
    [apply ret_raise in H; contradiction|].
  destruct (_ || _); [apply ret_raise in H; contradiction|].
  apply bind_raise in H as [H|([my blocks] & s1 & _ & H)];
    [left; eapply arbitrum_collect_my_raises; exact H|].
  destruct my as [|tx0 my]; [apply ret_raise in H; contradiction|].
  apply bind_raise in H as [H|(nd & s2 & _ & H)].
  { eapply (account_pass_raises W api cfg). right. exact H. }
  apply bind_raise in H as [H|([ms ns] & s3 & _ & H)].
  { apply lift_raise in H. rewrite analyze_data_total in H. discriminate H. }
  apply bind_raise in H as [H|(table & s4 & _ & H)].
  { apply lift_raise in H. apply arbitrum_generate_report_total in H.
    contradiction. }
  apply ret_raise in H. contradiction.
Qed.

Lemma ethereum_main_none (s s' : State W) :
  Ethereum.main api cfg s = (Ok None, s') ->
  journal s' = journal s \/
  journal s' = journal s ++ transactions_calls cfg.
Proof.
  unfold Ethereum.main. intros H.
  destruct (negb (truthy_str (MY_ADDRESS cfg)));
    [apply ret_ok in H as [_ ->]; left; reflexivity|].
  destruct (_ || _); [apply ret_ok in H as [_ ->]; left; reflexivity|].
  apply bind_ok in H as ([my blocks] & s1 & Hmy & H).
  apply ethereum_collect_my_facts in Hmy as [_ Hj].
  destruct my as [|tx0 my].
  - apply ret_ok in H as [_ ->]. right. exact Hj.
  - apply bind_ok in H as (nd & s2 & _ & H).
    apply bind_ok in H as ([ms ns] & s3 & _ & H).
    apply bind_ok in H as (table & s4 & _ & H).
    apply ret_ok in H as [H _]. discriminate H.
Qed.

Lemma arbitrum_main_none (s s' : State W) :
  Arbitrum.main api cfg s = (Ok None, s') ->
  journal s' = journal s \/
  journal s' = journal s ++ transactions_calls cfg.
Proof.
  unfold Arbitrum.main. intros H.
  destruct (negb (truthy_str (MY_ADDRESS cfg)));
    [apply ret_ok in H as [_ ->]; left; reflexivity|].
  destruct (_ || _); [apply ret_ok in H as [_ ->]; left; reflexivity|].
  apply bind_ok in H as ([my blocks] & s1 & Hmy & H).
  apply arbitrum_collect_my_facts in Hmy as [_ Hj].
  destruct my as [|tx0 my].
  - apply ret_ok in H as [_ ->]. right. exact Hj.
  - apply bind_ok in H as (nd & s2 & _ & H).
    apply bind_ok in H as ([ms ns] & s3 & _ & H).
    apply bind_ok in H as (table & s4 & _ & H).
    apply ret_ok in H as [H _]. discriminate H.
Qed.

End AccountMain.

Section AccountMainTheorems.
Import Py Account Observe Trace.

(** A run of [main] (ethereum.py and arbitrum.py) that raises does so with
    ValueError or TypeError, from a field that does not read as a number,
    or with AttributeError, and then the explorer has answered a receipt
    request by something that is no object.  The statistics and the report
    never raise: no KeyError, no division by zero. *)
Theorem main_raises_on_bad_answers (W : Type) (api : Api W)
    (cfg : Config) (s s' : State W) (e : exc) :
  Ethereum.main api cfg s = (Raise e, s') \/
  Arbitrum.main api cfg s = (Raise e, s') ->
  (e = ValueError \/ e = TypeError \/ e = AttributeError) /\
  (e = AttributeError ->
   exists h w, (api_receipt api h w).1 = Some NotAnObject).
Proof.
  intros H. apply sampling_error_classes. destruct H as [H|H].
  - eapply ethereum_main_raises. exact H.
  - eapply arbitrum_main_raises. exact H.
Qed.

Lemma main_raises_on_bad_answers_witness :
  (Arbitrum.main Cases.api_bad_listing Scenario.cfg_one_example
     Scenario.start
   = (Raise ValueError, Cases.after_listing) /\
   (ValueError = ValueError \/ ValueError = TypeError
    \/ ValueError = AttributeError)) /\
  (Ethereum.main Cases.api_busy Scenario.cfg_one_example Scenario.start
   = (Raise AttributeError,
      {| world := tt;
         journal := [CallTransactions Scenario.my_address None 10;
                     CallBlock 100; CallReceipt "0xb1"] |}) /\
   exists h w, (api_receipt Cases.api_busy h w).1 = Some NotAnObject).
Proof.
  assert (H : Arbitrum.main Cases.api_bad_listing Scenario.cfg_one_example
                Scenario.start
              = (Raise ValueError, Cases.after_listing))
    by (vm_compute; reflexivity).
  assert (H' : Ethereum.main Cases.api_busy Scenario.cfg_one_example
                 Scenario.start
               = (Raise AttributeError,
                  {| world := tt;
                     journal := [CallTransactions Scenario.my_address None 10;
                                 CallBlock 100; CallReceipt "0xb1"] |}))
    by (vm_compute; reflexivity).
  split.
  - split; [exact H|].
    exact (proj1 (main_raises_on_bad_answers unit _ _ _ _ _ (or_intror H))).
  - split; [exact H'|].
    exact (proj2 (main_raises_on_bad_answers unit _ _ _ _ _ (or_introl H'))
             eq_refl).
Defined.

(** When [main] (ethereum.py and arbitrum.py) returns without a report it
    has scanned no block and asked for no receipt: it made no request at
    all (address or key not configured), or only the requests for the
    user's own transactions (none was found).  Without an address, or with
    no key or the placeholder key, it returns at once. *)
Theorem main_gives_up_before_sampling (W : Type) (api : Api W)
    (cfg : Config) (s : State W) :
  (forall s',
      Ethereum.main api cfg s = (Ok None, s') \/
      Arbitrum.main api cfg s = (Ok None, s') ->
      journal s' = journal s \/
      journal s' = journal s ++ transactions_calls cfg) /\
  (negb (truthy_str (MY_ADDRESS cfg))
   || negb (truthy_str (API_KEY cfg))
   || String.eqb (API_KEY cfg) "YOUR_ETHERSCAN_API_KEY_HERE" = true ->
   Ethereum.main api cfg s = (Ok None, s) /\
   Arbitrum.main api cfg s = (Ok None, s)).
Proof.
  split.
  - intros s' [H|H].
    + eapply ethereum_main_none. exact H.
    + eapply arbitrum_main_none. exact H.
  - intros H. unfold Ethereum.main, Arbitrum.main.
    destruct (negb (truthy_str (MY_ADDRESS cfg))); [split; reflexivity|].
    simpl in H.
    change Ethereum.placeholder_key with "YOUR_ETHERSCAN_API_KEY_HERE".
    change Arbitrum.placeholder_key with "YOUR_ETHERSCAN_API_KEY_HERE".
    rewrite H. split; reflexivity.
Qed.

Lemma main_gives_up_before_sampling_witness :
  (Ethereum.main Cases.api_no_receipts Scenario.cfg_one_example
     Scenario.start = (Ok None, Cases.after_listing) /\
   (journal Cases.after_listing = journal Scenario.start \/
    journal Cases.after_listing
    = journal Scenario.start ++ transactions_calls Scenario.cfg_one_example))
  /\
  (negb (truthy_str (MY_ADDRESS Cases.cfg_no_address))
   || negb (truthy_str (API_KEY Cases.cfg_no_address))
   || String.eqb (API_KEY Cases.cfg_no_address) "YOUR_ETHERSCAN_API_KEY_HERE"
   = true /\
   Arbitrum.main Scenario.api_strangers Cases.cfg_no_address Scenario.start
   = (Ok None, Scenario.start)).
Proof.
  assert (H : Ethereum.main Cases.api_no_receipts Scenario.cfg_one_example
                Scenario.start = (Ok None, Cases.after_listing))
    by (vm_compute; reflexivity).
  split.
  - split; [exact H|].
    exact (proj1 (main_gives_up_before_sampling unit Cases.api_no_receipts
                    Scenario.cfg_one_example Scenario.start)
             Cases.after_listing (or_introl H)).
  - split; [reflexivity|].
    exact (proj2 (proj2 (main_gives_up_before_sampling unit
                           Scenario.api_strangers Cases.cfg_no_address
                           Scenario.start) eq_refl)).
Defined.

End AccountMainTheorems.

(** ** Every record is counted once *)

Section Counts.
Import Py Account Observe Trace.

Lemma total_count_insert (m : gmap string Stats) (t : string) (st : Stats) :
  total_count (<[ t := st ]> m)
  = (count st + total_count (delete t m))%Z.
Proof.
  unfold total_count. rewrite <- insert_delete_eq.
  rewrite map_fold_insert_L; [reflexivity| |apply lookup_delete_eq].
  intros. lia.
Qed.

Lemma total_count_lookup (m : gmap string Stats) (t : string) (st : Stats) :
  m !! t = Some st ->
  total_count m = (count st + total_count (delete t m))%Z.
Proof.
  intros H. unfold total_count.
  rewrite (map_fold_delete_L _ _ t st m); [reflexivity| |exact H].
  intros. lia.
Qed.

Lemma total_count_accumulate (m : gmap string Stats) (x : Transfer) :
  total_count (accumulate m x) = (total_count m + 1)%Z.
Proof.
  unfold accumulate. rewrite total_count_insert. simpl.
  destruct (m !! token x) as [st|] eqn:E; simpl.
  - rewrite (total_count_lookup m (token x) st E). lia.
  - rewrite delete_id by exact E. lia.
Qed.

Lemma total_count_fold (l : list Transfer) (m : gmap string Stats) :
  total_count (fold_left accumulate l m)
  = (total_count m + Z.of_nat (length l))%Z.
Proof.
  revert m. induction l as [|x l IH]; intros m; simpl.
  - lia.
  - rewrite IH, total_count_accumulate. lia.
Qed.

Lemma averaged_count (st : Stats) : count (averaged st) = count st.
Proof. unfold averaged. destruct (0 <? count st)%Z; reflexivity. Qed.

Lemma total_count_averaged (m : gmap string Stats) :
  total_count (averaged <$> m) = total_count m.
Proof.
  unfold total_count. rewrite map_fold_fmap.
  induction m as [|t st m Hm Hfirst IH] using map_first_key_ind.
  - rewrite !map_fold_empty. reflexivity.
  - rewrite !map_fold_insert_first_key by assumption.
    simpl. rewrite IH, averaged_count. reflexivity.
Qed.

(** In the statistics [analyze_data] returns, the counts of all tokens of a
    side add up to the number of records of that side: each record is
    counted once, under one token. *)
Theorem counts_add_up (my network : list Transfer) :
  exists my_stats network_stats,
    analyze_data my network = Ok (my_stats, network_stats) /\
    total_count my_stats = Z.of_nat (length my) /\
    total_count network_stats = Z.of_nat (length network).
Proof.
  rewrite analyze_data_total. eexists _, _. split; [reflexivity|].
  rewrite !total_count_averaged, !total_count_fold.
  unfold total_count. rewrite map_fold_empty. split; lia.
Qed.

End Counts.

(** ** Reading the percentage delta *)

Section Sign.
Import Py Observe.

Lemma scaled_sign (d n : Q) :
  (0 < n)%Q ->
  ((0 < d / n * 100)%Q <-> (0 < d)%Q) /\
  ((d / n * 100 < 0)%Q <-> (d < 0)%Q) /\
  ((d / n * 100 == 0)%Q <-> (d == 0)%Q).
Proof.
  intros Hn.
  assert (Hk : (0 < / n * 100)%Q).
  { apply Qmult_lt_0_compat; [apply Qinv_lt_0_compat; exact Hn|reflexivity]. }
  assert (E : (d / n * 100 == d * (/ n * 100))%Q).
  { unfold Qdiv. rewrite Qmult_assoc. reflexivity. }
  rewrite E.
  assert (Z0 : (0 == 0 * (/ n * 100))%Q) by (rewrite Qmult_0_l; reflexivity).
  split; [|split].
  - rewrite Z0 at 1. apply Qmult_lt_r. exact Hk.
  - rewrite Z0 at 1. apply Qmult_lt_r. exact Hk.
  - rewrite Z0 at 1. apply Qmult_inj_r.
    intros H. rewrite H in Hk. exact (Qlt_irrefl 0 Hk).
Qed.

(** With a positive network value the sign of the percentage delta tells
    who pays more: it is positive exactly when the user's value is above
    the network's, negative exactly when it is below, and zero exactly when
    the two are equal. *)
Theorem percent_diff_sign (mine network : Q) :
  (0 < network)%Q ->
  exists q,
    Report.percent_diff mine network = Ok q /\
    ((0 < q)%Q <-> (network < mine)%Q) /\
    ((q < 0)%Q <-> (mine < network)%Q) /\
    ((q == 0)%Q <-> (mine == network)%Q).
Proof.
  intros Hn. rewrite percent_diff_total.
  pose proof (proj2 (Qlt_bool_iff 0 network) Hn) as Hb. rewrite Hb.
  eexists. split; [reflexivity|].
  destruct (scaled_sign (mine - network) network Hn) as (H1 & H2 & H3).
  split; [|split].
  - rewrite H1. rewrite <- (Qlt_minus_iff network mine). reflexivity.
  - rewrite H2. split; intros H.
    + apply (Qplus_lt_l _ _ (- network)). rewrite Qplus_opp_r. exact H.
    + apply (Qplus_lt_l _ _ (- network)) in H. rewrite Qplus_opp_r in H.
      exact H.
  - rewrite H3. split; intros H.
    + apply (Qplus_inj_r _ _ (- network)). rewrite Qplus_opp_r. exact H.
    + apply (Qplus_inj_r _ _ (- network)) in H. rewrite Qplus_opp_r in H.
      exact H.
Qed.

Lemma percent_diff_sign_witness :
  (0 < 100)%Q /\
  exists q,
    Report.percent_diff 110 100 = Ok q /\
    ((0 < q)%Q <-> (100 < 110)%Q).
Proof.
  assert (H : (0 < 100)%Q) by reflexivity.
  split; [exact H|].
  destruct (percent_diff_sign 110%Q 100%Q H) as (q & Hq & Hpos & _).
  exists q. split; [exact Hq|exact Hpos].
Defined.

End Sign.

(** ** The medians of litecoin.py *)

Section Medians.
Import Py Litecoin Observe Trace.

Lemma insert_sorted_perm (x : Q) (l : list Q) : insert_sorted x l ≡ₚ x :: l.
Proof.
  induction l as [|y l IH]; [reflexivity|].
  simpl. destruct (Qle_bool x y); [reflexivity|].
  rewrite IH. apply perm_swap.
Qed.

Lemma sorted_perm (l : list Q) : sorted l ≡ₚ l.
Proof.
  induction l as [|x l IH]; [reflexivity|].
  simpl. rewrite insert_sorted_perm, IH. reflexivity.
Qed.

Lemma insert_sorted_sorted (x : Q) (l : list Q) :
  StronglySorted Qle l -> StronglySorted Qle (insert_sorted x l).
Proof.
  induction 1 as [|y l Hl IH Hy]; simpl.
  - repeat constructor.
  - destruct (Qle_bool x y) eqn:E.
    + apply Qle_bool_iff in E. constructor; [constructor; assumption|].
      constructor; [exact E|].
      eapply Forall_impl; [exact Hy|]. simpl. intros z Hz.
      eapply Qle_trans; eassumption.
    + constructor; [exact IH|].
      rewrite insert_sorted_perm. constructor; [|exact Hy].
      apply Qlt_le_weak. apply Qnot_le_lt. intros Hle.
      apply Qle_bool_iff in Hle. congruence.
Qed.

Lemma sorted_sorted (l : list Q) : StronglySorted Qle (sorted l).
Proof.
  induction l as [|x l IH]; [constructor|].
  simpl. apply insert_sorted_sorted. exact IH.
Qed.

(** In a sorted list, what stands before a position is not above it, and
    what stands from it on is not below. *)
Lemma sorted_before (l : list Q) (k : nat) :
  StronglySorted Qle l -> (k < length l)%nat ->
  Forall (fun x => (x <= nth k l 0)%Q) (take (S k) l).
Proof.
  intros Hs. revert k. induction Hs as [|y l Hl IH Hy]; intros k Hk.
  - simpl in Hk. lia.
  - destruct k as [|k]; simpl.
    + constructor; [apply Qle_refl|constructor].
    + simpl in Hk. constructor; [|apply IH; lia].
      rewrite Forall_forall in Hy. apply Hy.
      apply list_elem_of_In, nth_In. lia.
Qed.

Lemma sorted_after (l : list Q) (k : nat) :
  StronglySorted Qle l -> (k < length l)%nat ->
  Forall (fun x => (nth k l 0 <= x)%Q) (drop k l).
Proof.
  intros Hs. revert k. induction Hs as [|y l Hl IH Hy]; intros k Hk.
  - simpl in Hk. lia.
  - destruct k as [|k]; simpl.
    + constructor; [apply Qle_refl|exact Hy].
    + simpl in Hk. apply IH. lia.
Qed.

Lemma count_le_perm (q : Q) (l1 l2 : list Q) :
  l1 ≡ₚ l2 -> count_le q l1 = count_le q l2.
Proof. intros H. unfold count_le. rewrite H. reflexivity. Qed.

Lemma count_ge_perm (q : Q) (l1 l2 : list Q) :
  l1 ≡ₚ l2 -> count_ge q l1 = count_ge q l2.
Proof. intros H. unfold count_ge. rewrite H. reflexivity. Qed.

Lemma count_le_all (q : Q) (l : list Q) :
  Forall (fun x => (x <= q)%Q) l -> count_le q l = length l.
Proof.
  unfold count_le. induction 1 as [|x l Hx Hl IH]; [reflexivity|].
  rewrite filter_cons_True by (apply Qle_bool_iff; exact Hx).
  simpl. rewrite IH. reflexivity.
Qed.

Lemma count_ge_all (q : Q) (l : list Q) :
  Forall (fun x => (q <= x)%Q) l -> count_ge q l = length l.
Proof.
  unfold count_ge. induction 1 as [|x l Hx Hl IH]; [reflexivity|].
  rewrite filter_cons_True by (apply Qle_bool_iff; exact Hx).
  simpl. rewrite IH. reflexivity.
Qed.

Lemma count_le_take (q : Q) (l : list Q) (k : nat) :
  Forall (fun x => (x <= q)%Q) (take k l) ->
  (length (take k l) <= count_le q l)%nat.
Proof.
  intros H. rewrite <- (take_drop k l) at 2.
  unfold count_le. rewrite filter_app, length_app.
  fold (count_le q (take k l)). rewrite (count_le_all _ _ H). lia.
Qed.

Lemma count_ge_drop (q : Q) (l : list Q) (k : nat) :
  Forall (fun x => (q <= x)%Q) (drop k l) ->
  (length (drop k l) <= count_ge q l)%nat.
Proof.
  intros H. rewrite <- (take_drop k l) at 2.
  unfold count_ge. rewrite filter_app, length_app.
  fold (count_ge q (drop k l)). rewrite (count_ge_all _ _ H). lia.
Qed.

Lemma midpoint (a b : Q) :
  (a <= b)%Q -> (a <= (a + b) / 2)%Q /\ ((a + b) / 2 <= b)%Q.
Proof.
  intros H.
  assert (E : ((a + b) / 2 == (a + b) * (1 # 2))%Q) by reflexivity.
  rewrite E. split; lra.
Qed.

(** What [statistics.median] returns splits the list in two halves. *)
Lemma median_splits (l : list Q) (q : Q) :
  median l = Ok q ->
  (length l <= 2 * count_le q l)%nat /\ (length l <= 2 * count_ge q l)%nat.
Proof.
  unfold median.
  pose proof (sorted_sorted l) as Hs. pose proof (sorted_perm l) as Hp.
  pose proof (sorted_length l) as Hlen.
  rewrite <- (count_le_perm q _ _ Hp), <- (count_ge_perm q _ _ Hp), <- Hlen.
  set (d := sorted l) in *. clearbody d. set (n := length d) in *.
  destruct (n =? 0)%nat eqn:E0; [discriminate|].
  apply Nat.eqb_neq in E0.
  destruct (Nat.odd n) eqn:Eodd.
  - intros H. injection H as <-.
    assert (Hk : (n / 2 < n)%nat) by (apply Nat.div_lt; lia).
    pose proof (count_le_take _ d (S (n / 2)) (sorted_before d _ Hs Hk)) as H1.
    pose proof (count_ge_drop _ d (n / 2) (sorted_after d _ Hs Hk)) as H2.
    rewrite length_take in H1. rewrite length_drop in H2.
    pose proof (Nat.div_mod_eq n 2) as Hdm.
    pose proof (Nat.mod_upper_bound n 2). fold n in H1, H2.
    change (Nat.divmod n 1 0 1).1 with (n / 2)%nat. lia.
  - unfold truediv. simpl Qeq_bool. cbv iota. intros H. injection H as <-.
    change (Nat.divmod n 1 0 1).1 with (n / 2)%nat.
    assert (Heven : (n mod 2 = 0)%nat).
    { rewrite <- Nat.negb_even in Eodd. apply negb_false_iff in Eodd.
      apply Nat.even_spec in Eodd. destruct Eodd as [m ->].
      rewrite Nat.mul_comm. apply Nat.Div0.mod_mul. }
    pose proof (Nat.div_mod_eq n 2) as Hdm.
    assert (Hi : (n / 2 - 1 < n)%nat) by lia.
    assert (Hj : (n / 2 < n)%nat) by lia.
    assert (Hord : (nth (n / 2 - 1) d 0 <= nth (n / 2) d 0)%Q).
    { pose proof (sorted_after d _ Hs Hi) as Ha.
      rewrite Forall_forall in Ha. apply Ha.
      apply list_elem_of_lookup. exists 1%nat.
      rewrite lookup_drop.
      replace (n / 2 - 1 + 1)%nat with (n / 2)%nat by lia.
      destruct (lookup_lt_is_Some_2 d (n / 2) Hj) as [x Hx].
      rewrite (nth_lookup_Some _ _ 0%Q _ Hx). exact Hx. }
    destruct (midpoint _ _ Hord) as [Hlo Hhi].
    assert (H1 : Forall (fun x => (x <= (nth (n / 2 - 1) d 0
                                        + nth (n / 2) d 0) / 2)%Q)
                        (take (S (n / 2 - 1)) d)).
    { eapply Forall_impl; [apply sorted_before; assumption|]. simpl.
      intros z Hz. eapply Qle_trans; eassumption. }
    assert (H2 : Forall (fun x => ((nth (n / 2 - 1) d 0
                                    + nth (n / 2) d 0) / 2 <= x)%Q)
                        (drop (n / 2) d)).
    { eapply Forall_impl; [apply sorted_after; assumption|]. simpl.
      intros z Hz. eapply Qle_trans; eassumption. }
    apply count_le_take in H1. apply count_ge_drop in H2.
    rewrite length_take in H1. rewrite length_drop in H2.
    fold n in H1, H2. lia.
Qed.

End Medians.

(** ** The user's statistics of litecoin.py *)

Section OurStatistics.
Import Py Litecoin Observe Trace.
Context {W : Type} (api : Api W) (address : string).

(** The run of [get_our_transactions_stats] once the address is set and
    the request answered. *)
Lemma our_stats_run (s : State W) (txs : list Tx) (w : W) :
  truthy_str address = true ->
  api_address_txs api address (world s) = (Some txs, w) ->
  get_our_transactions_stats api address s
  = (match
       our_stats_of
         {| fees :=
              map fee_rate
                (List.filter is_confirmed
                   (slice_to txs OUR_TRANSACTIONS_LIMIT));
            sizes :=
              map (fun tx => default 0%Q (size tx))
                (List.filter is_confirmed
                   (slice_to txs OUR_TRANSACTIONS_LIMIT));
            weights :=
              map (fun tx => default 0%Q (weight tx))
                (List.filter is_confirmed
                   (slice_to txs OUR_TRANSACTIONS_LIMIT));
            inputs :=
              map (fun tx => inject_Z (vin_count tx))
                (List.filter is_confirmed
                   (slice_to txs OUR_TRANSACTIONS_LIMIT));
            outputs :=
              map (fun tx => inject_Z (vout_count tx))
                (List.filter is_confirmed
                   (slice_to txs OUR_TRANSACTIONS_LIMIT)) |}
     with
     | Ok r => Ok r
     | Raise _ => Ok None
     end,
     {| world := w; journal := journal s ++ [CallAddressTxs address] |}).
Proof.
  intros Haddr Hresp.
  unfold get_our_transactions_stats, Monad.bind, request_address_txs.
  rewrite Haddr. change (negb true) with false. cbv iota beta.
  rewrite Hresp. cbv iota beta. rewrite our_loop, filter_kept_mine.
  cbn [rbind fees sizes weights inputs outputs no_lists app].
  destruct (our_stats_of _); reflexivity.
Qed.

(** The medians of lists of equal length are all defined, or none. *)
Lemma our_stats_of_kept (kept : list Tx) :
  exists r,
    our_stats_of
      {| fees := map fee_rate kept;
         sizes := map (fun tx => default 0%Q (size tx)) kept;
         weights := map (fun tx => default 0%Q (weight tx)) kept;
         inputs := map (fun tx => inject_Z (vin_count tx)) kept;
         outputs := map (fun tx => inject_Z (vout_count tx)) kept |}
    = Ok r /\
    (r = None <-> kept = []) /\
    forall st,
      r = Some st ->
      halves (avg_fee_per_byte st) (map fee_rate kept) /\
      halves (avg_size st) (map (fun tx => default 0%Q (size tx)) kept) /\
      halves (avg_weight st)
             (map (fun tx => default 0%Q (weight tx)) kept) /\
      halves (avg_inputs st)
             (map (fun tx => inject_Z (vin_count tx)) kept) /\
      halves (avg_outputs st)
             (map (fun tx => inject_Z (vout_count tx)) kept).
Proof.
  destruct kept as [|tx0 kept'] eqn:Ek.
  - exists None. split; [reflexivity|]. split; [tauto|discriminate].
  - rewrite <- Ek.
    assert (Hne : forall (f : Tx -> Q), map f kept <> [])
      by (intros f; rewrite Ek; discriminate).
    destruct (median_total _ (Hne fee_rate)) as [q1 H1].
    destruct (median_total _ (Hne (fun tx => default 0%Q (size tx))))
      as [q2 H2].
    destruct (median_total _ (Hne (fun tx => default 0%Q (weight tx))))
      as [q3 H3].
    destruct (median_total _ (Hne (fun tx => inject_Z (vin_count tx))))
      as [q4 H4].
    destruct (median_total _ (Hne (fun tx => inject_Z (vout_count tx))))
      as [q5 H5].
    unfold our_stats_of. cbn [fees sizes weights inputs outputs].
    rewrite H1, H2, H3, H4, H5. simpl rbind.
    destruct (map fee_rate kept) eqn:Em; [exfalso; exact (Hne _ Em)|].
    rewrite <- Em in *.
    eexists. split; [reflexivity|]. split.
    + split; [discriminate|]. intros H. rewrite Ek in H. discriminate H.
    + intros st Hst. injection Hst as <-. simpl.
      split; [apply median_splits; exact H1|].
      split; [apply median_splits; exact H2|].
      split; [apply median_splits; exact H3|].
      split; [apply median_splits; exact H4|].
      apply median_splits; exact H5.
Qed.

End OurStatistics.

Section OurStatisticsTheorems.
Import Py Litecoin Observe Trace.

(** Each statistic [get_our_transactions_stats] returns is a median of the
    confirmed transactions among the first 20 fetched: at least half of
    them have a value (fee rate, size, weight, number of inputs, number of
    outputs) that is at most the statistic, and at least half have a value
    that is at least the statistic. *)
Theorem user_statistics_are_medians (W : Type) (api : Api W)
    (address : string) (s s' : State W) (txs : list Tx) (w : W)
    (st : OurStats) :
  truthy_str address = true ->
  api_address_txs api address (world s) = (Some txs, w) ->
  get_our_transactions_stats api address s = (Ok (Some st), s') ->
  let kept := List.filter is_confirmed (slice_to txs OUR_TRANSACTIONS_LIMIT) in
  halves (avg_fee_per_byte st) (map fee_rate kept) /\
  halves (avg_size st) (map (fun tx => default 0%Q (size tx)) kept) /\
  halves (avg_weight st) (map (fun tx => default 0%Q (weight tx)) kept) /\
  halves (avg_inputs st) (map (fun tx => inject_Z (vin_count tx)) kept) /\
  halves (avg_outputs st) (map (fun tx => inject_Z (vout_count tx)) kept).
Proof.
  intros Haddr Hresp Hrun kept.
  rewrite (our_stats_run api address s txs w Haddr Hresp) in Hrun.
  destruct (our_stats_of_kept kept) as (r & Hr & _ & Hall).
  fold kept in Hrun. rewrite Hr in Hrun. injection Hrun as -> _.
  apply Hall. reflexivity.
Qed.

Lemma user_statistics_are_medians_witness :
  exists st s',
    truthy_str Scenario.ltc_address = true /\
    get_our_transactions_stats Scenario.api_height_100 Scenario.ltc_address
      Scenario.ltc_start = (Ok (Some st), s') /\
    halves (avg_fee_per_byte st) (map fee_rate [Scenario.expensive]).
Proof.
  destruct (get_our_transactions_stats Scenario.api_height_100
              Scenario.ltc_address Scenario.ltc_start)
    as [[[st|]|e] s'] eqn:E; try (vm_compute in E; discriminate E).
  exists st, s'. split; [reflexivity|]. split; [reflexivity|].
  exact (proj1 (user_statistics_are_medians unit Scenario.api_height_100
                  Scenario.ltc_address Scenario.ltc_start s'
                  [Scenario.expensive] tt st eq_refl eq_refl E)).
Defined.

(** [get_our_transactions_stats] never raises.  It returns None in three
    cases and no other: the address is not set (then no request is made),
    the request for the user's transactions fails, or none of the first 20
    transactions fetched is confirmed. *)
Theorem user_statistics_absent_iff (W : Type) (api : Api W)
    (address : string) (s : State W) :
  exists r s',
    get_our_transactions_stats api address s = (Ok r, s') /\
    (truthy_str address = false -> r = None /\ s' = s) /\
    (r = None <->
     truthy_str address = false \/
     (api_address_txs api address (world s)).1 = None \/
     exists txs,
       (api_address_txs api address (world s)).1 = Some txs /\
       List.filter is_confirmed (slice_to txs OUR_TRANSACTIONS_LIMIT) = []).
Proof.
  destruct (truthy_str address) eqn:Haddr.
  - destruct (api_address_txs api address (world s)) as [[txs|] w] eqn:Hresp.
    + rewrite (our_stats_run api address s txs w Haddr Hresp).
      destruct (our_stats_of_kept
                  (List.filter is_confirmed
                     (slice_to txs OUR_TRANSACTIONS_LIMIT)))
        as (r & Hr & Hnone & _).
      rewrite Hr. eexists r, _. split; [reflexivity|].
      split; [discriminate|]. rewrite Hnone. simpl. split.
      * intros H. right. right. exists txs. auto.
      * intros [H|[H|(txs' & H & Hk)]]; try discriminate.
        injection H as <-. exact Hk.
    + unfold get_our_transactions_stats, Monad.bind, request_address_txs.
      rewrite Haddr. change (negb true) with false. cbv iota beta.
      rewrite Hresp. cbv iota beta. eexists None, _.
      split; [reflexivity|]. split; [discriminate|]. simpl.
      split; [intros _; right; left; reflexivity|reflexivity].
  - unfold get_our_transactions_stats. rewrite Haddr.
    exists None, s. split; [reflexivity|].
    split; [intros _; split; reflexivity|].
    split; [intros _; left; reflexivity|reflexivity].
Qed.

End OurStatisticsTheorems.

(** ** The network side of litecoin.py *)

Section LitecoinNetwork.
Import Py Litecoin Observe Trace.
Context {W : Type} (api : Api W).

Lemma slice_to_length {A : Type} (l : list A) (n : Z) :
  (0 <= n)%Z -> (Z.of_nat (length (slice_to l n)) <= n)%Z.
Proof.
  intros Hn. unfold slice_to.
  destruct (0 <=? n)%Z eqn:E; [|apply Z.leb_gt in E; lia].
  rewrite length_take. lia.
Qed.

Lemma get_recent_blocks_bounded (limit : Z) (s s' : State W) (r : list Z) :
  get_recent_blocks api limit s = (Ok r, s') ->
  (0 <= limit)%Z ->
  (Z.of_nat (length r) <= limit)%Z /\
  forall info h w,
    api_blockchain_info api (world s) = (Some info, w) ->
    blocks info = Some h ->
    NoDup r /\
    forall x, x ∈ r <-> (1 <= x /\ h - limit < x /\ x <= h)%Z.
Proof.
  intros H Hl.
  unfold get_recent_blocks, Monad.bind, get_blockchain_info, request_blocks
    in H.
  destruct (api_blockchain_info api (world s)) as [[info|] w] eqn:Hinfo;
    simpl in H.
  - destruct (blocks info) as [h|] eqn:Hh;
      [|apply raise_ok in H; contradiction].
    apply ret_ok in H as [-> _]. split.
    + rewrite length_seqZ. lia.
    + intros info' h' w' Hi Hb. injection Hi as <- <-.
      rewrite Hh in Hb. injection Hb as <-.
      split; [apply NoDup_seqZ|].
      intros x. rewrite elem_of_seqZ. lia.
  - split; [|intros info h w' Hi; discriminate Hi].
    destruct (api_blocks api w) as [[bl|] w'']; simpl in H.
    + destruct (mapM height (slice_to bl limit)) as [hs|] eqn:Em;
        apply ret_ok in H as [-> _].
      * apply length_mapM in Em. rewrite <- Em.
        apply slice_to_length. exact Hl.
      * simpl. exact Hl.
    + apply ret_ok in H as [-> _]. simpl. exact Hl.
Qed.

(** Every transaction kept for the network sample has a positive virtual
    size. *)
Lemma positive_rate_positive_vsize (tx : Tx) :
  (0 < fee_rate tx)%Q -> (0 < vsize_of tx)%Q.
Proof.
  unfold fee_rate, vsize_of, calculate_fee_per_byte.
  destruct (Report.Qlt_bool 0 (default 0%Q (weight tx))) eqn:Ew.
  - rewrite (truediv_positive _ 4) by reflexivity. simpl.
    destruct (Report.Qlt_bool 0 (default 0%Q (weight tx) / 4)) eqn:Ev.
    + rewrite (truediv_positive _ _ Ev). simpl. intros _.
      apply Qlt_bool_iff. exact Ev.
    + simpl. intros H. exfalso. exact (Qlt_irrefl 0 H).
  - simpl. destruct (Report.Qlt_bool 0 (default 1%Q (size tx))) eqn:Ev.
    + rewrite (truediv_positive _ _ Ev). simpl. intros _.
      apply Qlt_bool_iff. exact Ev.
    + simpl. intros H. exfalso. exact (Qlt_irrefl 0 H).
Qed.

Lemma kept_is_admissible (tx : Tx) :
  kept_network tx = true -> admissible (net_entry tx).
Proof.
  rewrite kept_network_rules. unfold passes_network_rules. intros H.
  apply andb_true_iff in H as [H Hwin].
  apply andb_true_iff in H as [_ Hcpfp].
  apply andb_true_iff in Hwin as [Hpos Hmax].
  apply negb_true_iff in Hcpfp.
  apply Qlt_bool_iff in Hpos. apply Qle_bool_iff in Hmax.
  unfold admissible. simpl.
  split; [exact Hpos|]. split; [exact Hmax|].
  split; [apply positive_rate_positive_vsize; exact Hpos|].
  intros [Hn Hf]. apply Z.ltb_lt in Hn. apply Qlt_bool_iff in Hf.
  rewrite Hn, Hf in Hcpfp. discriminate Hcpfp.
Qed.

(** One block: the transactions that pass the rules are appended. *)
Lemma litecoin_scan_block_run (h : Z) (acc : list NetTx) (s : State W) :
  scan_block api h acc s
  = (Ok (acc ++ map net_entry
                  (List.filter kept_network (api_block api h (world s)).1)),
     {| world := (api_block api h (world s)).2;
        journal := journal s ++ [CallBlock h] |}).
Proof.
  unfold scan_block, Monad.bind, get_block_transactions.
  destruct (api_block api h (world s)) as [txs w]. simpl.
  destruct txs as [|tx txs].
  - simpl. rewrite app_nil_r. reflexivity.
  - unfold Monad.lift. rewrite sample_loop. reflexivity.
Qed.

Lemma litecoin_pass_total (heights : list Z) (acc : list NetTx)
    (s : State W) :
  Forall admissible acc ->
  exists r s',
    Monad.for_each heights (scan_block api) acc s = (Ok r, s') /\
    Forall admissible r.
Proof.
  revert acc s. induction heights as [|h heights IH]; intros acc s Hacc.
  - exists acc, s. split; [reflexivity|exact Hacc].
  - simpl. unfold Monad.bind. rewrite litecoin_scan_block_run.
    apply IH. apply Forall_app. split; [exact Hacc|].
    apply Forall_forall. intros e He.
    apply list_elem_of_fmap in He as (tx & -> & Htx).
    apply kept_is_admissible.
    apply list_elem_of_In, List.filter_In in Htx as [_ Htx]. exact Htx.
Qed.

(** How the network pass ends, from what [get_recent_blocks] did. *)
Lemma network_pass_outcome (s : State W) :
  match get_recent_blocks api NETWORK_BLOCKS_LIMIT s with
  | (Raise e, s1) =>
      e = KeyError /\
      analyze_network_transactions api s = (Raise KeyError, s1)
  | (Ok [], s1) =>
      analyze_network_transactions api s = (Raise ValueError, s1)
  | (Ok (h :: t), s1) =>
      exists r s',
        analyze_network_transactions api s = (Ok r, s') /\
        Forall admissible r
  end.
Proof.
  unfold analyze_network_transactions, Monad.bind.
  destruct (get_recent_blocks api NETWORK_BLOCKS_LIMIT s)
    as [[recent|e] s1] eqn:E.
  - destruct recent as [|h t]; [reflexivity|].
    apply litecoin_pass_total. constructor.
  - assert (He : e = KeyError).
    { unfold get_recent_blocks, Monad.bind, get_blockchain_info,
        request_blocks in E.
      destruct (api_blockchain_info api (world s)) as [[info|] w]; simpl in E.
      - destruct (blocks info); inversion E. reflexivity.
      - destruct (api_blocks api w) as [[bl|] w'']; simpl in E.
        + destruct (mapM height (slice_to bl NETWORK_BLOCKS_LIMIT));
            inversion E.
        + inversion E. }
    subst e. split; reflexivity.
Qed.

End LitecoinNetwork.

Section LitecoinNetworkTheorems.
Import Py Litecoin Observe Trace.

(** [get_recent_blocks] returns at most [limit] blocks (for a limit that is
    not negative), from the chain status as from the list of blocks; from
    the chain status, with the chain at height h, they are the heights from
    1 on that are above h - limit and at most h, each once. *)
Theorem recent_blocks_are_bounded (W : Type) (api : Api W) (limit : Z)
    (s s' : State W) (r : list Z) :
  get_recent_blocks api limit s = (Ok r, s') ->
  (0 <= limit)%Z ->
  (Z.of_nat (length r) <= limit)%Z /\
  forall info h w,
    api_blockchain_info api (world s) = (Some info, w) ->
    blocks info = Some h ->
    NoDup r /\
    forall x, x ∈ r <-> (1 <= x /\ h - limit < x /\ x <= h)%Z.
Proof. apply get_recent_blocks_bounded. Qed.

Lemma recent_blocks_are_bounded_witness :
  get_recent_blocks Cases.api_ltc_short 20 Scenario.ltc_start
  = (Ok [1; 2; 3]%Z, Cases.after_ltc_info) /\
  (0 <= 20)%Z /\
  (Z.of_nat (length [1; 2; 3]%Z) <= 20)%Z /\
  NoDup [1; 2; 3]%Z.
Proof.
  assert (H : get_recent_blocks Cases.api_ltc_short 20 Scenario.ltc_start
              = (Ok [1; 2; 3]%Z, Cases.after_ltc_info))
    by (vm_compute; reflexivity).
  assert (H0 : (0 <= 20)%Z) by lia.
  destruct (recent_blocks_are_bounded unit _ _ _ _ _ H H0) as [Hlen Hinfo].
  split; [exact H|]. split; [exact H0|]. split; [exact Hlen|].
  exact (proj1 (Hinfo {| blocks := Some 3%Z |} 3%Z tt eq_refl eq_refl)).
Defined.

(** A network pass of litecoin.py asks for at most 20 blocks, and every
    entry of the sample it returns has a fee rate in (0, 8.0], a positive
    virtual size, and is not a transaction of more than 5 inputs at a rate
    below 2.0. *)
Theorem network_sample_is_bounded (W : Type) (api : Api W)
    (s s' : State W) (r : list NetTx) :
  analyze_network_transactions api s = (Ok r, s') ->
  (length (scanned_heights (journal s'))
   <= length (scanned_heights (journal s)) + 20)%nat /\
  Forall admissible r.
Proof.
  intros H. split.
  - destruct (litecoin_scans_recent_blocks api s s' r H)
      as (recent & s1 & Hrecent & Hj).
    apply get_recent_blocks_bounded in Hrecent as [Hlen _];
      [|unfold NETWORK_BLOCKS_LIMIT; lia].
    rewrite Hj, length_app. unfold NETWORK_BLOCKS_LIMIT in Hlen. lia.
  - pose proof (network_pass_outcome api s) as Ho.
    destruct (get_recent_blocks api NETWORK_BLOCKS_LIMIT s)
      as [[[|h t]|e] s1].
    + rewrite Ho in H. discriminate H.
    + destruct Ho as (r' & s'' & Hr & Hadm). rewrite Hr in H.
      injection H as <- _. exact Hadm.
    + destruct Ho as [_ Ho]. rewrite Ho in H. discriminate H.
Qed.

Lemma network_sample_is_bounded_witness :
  exists r s',
    analyze_network_transactions Scenario.api_height_100 Scenario.ltc_start
    = (Ok r, s') /\
    (length (scanned_heights (journal s'))
     <= length (scanned_heights (journal Scenario.ltc_start)) + 20)%nat /\
    Forall admissible r.
Proof.
  destruct (analyze_network_transactions Scenario.api_height_100
              Scenario.ltc_start) as [[r|e] s'] eqn:E;
    [|vm_compute in E; discriminate E].
  exists r, s'. split; [reflexivity|].
  exact (network_sample_is_bounded unit _ _ _ _ E).
Defined.

(** A network pass of litecoin.py ends in one of three ways.  When the
    chain status comes without the number of blocks it raises KeyError.
    When no recent block is found (neither the chain status nor the list of
    blocks can be had) it raises ValueError, from the minimum of an empty
    list taken for a log line, and does not return an empty sample.  In
    every other case it returns a sample. *)
Theorem network_pass_ends (W : Type) (api : Api W) (s : State W) :
  (forall e s1,
      get_recent_blocks api NETWORK_BLOCKS_LIMIT s = (Raise e, s1) ->
      e = KeyError /\
      analyze_network_transactions api s = (Raise KeyError, s1)) /\
  (forall s1,
      get_recent_blocks api NETWORK_BLOCKS_LIMIT s = (Ok [], s1) ->
      analyze_network_transactions api s = (Raise ValueError, s1)) /\
  (forall h t s1,
      get_recent_blocks api NETWORK_BLOCKS_LIMIT s = (Ok (h :: t), s1) ->
      exists r s', analyze_network_transactions api s = (Ok r, s')).
Proof.
  pose proof (network_pass_outcome api s) as Ho.
  split; [|split].
  - intros e s1 H. rewrite H in Ho. exact Ho.
  - intros s1 H. rewrite H in Ho. exact Ho.
  - intros h t s1 H. rewrite H in Ho.
    destruct Ho as (r & s' & Hr & _). eauto.
Qed.

Lemma network_pass_ends_witness :
  (get_recent_blocks Cases.api_ltc_no_height NETWORK_BLOCKS_LIMIT
     Scenario.ltc_start = (Raise KeyError, Cases.after_ltc_info) /\
   analyze_network_transactions Cases.api_ltc_no_height Scenario.ltc_start
   = (Raise KeyError, Cases.after_ltc_info)) /\
  (get_recent_blocks Cases.api_ltc_down NETWORK_BLOCKS_LIMIT
     Scenario.ltc_start = (Ok [], Cases.after_ltc_info_and_blocks) /\
   analyze_network_transactions Cases.api_ltc_down Scenario.ltc_start
   = (Raise ValueError, Cases.after_ltc_info_and_blocks)) /\
  (get_recent_blocks Cases.api_ltc_short NETWORK_BLOCKS_LIMIT
     Scenario.ltc_start = (Ok [1; 2; 3]%Z, Cases.after_ltc_info) /\
   exists r s',
     analyze_network_transactions Cases.api_ltc_short Scenario.ltc_start
     = (Ok r, s')).
Proof.
  assert (H1 : get_recent_blocks Cases.api_ltc_no_height NETWORK_BLOCKS_LIMIT
                 Scenario.ltc_start = (Raise KeyError, Cases.after_ltc_info))
    by (vm_compute; reflexivity).
  assert (H2 : get_recent_blocks Cases.api_ltc_down NETWORK_BLOCKS_LIMIT
                 Scenario.ltc_start
               = (Ok [], Cases.after_ltc_info_and_blocks))
    by (vm_compute; reflexivity).
  assert (H3 : get_recent_blocks Cases.api_ltc_short NETWORK_BLOCKS_LIMIT
                 Scenario.ltc_start = (Ok [1; 2; 3]%Z, Cases.after_ltc_info))
    by (vm_compute; reflexivity).
  split; [|split].
  - split; [exact H1|].
    exact (proj2 (proj1 (network_pass_ends unit Cases.api_ltc_no_height
                           Scenario.ltc_start) _ _ H1)).
  - split; [exact H2|].
    exact (proj1 (proj2 (network_pass_ends unit Cases.api_ltc_down
                           Scenario.ltc_start)) _ H2).
  - split; [exact H3|].
    exact (proj2 (proj2 (network_pass_ends unit Cases.api_ltc_short
                           Scenario.ltc_start)) _ _ _ H3).
Defined.

End LitecoinNetworkTheorems.

(** ** How a run of litecoin.py can end *)

Section LitecoinMain.
Import Py Litecoin Observe Trace.
Context {W : Type} (api : Api W) (address : string).

Lemma our_stats_never_raise (s s' : State W) (e : exc) :
  get_our_transactions_stats api address s = (Raise e, s') -> False.
Proof.
  unfold get_our_transactions_stats.
  destruct (negb (truthy_str address)); [apply ret_raise|].
  unfold Monad.bind, request_address_txs.
  destruct (api_address_txs api address (world s)) as [[txs|] w];
    cbv iota beta; [|apply ret_raise].
  destruct (rbind _ _); apply ret_raise.
Qed.

Lemma compare_total (name : string) (ours network : Q) :
  exists row, compare name ours network = Ok row /\ row_name row = name.
Proof.
  unfold compare. rewrite percent_diff_total. simpl.
  eexists. split; reflexivity.
Qed.

(** With a sample that is not empty the table is made: five rows, no
    exception. *)
Lemma comparison_table_total (our : OurStats) (txs : list NetTx) :
  txs <> [] ->
  exists rows,
    comparison_table our txs = Ok rows /\
    map row_name rows
    = ["Fee (lit/vB)"; "Size (bytes)"; "Virtual Size (vB)"; "Inputs";
       "Outputs"].
Proof.
  intros Hne.
  assert (Hm : forall (f : NetTx -> Q), exists q, median (map f txs) = Ok q).
  { intros f. apply median_total. destruct txs; [contradiction|discriminate]. }
  unfold comparison_table.
  destruct (Hm nt_fee_per_byte) as [q1 ->].
  destruct (Hm nt_size) as [q2 ->].
  destruct (Hm nt_weight) as [q3 ->].
  destruct (Hm (fun t => inject_Z (nt_inputs t))) as [q4 ->].
  destruct (Hm (fun t => inject_Z (nt_outputs t))) as [q5 ->].
  destruct (Hm nt_vsize) as [q6 ->].
  cbn [rbind].
  destruct (compare_total "Fee (lit/vB)" (avg_fee_per_byte our) q1)
    as (r1 & -> & N1).
  destruct (compare_total "Size (bytes)" (avg_size our) q2) as (r2 & -> & N2).
  cbn [rbind]. rewrite (truediv_positive _ 4) by reflexivity. cbn [rbind].
  destruct (compare_total "Virtual Size (vB)" (avg_weight our / 4) q6)
    as (r3 & -> & N3).
  destruct (compare_total "Inputs" (avg_inputs our) q4) as (r4 & -> & N4).
  destruct (compare_total "Outputs" (avg_outputs our) q5) as (r5 & -> & N5).
  cbn [rbind]. eexists. split; [reflexivity|].
  simpl. rewrite N1, N2, N3, N4, N5. reflexivity.
Qed.

Lemma litecoin_main_raises (s s' : State W) (e : exc) :
  main api address s = (Raise e, s') -> e = KeyError \/ e = ValueError.
Proof.
  unfold main. intros H.
  destruct (negb (truthy_str address)); [apply ret_raise in H; contradiction|].
  apply bind_raise in H as [H|(our & s1 & _ & H)];
    [apply our_stats_never_raise in H; contradiction|].
  destruct our as [our|]; [|apply ret_raise in H; contradiction].
  apply bind_raise in H as [H|(txs & s2 & _ & H)].
  - pose proof (network_pass_outcome api s1) as Ho.
    destruct (get_recent_blocks api NETWORK_BLOCKS_LIMIT s1)
      as [[[|h t]|e1] s3].
    + rewrite Ho in H. inversion H. right. reflexivity.
    + destruct Ho as (r & s4 & Hr & _). rewrite Hr in H. discriminate H.
    + destruct Ho as [_ Ho]. rewrite Ho in H. inversion H. left. reflexivity.
  - destruct txs as [|t txs]; [apply ret_raise in H; contradiction|].
    apply bind_raise in H as [H|(table & s3 & _ & H)];
      [|apply ret_raise in H; contradiction].
    apply lift_raise in H.
    destruct (comparison_table_total our (t :: txs)) as (rows & Hrows & _);
      [discriminate|].
    rewrite Hrows in H. discriminate H.
Qed.

Lemma litecoin_main_table (s s' : State W) (table : list Row) :
  main api address s = (Ok (Some table), s') ->
  map row_name table
  = ["Fee (lit/vB)"; "Size (bytes)"; "Virtual Size (vB)"; "Inputs";
     "Outputs"] /\
  exists k,
    scanned_heights (journal s') = scanned_heights (journal s) ++ k /\
    k <> [] /\ (length k <= 20)%nat.
Proof.
  unfold main. intros H.
  destruct (negb (truthy_str address));
    [apply ret_ok in H as [H _]; discriminate H|].
  apply bind_ok in H as (our & s1 & Hour & H).
  destruct our as [our|]; [|apply ret_ok in H as [H _]; discriminate H].
  apply bind_ok in H as (txs & s2 & Hnet & H).
  destruct txs as [|t txs]; [apply ret_ok in H as [H _]; discriminate H|].
  apply bind_ok in H as (rows & s3 & Hrows & H).
  apply lift_ok in Hrows as [Hrows ->].
  apply ret_ok in H as [H ->]. injection H as ->.
  destruct (comparison_table_total our (t :: txs)) as (rows' & Hr' & Hn);
    [discriminate|].
  rewrite Hr' in Hrows. injection Hrows as <-. split; [exact Hn|].
  assert (Hsame : scanned_heights (journal s1) = scanned_heights (journal s)).
  { unfold get_our_transactions_stats in Hour.
    destruct (negb (truthy_str address));
      [apply ret_ok in Hour as [_ ->]; reflexivity|].
    unfold Monad.bind, request_address_txs in Hour.
    destruct (api_address_txs api address (world s)) as [[l|] w];
      cbv iota beta in Hour.
    - destruct (rbind _ _); apply ret_ok in Hour as [_ ->]; simpl;
        rewrite scanned_heights_app; simpl; apply app_nil_r.
    - apply ret_ok in Hour as [_ ->]. simpl.
      rewrite scanned_heights_app. simpl. apply app_nil_r. }
  destruct (litecoin_scans_recent_blocks api s1 s2 _ Hnet)
    as (recent & s4 & Hrecent & Hj).
  exists recent. split; [rewrite Hj, Hsame; reflexivity|].
  pose proof (network_pass_outcome api s1) as Ho.
  rewrite Hrecent in Ho.
  apply get_recent_blocks_bounded in Hrecent as [Hlen _];
    [|unfold NETWORK_BLOCKS_LIMIT; lia].
  unfold NETWORK_BLOCKS_LIMIT in Hlen.
  split; [|lia].
  destruct recent; [rewrite Ho in Hnet; discriminate Hnet|discriminate].
Qed.

End LitecoinMain.

Section LitecoinMainTheorems.
Import Py Litecoin Observe Trace.

(** A run of [main] of litecoin.py that raises does so with KeyError (the
    chain status lacks the number of blocks) or ValueError (no recent block
    was found): the medians and the percentages never raise, since the
    table is only made from a sample that is not empty. *)
Theorem litecoin_run_raises_only_for_want_of_blocks (W : Type)
    (api : Api W) (address : string) (s s' : State W) (e : exc) :
  main api address s = (Raise e, s') -> e = KeyError \/ e = ValueError.
Proof. apply litecoin_main_raises. Qed.

Lemma litecoin_run_raises_only_for_want_of_blocks_witness :
  exists s',
    main Cases.api_ltc_down Scenario.ltc_address Scenario.ltc_start
    = (Raise ValueError, s') /\
    (ValueError = KeyError \/ ValueError = ValueError).
Proof.
  destruct (main Cases.api_ltc_down Scenario.ltc_address Scenario.ltc_start)
    as [[r|e] s'] eqn:E; [vm_compute in E; discriminate E|].
  assert (He : e = ValueError) by (vm_compute in E; congruence).
  subst e. exists s'. split; [reflexivity|].
  exact (litecoin_run_raises_only_for_want_of_blocks unit _ _ _ _ _ E).
Defined.

(** A run of [main] of litecoin.py that builds a table has scanned at
    least one block and at most 20, and the table has the five rows fee,
    size, virtual size, inputs and outputs, in this order. *)
Theorem litecoin_table_rows (W : Type) (api : Api W) (address : string)
    (s s' : State W) (table : list Row) :
  main api address s = (Ok (Some table), s') ->
  map row_name table
  = ["Fee (lit/vB)"; "Size (bytes)"; "Virtual Size (vB)"; "Inputs";
     "Outputs"] /\
  exists k,
    scanned_heights (journal s') = scanned_heights (journal s) ++ k /\
    k <> [] /\ (length k <= 20)%nat.
Proof. apply litecoin_main_table. Qed.

Lemma litecoin_table_rows_witness :
  exists table s',
    main Scenario.api_height_100 Scenario.ltc_address Scenario.ltc_start
    = (Ok (Some table), s') /\
    map row_name table
    = ["Fee (lit/vB)"; "Size (bytes)"; "Virtual Size (vB)"; "Inputs";
       "Outputs"].
Proof.
  destruct (main Scenario.api_height_100 Scenario.ltc_address
              Scenario.ltc_start) as [[[table|]|e] s'] eqn:E;
    try (vm_compute in E; discriminate E).
  exists table, s'. split; [reflexivity|].
  exact (proj1 (litecoin_table_rows unit _ _ _ _ _ E)).
Defined.

End LitecoinMainTheorems.

(** ** The sign of the fee rate *)

Section FeeSign.
Import Py Litecoin Observe.

Lemma fee_rate_quotient (tx : Tx) :
  (0 < vsize_of tx)%Q ->
  fee_rate tx = (default 0 (fee tx) / vsize_of tx)%Q.
Proof.
  unfold fee_rate, vsize_of, calculate_fee_per_byte.
  destruct (Report.Qlt_bool 0 (default 0%Q (weight tx))) eqn:Ew.
  - rewrite (truediv_positive _ 4) by reflexivity. simpl.
    destruct (Report.Qlt_bool 0 (default 0%Q (weight tx) / 4)) eqn:Ev.
    + rewrite (truediv_positive _ _ Ev). reflexivity.
    + simpl. intros H. apply Qlt_bool_iff in H. congruence.
  - simpl. destruct (Report.Qlt_bool 0 (default 1%Q (size tx))) eqn:Ev.
    + rewrite (truediv_positive _ _ Ev). reflexivity.
    + simpl. intros H. apply Qlt_bool_iff in H. congruence.
Qed.

(** The fee rate that [calculate_fee_per_byte] returns is positive exactly
    when the transaction pays a fee and has a positive virtual size.  So a
    transaction without a fee, one whose fee is 0 or negative, and one
    whose size and weight are both 0, all fail the test [0 < fee_per_byte]
    of the network sample. *)
Theorem fee_rate_positive_iff (tx : Tx) :
  (0 < fee_rate tx)%Q <->
  (0 < default 0 (fee tx))%Q /\ (0 < vsize_of tx)%Q.
Proof.
  split.
  - intros Hr. pose proof (positive_rate_positive_vsize tx Hr) as Hv.
    split; [|exact Hv].
    rewrite (fee_rate_quotient tx Hv) in Hr.
    assert (Hne : ~ (vsize_of tx == 0)%Q).
    { intros E. rewrite E in Hv. exact (Qlt_irrefl 0 Hv). }
    assert (Hmul : (default 0 (fee tx) / vsize_of tx * vsize_of tx
                    == default 0 (fee tx))%Q).
    { rewrite Qmult_comm. apply Qmult_div_r. exact Hne. }
    rewrite <- Hmul. apply Qmult_lt_0_compat; assumption.
  - intros [Hf Hv]. rewrite (fee_rate_quotient tx Hv).
    apply Qlt_shift_div_l; [exact Hv|].
    rewrite Qmult_0_l. exact Hf.
Qed.

End FeeSign.

(** ** arbitrum.py and the user's own traffic *)

Section OwnTrafficTheorems.
Import Py Account Observe.

(** A pass of [collect_network_transfers] of arbitrum.py over any blocks
    gives the same result, with the same requests, as a pass over the same
    blocks with every transaction sent from the user's address taken out:
    such a transaction costs no receipt request and is never part of the
    sample, also when reading it would have raised. *)
Theorem arbitrum_sample_without_own_traffic (W : Type) (api : Api W)
    (cfg : Config) (blocks : list Z) (tokens : gset string) (s : State W) :
  Arbitrum.collect_network_transfers api cfg blocks tokens s
  = Arbitrum.collect_network_transfers (without_own cfg api) cfg blocks
      tokens s.
Proof. apply arbitrum_ignores_own_traffic. Qed.

End OwnTrafficTheorems.
